(** * Dynamic-form engine: canonicaliser, version registry, merge engine and
      answer ingestion of the forms application, embedded from
      [backend/app/utils.py], [backend/app/crud.py] and [backend/app/main.py].

    JSON documents are kept as the Python code sees them: loosely typed
    values whose objects are insertion-ordered dictionaries with string
    keys.  Python exceptions are explicit: a pure helper that can raise
    returns [option], database operations run in a small state-and-error
    monad whose state (the committed database) survives an error. *)

From Stdlib Require Import List String Ascii ZArith Lia Bool Arith PeanoNat Permutation.
From Stdlib Require Import Numbers.DecimalString.
Import ListNotations.

Set Warnings "-register-all".
Local Open Scope string_scope.
Local Open Scope list_scope.
Local Open Scope nat_scope.

(* ===================================================================== *)
(** ** Python values and built-ins                                        *)
(* ===================================================================== *)

Module Py.

(** A value decoded from JSON.  [JFloat m e] is the finite float [m * 2^e].
    Dictionaries keep insertion order, as Python's [dict] does. *)
Inductive json : Type :=
| JNull : json
| JBool : bool -> json
| JInt : Z -> json
| JFloat : Z -> Z -> json
| JStr : string -> json
| JList : list json -> json
| JDict : list (string * json) -> json.

Definition dict := list (string * json).

(** *** Strings (ASCII range: [len] counts characters, code points above
    127 are caseless and never white space) *)

(** [str.isspace] on one ASCII character: TAB..CR, FS..US and SPACE. *)
Definition is_space (c : ascii) : bool :=
  let n := nat_of_ascii c in
  ((9 <=? n) && (n <=? 13)) || ((28 <=? n) && (n <=? 32)).

Fixpoint lstrip (s : string) : string :=
  match s with
  | EmptyString => EmptyString
  | String c s' => if is_space c then lstrip s' else s
  end.

Fixpoint rstrip (s : string) : string :=
  match s with
  | EmptyString => EmptyString
  | String c s' =>
      match rstrip s' with
      | EmptyString => if is_space c then EmptyString else String c EmptyString
      | r => String c r
      end
  end.

(** [s.strip()] *)
Definition strip (s : string) : string := lstrip (rstrip s).

(** [s.split()]: the maximal runs of non-space characters. *)
Fixpoint split (s : string) : list string :=
  match s with
  | EmptyString => []
  | String c s' =>
      if is_space c then split s'
      else match s' with
           | EmptyString => [String c EmptyString]
           | String c' _ =>
               if is_space c' then String c EmptyString :: split s'
               else match split s' with
                    | w :: ws => String c w :: ws
                    | [] => [String c EmptyString]
                    end
           end
  end.

(** Line boundaries of [str.splitlines] in the ASCII range:
    LF, VT, FF, CR, FS, GS, RS (CR LF counts once). *)
Definition is_linebreak (c : ascii) : bool :=
  let n := nat_of_ascii c in
  ((10 <=? n) && (n <=? 13)) || ((28 <=? n) && (n <=? 30)).

Fixpoint splitlines_from (cur : string) (s : string) : list string :=
  match s with
  | EmptyString => if String.eqb cur "" then [] else [cur]
  | String c s' =>
      if Ascii.eqb c "013"%char then
        match s' with
        | String c' s'' =>
            if Ascii.eqb c' "010"%char then cur :: splitlines_from "" s''
            else cur :: splitlines_from "" s'
        | EmptyString => [cur]
        end
      else if is_linebreak c then cur :: splitlines_from "" s'
      else splitlines_from (cur ++ String c EmptyString)%string s'
  end.

(** [s.splitlines()] *)
Definition splitlines (s : string) : list string := splitlines_from "" s.

Definition lower_char (c : ascii) : ascii :=
  let n := nat_of_ascii c in
  if (65 <=? n) && (n <=? 90) then ascii_of_nat (n + 32) else c.

Fixpoint lower (s : string) : string :=
  match s with
  | EmptyString => EmptyString
  | String c s' => String (lower_char c) (lower s')
  end.

(** [s.casefold()] agrees with [s.lower()] on ASCII text. *)
Definition casefold (s : string) : string := lower s.

(** [sep.join(parts)] *)
Definition join (sep : string) (parts : list string) : string :=
  String.concat sep parts.

(** [s[i]] for an index known to be in range. *)
Definition char_at (i : nat) (s : string) : option ascii := String.get i s.

Definition is_digit (c : ascii) : bool :=
  let n := nat_of_ascii c in (48 <=? n) && (n <=? 57).

(** [str(n)] for an [int]. *)
Definition str_of_Z (z : Z) : string := NilZero.string_of_int (Z.to_int z).

(** [x in (s1, ..., sn)] / [x in {s1, ..., sn}] for a string [x]. *)
Definition str_in (x : string) (l : list string) : bool :=
  existsb (String.eqb x) l.

(** *** Dictionaries *)

(** [d.get(k)]; [None] stands for an absent key. *)
Fixpoint dict_get (k : string) (d : dict) : option json :=
  match d with
  | [] => None
  | (k', v) :: d' => if String.eqb k k' then Some v else dict_get k d'
  end.

(** [k in d] *)
Definition dict_has (k : string) (d : dict) : bool :=
  match dict_get k d with Some _ => true | None => false end.

(** [d.get(k)] as Python returns it: [None] (JSON null) for an absent key. *)
Definition get_or_null (k : string) (d : dict) : json :=
  match dict_get k d with Some v => v | None => JNull end.

(** [d.get(k, default)] *)
Definition get_default (k : string) (default : json) (d : dict) : json :=
  match dict_get k d with Some v => v | None => default end.

(** [d[k] = v]: an existing key keeps its place, a new key goes last. *)
Fixpoint dict_set (k : string) (v : json) (d : dict) : dict :=
  match d with
  | [] => [(k, v)]
  | (k', v') :: d' =>
      if String.eqb k k' then (k', v) :: d' else (k', v') :: dict_set k v d'
  end.

(** [d.setdefault(k, v)] *)
Definition setdefault (k : string) (v : json) (d : dict) : dict :=
  if dict_has k d then d else dict_set k v d.

(** [d.pop(k)] for a key of [d]: the remaining dictionary. *)
Fixpoint dict_remove (k : string) (d : dict) : dict :=
  match d with
  | [] => []
  | (k', v') :: d' =>
      if String.eqb k k' then d' else (k', v') :: dict_remove k d'
  end.

(** *** Generic finite maps with string keys (lookups, label tables) *)

Fixpoint assoc_get {A} (k : string) (d : list (string * A)) : option A :=
  match d with
  | [] => None
  | (k', v) :: d' => if String.eqb k k' then Some v else assoc_get k d'
  end.

Fixpoint assoc_set {A} (k : string) (v : A) (d : list (string * A))
  : list (string * A) :=
  match d with
  | [] => [(k, v)]
  | (k', v') :: d' =>
      if String.eqb k k' then (k', v) :: d' else (k', v') :: assoc_set k v d'
  end.

(** *** Dynamic typing *)

(** [bool(v)]: Python truthiness. *)
Definition truthy (v : json) : bool :=
  match v with
  | JNull => false
  | JBool b => b
  | JInt z => negb (z =? 0)%Z
  | JFloat m _ => negb (m =? 0)%Z
  | JStr s => negb (String.eqb s "")
  | JList l => match l with [] => false | _ => true end
  | JDict d => match d with [] => false | _ => true end
  end.

(** [a or b] *)
Definition py_or (a b : json) : json := if truthy a then a else b.

(** [v == s] for a string constant [s]. *)
Definition eq_str (v : json) (s : string) : bool :=
  match v with JStr s' => String.eqb s' s | _ => false end.

(** The float [m * 2^e] equals the integer [1]. *)
Definition float_is_one (m e : Z) : bool :=
  if (0 <=? e)%Z then (m * 2 ^ e =? 1)%Z else (m =? 2 ^ (- e))%Z.

(** [v == 0] and [v == 1] for a number (booleans compare as 0 and 1). *)
Definition eq_zero (v : json) : bool :=
  match v with
  | JBool b => negb b
  | JInt z => (z =? 0)%Z
  | JFloat m _ => (m =? 0)%Z
  | _ => false
  end.

Definition eq_one (v : json) : bool :=
  match v with
  | JBool b => b
  | JInt z => (z =? 1)%Z
  | JFloat m e => float_is_one m e
  | _ => false
  end.

(** [isinstance(v, dict)], [isinstance(v, list)], ... *)
Definition is_dict (v : json) : bool :=
  match v with JDict _ => true | _ => false end.
Definition is_list (v : json) : bool :=
  match v with JList _ => true | _ => false end.

(** [for x in v]: lists yield their items, strings their characters,
    dictionaries their keys; anything else raises [TypeError]. *)
Fixpoint chars (s : string) : list json :=
  match s with
  | EmptyString => []
  | String c s' => JStr (String c EmptyString) :: chars s'
  end.

Definition py_iter (v : json) : option (list json) :=
  match v with
  | JList l => Some l
  | JStr s => Some (chars s)
  | JDict d => Some (map (fun kv => JStr (fst kv)) d)
  | _ => None
  end.

(** [dict(v)] and the attribute access [v.get] need a JSON object.  On any
    other value Python raises, except that [dict] also accepts an iterable
    of pairs; that coercion never arises on the documents this program
    stores and is treated as an error here. *)
Definition as_dict (v : json) : option dict :=
  match v with JDict d => Some d | _ => None end.

(** What the interpreter and the standard library supply: [repr] of floats
    and containers, [json.loads], [uuid.UUID] parsing and the stream of
    identifiers produced by successive [uuid.uuid4()] calls. *)
Class Runtime : Type := {
  py_repr : json -> string;
  json_loads : string -> option json;
  uuid_parses : string -> bool;
  uuid4 : nat -> string
}.

(** [str(v)] *)
Definition py_str `{R : Runtime} (v : json) : string :=
  match v with
  | JNull => "None"
  | JBool true => "True"
  | JBool false => "False"
  | JInt z => str_of_Z z
  | JStr s => s
  | _ => py_repr v
  end.

End Py.

(* ===================================================================== *)
(** ** [utils.py]: canonicalisation and auto-question helpers             *)
(* ===================================================================== *)

Module Utils.
Import Py.

(** Code that draws identifiers from [uuid.uuid4()] and may raise: the
    state is the number of identifiers drawn so far, [None] an exception. *)
Definition Gen (A : Type) : Type := nat -> option (A * nat).

Definition gret {A} (a : A) : Gen A := fun n => Some (a, n).

Definition gbind {A B} (m : Gen A) (k : A -> Gen B) : Gen B :=
  fun n => match m n with
           | Some (a, n') => k a n'
           | None => None
           end.

Definition glift {A} (o : option A) : Gen A :=
  fun n => match o with Some a => Some (a, n) | None => None end.

(** [str(uuid.uuid4())] *)
Definition fresh_uuid `{R : Runtime} : Gen string := fun n => Some (uuid4 n, S n).

Fixpoint gmap {A B} (f : A -> Gen B) (l : list A) : Gen (list B) :=
  match l with
  | [] => gret []
  | a :: l' => gbind (f a) (fun b => gbind (gmap f l') (fun bs => gret (b :: bs)))
  end.

Section WithRuntime.
Context `{R : Runtime}.

Definition is_uuid (value : string) : bool := uuid_parses value.

Definition nonempty (s : string) : bool := negb (String.eqb s "").

Definition _split_nonempty_lines (text : string) : list string :=
  map strip (filter (fun line => nonempty (strip line)) (splitlines text)).

(** [unhashable v]: [v in {...}] raises [TypeError] for lists and dicts. *)
Definition unhashable (v : json) : bool :=
  match v with JList _ | JDict _ => true | _ => false end.

(** [isinstance(x, str) and len(x) <= 1] *)
Definition single_char (x : json) : bool :=
  match x with JStr s => String.length s <=? 1 | _ => false end.

(** The block [if qtype in {"dropdown", "dropdown_mapped"}]. *)
Definition normalize_options (qtype : json) (q : dict) : dict :=
  if eq_str qtype "dropdown" || eq_str qtype "dropdown_mapped" then
    match get_or_null "options" q with
    | JStr opts =>
        dict_set "options" (JList (map JStr (_split_nonempty_lines opts))) q
    | JList opts =>
        if truthy (JList opts) && forallb single_char opts then
          dict_set "options"
            (JList (map JStr (_split_nonempty_lines (join "" (map py_str opts))))) q
        else
          dict_set "options"
            (JList (map JStr (filter nonempty
                                (map (fun x => strip (py_str x)) opts)))) q
    | _ => q
    end
  else q.

(** The block [if qtype == "dropdown_mapped"]. *)
Definition normalize_value_map (qtype : json) (q : dict) : dict :=
  if eq_str qtype "dropdown_mapped" then
    match get_or_null "value_map" q with
    | JNull => dict_set "value_map" (JDict []) q
    | JDict value_map => dict_set "value_map" (JDict value_map) q
    | JStr value_map =>
        match json_loads value_map with
        | Some (JDict parsed) => dict_set "value_map" (JDict parsed) q
        | _ => dict_set "value_map" (JDict []) q
        end
    | _ => dict_set "value_map" (JDict []) q
    end
  else q.

Definition normalize_dropdown_options (question : dict) : option dict :=
  let q := question in
  let qtype := get_or_null "type" q in
  if unhashable qtype then None
  else Some (normalize_value_map qtype (normalize_options qtype q)).

(** Body of the inner loop of [ensure_question_ids].  The argument of
    [setdefault] is evaluated before the call, so an identifier is drawn
    for every question and dropped when the question has an [id]. *)
Definition ensure_question_id (q : json) : Gen json :=
  gbind (glift (as_dict q)) (fun q =>
  gbind (glift (normalize_dropdown_options q)) (fun q =>
  gbind fresh_uuid (fun u =>
  gret (JDict (setdefault "id" (JStr u) q))))).

Definition ensure_section_ids (sec : json) : Gen json :=
  gbind (glift (as_dict sec)) (fun sec =>
  gbind (glift (py_iter (get_default "questions" (JList []) sec))) (fun qs =>
  gbind (gmap ensure_question_id qs) (fun questions =>
  gret (JDict (dict_set "questions" (JList questions) sec))))).

Definition ensure_question_ids (canonical : dict) : Gen dict :=
  gbind (glift (py_iter (get_default "sections" (JList []) canonical))) (fun sections =>
  gbind (gmap ensure_section_ids sections) (fun new_sections =>
  let canonical := dict_set "sections" (JList new_sections) canonical in
  gret (setdefault "title"
          (py_or (get_or_null "name" canonical) (JStr "Untitled")) canonical))).

(** The question object built from one legacy item; both legacy shapes read
    the same fields, from [meta] in the first and from the item itself in
    the second. *)
Definition legacy_qobj (text : string) (meta : dict) : dict :=
  let qobj :=
    [("text", JStr text);
     ("type", JStr (py_str (get_default "type" (JStr "short_text") meta)));
     ("required", JBool (truthy (get_default "required" (JBool true) meta)))] in
  let qobj :=
    match get_or_null "options" meta with
    | JList options => dict_set "options" (JList (map (fun x => JStr (py_str x)) options)) qobj
    | _ => qobj
    end in
  match py_or (get_or_null "value_map" meta) (get_or_null "map" meta) with
  | JDict value_map => dict_set "value_map" (JDict value_map) qobj
  | _ => qobj
  end.

Definition legacy_item (item : json) : list json :=
  match item with
  | JDict [(q_text, meta)] =>
      [JDict (legacy_qobj q_text (match meta with JDict m => m | _ => [] end))]
  | JDict it =>
      if dict_has "question" it
      then [JDict (legacy_qobj (py_str (get_or_null "question" it)) it)]
      else []
  | _ => []
  end.

Definition legacy_section (entry : string * json) : json :=
  let (section_title, items) := entry in
  let questions :=
    match items with
    | JList its => flat_map legacy_item its
    | _ => []
    end in
  JDict [("title", JStr section_title); ("questions", JList questions)].

Definition to_canonical_question_set (raw : json) (fallback_name : string)
  : Gen dict :=
  match raw with
  | JDict d =>
      if dict_has "sections" d && dict_has "title" d then ensure_question_ids d
      else
        match d with
        | [(title, inner)] =>
            let sections :=
              match inner with
              | JDict secs => map legacy_section secs
              | _ => []
              end in
            ensure_question_ids [("title", JStr title); ("sections", JList sections)]
        | _ =>
            ensure_question_ids
              [("title", JStr fallback_name);
               ("sections",
                JList [JDict [("title", JStr "Section"); ("questions", JList [])]])]
        end
  | _ =>
      ensure_question_ids
        [("title", JStr fallback_name);
         ("sections",
          JList [JDict [("title", JStr "Section"); ("questions", JList [])]])]
  end.

Definition canonical_project_custom_questions (raw : json) : Gen dict :=
  match raw with
  | JDict d =>
      if dict_has "sections" d && dict_has "title" d then ensure_question_ids d
      else ensure_question_ids [("title", JStr "Custom"); ("sections", JList [])]
  | _ => ensure_question_ids [("title", JStr "Custom"); ("sections", JList [])]
  end.

Definition normalize_label (label : string) : string :=
  casefold (join " " (split (strip label))).

Definition normalize_yes_no (value : json) : json :=
  match value with
  | JBool true => JStr "yes"
  | JBool false => JStr "no"
  | JStr s =>
      let vv := lower (strip s) in
      if str_in vv ["true"; "t"; "1"; "yes"; "y"] then JStr "yes"
      else if str_in vv ["false"; "f"; "0"; "no"; "n"] then JStr "no"
      else value
  | _ =>
      if eq_zero value || eq_one value
      then (if eq_one value then JStr "yes" else JStr "no")
      else value
  end.

(** [len(raw.strip()) == 10 and raw.strip()[4] == "-"] *)
Definition looks_like_date (raw : string) : bool :=
  (String.length (strip raw) =? 10) &&
  match char_at 4 (strip raw) with
  | Some c => Ascii.eqb c "-"%char
  | None => false
  end.

(** [re.fullmatch(r"\d{4}-\d{2}-\d{2}", raw.strip())] *)
Definition matches_iso_date (raw : string) : bool :=
  match list_ascii_of_string (strip raw) with
  | [y1; y2; y3; y4; d1; m1; m2; d2; n1; n2] =>
      forallb is_digit [y1; y2; y3; y4; m1; m2; n1; n2]
      && Ascii.eqb d1 "-"%char && Ascii.eqb d2 "-"%char
  | _ => false
  end.

(** "Structured input shape": the overrides a posted object carries. *)
Definition apply_meta (question : dict) (raw : json) : dict * json :=
  match raw with
  | JDict meta =>
      let qtype := py_or (get_or_null "type" meta) (get_or_null "qtype" meta) in
      let value :=
        if dict_has "value" meta then get_or_null "value" meta
        else get_default "answer" (JDict meta) meta in
      let question :=
        if truthy qtype then dict_set "type" (JStr (py_str qtype)) question
        else question in
      let question :=
        if is_list (get_or_null "options" meta)
        then dict_set "options" (get_or_null "options" meta) question
        else question in
      let question :=
        if is_dict (get_or_null "value_map" meta)
        then dict_set "value_map" (get_or_null "value_map" meta) question
        else question in
      (question, value)
  | _ => (question, raw)
  end.

(** "Type inference"; [date_test] is the test that recognises a date. *)
Definition infer_type (date_test : string -> bool) (question : dict) (raw : json)
  : dict * json :=
  if negb (dict_has "type" question) then
    match raw with
    | JBool _ => (dict_set "type" (JStr "yes_no") question, normalize_yes_no raw)
    | JInt _ | JFloat _ _ => (dict_set "type" (JStr "numeric") question, raw)
    | JStr s =>
        if date_test s then (dict_set "type" (JStr "date") question, raw)
        else (dict_set "type"
                (JStr (if 80 <? String.length s then "long_text" else "short_text"))
                question, raw)
    | _ => (dict_set "type" (JStr "short_text") question, raw)
    end
  else (question, raw).

(** The two copies of the inference routine, [utils.infer_question_from_value]
    and [main._infer_question_from_value], differ only in the test that
    recognises a date. *)
Definition infer_with (date_test : string -> bool) (label : string) (raw : json)
  : Gen (dict * json) :=
  gbind fresh_uuid (fun u =>
  let question :=
    [("id", JStr u); ("text", JStr (strip label)); ("required", JBool false)] in
  let structured := apply_meta question raw in
  let inferred := infer_type date_test (fst structured) (snd structured) in
  let question := fst inferred in
  let raw := snd inferred in
  let raw :=
    if eq_str (get_or_null "type" question) "yes_no" then normalize_yes_no raw
    else raw in
  gret (question, raw)).

Definition infer_question_from_value : string -> json -> Gen (dict * json) :=
  infer_with looks_like_date.

End WithRuntime.
End Utils.

(* ===================================================================== *)
(** ** [models.py]: tables, and the monad of request handlers             *)
(* ===================================================================== *)

Module Models.
Import Py.

Record QuestionSet : Type := {
  qs_id : Z;
  qs_name : string;
  qs_deleted : bool;          (* [deleted_at is not None] *)
  qs_data : dict
}.

Record ProjectQuestionSet : Type := {
  pqs_id : Z;
  pqs_project_id : Z;
  pqs_question_set_id : Z;
  pqs_position : Z
}.

Record Project : Type := {
  p_id : Z;
  p_name : string;
  p_focalpoint_code : option Z;
  p_custom_questions : json
}.

Record AnswerRecord : Type := {
  rec_id : Z;
  rec_project_id : Z;
  rec_created_by_user_id : Z;
  rec_answers : dict
}.

(** The committed database, its primary-key sequences, and the number of
    identifiers [uuid.uuid4()] has handed out. *)
Record World : Type := {
  question_sets : list QuestionSet;
  project_question_sets : list ProjectQuestionSet;
  projects : list Project;
  records : list AnswerRecord;
  next_question_set_id : Z;
  next_record_id : Z;
  uuids_drawn : nat
}.

Definition with_question_sets (w : World) (l : list QuestionSet) (next : Z) : World :=
  {| question_sets := l;
     project_question_sets := project_question_sets w;
     projects := projects w;
     records := records w;
     next_question_set_id := next;
     next_record_id := next_record_id w;
     uuids_drawn := uuids_drawn w |}.

Definition with_project_question_sets (w : World) (l : list ProjectQuestionSet) : World :=
  {| question_sets := question_sets w;
     project_question_sets := l;
     projects := projects w;
     records := records w;
     next_question_set_id := next_question_set_id w;
     next_record_id := next_record_id w;
     uuids_drawn := uuids_drawn w |}.

Definition with_projects (w : World) (l : list Project) : World :=
  {| question_sets := question_sets w;
     project_question_sets := project_question_sets w;
     projects := l;
     records := records w;
     next_question_set_id := next_question_set_id w;
     next_record_id := next_record_id w;
     uuids_drawn := uuids_drawn w |}.

Definition with_records (w : World) (l : list AnswerRecord) (next : Z) : World :=
  {| question_sets := question_sets w;
     project_question_sets := project_question_sets w;
     projects := projects w;
     records := l;
     next_question_set_id := next_question_set_id w;
     next_record_id := next;
     uuids_drawn := uuids_drawn w |}.

Definition with_uuids_drawn (w : World) (n : nat) : World :=
  {| question_sets := question_sets w;
     project_question_sets := project_question_sets w;
     projects := projects w;
     records := records w;
     next_question_set_id := next_question_set_id w;
     next_record_id := next_record_id w;
     uuids_drawn := n |}.

(** How a handler ends: a value, an [HTTPException], or an exception the
    handler does not catch ([TypeError], [KeyError], [AttributeError]). *)
Inductive outcome (A : Type) : Type :=
| Ok : A -> outcome A
| HTTPError : Z -> string -> outcome A
| PyError : outcome A.

Arguments Ok {A} _.
Arguments HTTPError {A} _ _.
Arguments PyError {A}.

(** Every [crud] function commits before it returns and raises only before
    it writes, so the state that survives an exception is the state at the
    point of the [raise]. *)
Definition M (A : Type) : Type := World -> outcome A * World.

Definition ret {A} (a : A) : M A := fun w => (Ok a, w).

Definition bind {A B} (m : M A) (k : A -> M B) : M B :=
  fun w => match m w with
           | (Ok a, w') => k a w'
           | (HTTPError s d, w') => (HTTPError s d, w')
           | (PyError, w') => (PyError, w')
           end.

Definition raise_http {A} (status : Z) (detail : string) : M A :=
  fun w => (HTTPError status detail, w).

Definition get_world : M World := fun w => (Ok w, w).

Definition put_world (w : World) : M unit := fun _ => (Ok tt, w).

(** A [utils] computation inside a handler. *)
Definition run_gen {A} (g : Utils.Gen A) : M A :=
  fun w => match g (uuids_drawn w) with
           | Some (a, n) => (Ok a, with_uuids_drawn w n)
           | None => (PyError, w)
           end.

(** A pure helper that may raise. *)
Definition run_opt {A} (o : option A) : M A :=
  fun w => match o with Some a => (Ok a, w) | None => (PyError, w) end.

End Models.

Declare Scope handler_scope.
Delimit Scope handler_scope with handler.
Notation "x <- m ;; k" := (Models.bind m (fun x => k))
  (at level 100, m at next level, right associativity) : handler_scope.
Notation "m ;;; k" := (Models.bind m (fun _ => k))
  (at level 100, right associativity) : handler_scope.

(* ===================================================================== *)
(** ** [crud.py]: version registry, merge engine, custom questions        *)
(* ===================================================================== *)

Module Crud.
Import Py Models.
Local Open Scope handler_scope.

Section WithRuntime.
Context `{R : Runtime}.

(** [db.get(Model, id)] *)
Definition get_question_set (w : World) (id : Z) : option QuestionSet :=
  find (fun q => (qs_id q =? id)%Z) (question_sets w).

Definition get_project (w : World) (id : Z) : option Project :=
  find (fun p => (p_id p =? id)%Z) (projects w).

Definition _get_or_404 {A} (obj : option A) (detail : string) : M A :=
  match obj with
  | Some a => ret a
  | None => raise_http 404 detail
  end.

(** *** create_question_set *)

Definition set_question_set_id (row : ProjectQuestionSet) (id : Z) : ProjectQuestionSet :=
  {| pqs_id := pqs_id row;
     pqs_project_id := pqs_project_id row;
     pqs_question_set_id := id;
     pqs_position := pqs_position row |}.

(** The select of [old_ids]: other live versions with the same name. *)
Definition old_ids (w : World) (name : string) (new_id : Z) : list Z :=
  map qs_id
    (filter (fun q => String.eqb (qs_name q) name
                      && negb (qs_id q =? new_id)%Z
                      && negb (qs_deleted q))
       (question_sets w)).

Definition mem_Z (x : Z) (l : list Z) : bool := existsb (Z.eqb x) l.

(** One turn of the loop over [rows], on the assignment table as the
    session sees it (the query at the top of each turn flushes the change
    made by the turn before).  The table's unique constraint on
    [(project_id, question_set_id)] leaves [scalar_one_or_none] at most one
    row to return. *)
Definition upgrade_row (new_id : Z) (table : list ProjectQuestionSet)
  (row : ProjectQuestionSet) : list ProjectQuestionSet :=
  let exists_new :=
    existsb (fun r => (pqs_project_id r =? pqs_project_id row)%Z
                      && (pqs_question_set_id r =? new_id)%Z) table in
  if exists_new
  then filter (fun r => negb (pqs_id r =? pqs_id row)%Z) table
  else map (fun r => if (pqs_id r =? pqs_id row)%Z
                     then set_question_set_id r new_id else r) table.

Definition auto_upgrade (w : World) (name : string) (new_id : Z)
  : list ProjectQuestionSet :=
  let olds := old_ids w name new_id in
  match olds with
  | [] => project_question_sets w
  | _ =>
      let rows :=
        filter (fun r => mem_Z (pqs_question_set_id r) olds)
          (project_question_sets w) in
      fold_left (upgrade_row new_id) rows (project_question_sets w)
  end.

Definition create_question_set (name : string) (raw_data : json) : M QuestionSet :=
  canonical <- run_gen (Utils.to_canonical_question_set raw_data name) ;;
  w <- get_world ;;
  let qs := {| qs_id := next_question_set_id w;
               qs_name := name;
               qs_deleted := false;
               qs_data := canonical |} in
  put_world (with_question_sets w (question_sets w ++ [qs])
               (next_question_set_id w + 1)%Z) ;;;
  w <- get_world ;;
  put_world (with_project_question_sets w (auto_upgrade w name (qs_id qs))) ;;;
  ret qs.

(** *** merged_project_form *)

(** [ORDER BY position]; rows with equal positions keep their table order. *)
Fixpoint insert_by_position (row : ProjectQuestionSet)
  (sorted : list ProjectQuestionSet) : list ProjectQuestionSet :=
  match sorted with
  | [] => [row]
  | r :: rest =>
      if (pqs_position row <? pqs_position r)%Z then row :: sorted
      else r :: insert_by_position row rest
  end.

Definition order_by_position (rows : list ProjectQuestionSet)
  : list ProjectQuestionSet :=
  fold_right insert_by_position [] rows.

Definition project_links (w : World) (project_id : Z) : list ProjectQuestionSet :=
  order_by_position
    (filter (fun r => (pqs_project_id r =? project_id)%Z) (project_question_sets w)).

(** The first loop: the data of every assigned version that still exists. *)
Fixpoint collect_sets (w : World) (links : list ProjectQuestionSet) : list dict :=
  match links with
  | [] => []
  | link :: rest =>
      match get_question_set w (pqs_question_set_id link) with
      | Some qs => qs_data qs :: collect_sets w rest
      | None => collect_sets w rest
      end
  end.

Definition merged_section (prefix : string) (sec : dict) : json :=
  JDict [("title",
          JStr (prefix ++ " — " ++ py_str (get_default "title" (JStr "Section") sec))%string);
         ("questions", get_default "questions" (JList []) sec)].

(** The inner loops: each section is appended to [merged_sections]. *)
Fixpoint append_sections (prefix : string) (secs : list json)
  (merged_sections : list json) : option (list json) :=
  match secs with
  | [] => Some merged_sections
  | sec :: rest =>
      match as_dict sec with
      | Some sec => append_sections prefix rest (merged_sections ++ [merged_section prefix sec])
      | None => None
      end
  end.

(** The loop over [enumerate(sets)], from index [idx]. *)
Fixpoint append_sets (idx : nat) (sets : list dict) (merged_sections : list json)
  : option (list json) :=
  match sets with
  | [] => Some merged_sections
  | sdata :: rest =>
      let set_title :=
        py_str (get_default "title"
                  (JStr ("Set " ++ str_of_Z (Z.of_nat (idx + 1)))%string) sdata) in
      match py_iter (get_default "sections" (JList []) sdata) with
      | Some secs =>
          match append_sections set_title secs merged_sections with
          | Some merged_sections => append_sets (S idx) rest merged_sections
          | None => None
          end
      | None => None
      end
  end.

Definition merged_project_form (project_id : Z) : M dict :=
  w <- get_world ;;
  p <- _get_or_404 (get_project w project_id) "Project not found" ;;
  let links := project_links w project_id in
  let sets := collect_sets w links in
  custom <- run_gen (Utils.canonical_project_custom_questions (p_custom_questions p)) ;;
  merged_sections <- run_opt (append_sets 0 sets []) ;;
  custom_sections <- run_opt (py_iter (get_default "sections" (JList []) custom)) ;;
  merged_sections <- run_opt (append_sections "Custom" custom_sections merged_sections) ;;
  ret [("title", JStr (p_name p)); ("sections", JList merged_sections)].

(** *** question_lookup_from_form *)

Definition lookup_entry (q : dict) : dict :=
  map (fun k => (k, get_or_null k q))
    ["text"; "type"; "required"; "options"; "value_map"].

Fixpoint lookup_questions (qs : list json) (out : list (string * dict))
  : option (list (string * dict)) :=
  match qs with
  | [] => Some out
  | q :: rest =>
      match as_dict q with
      | Some q =>
          match dict_get "id" q with
          | Some id => lookup_questions rest (assoc_set (py_str id) (lookup_entry q) out)
          | None => None
          end
      | None => None
      end
  end.

Fixpoint lookup_sections (secs : list json) (out : list (string * dict))
  : option (list (string * dict)) :=
  match secs with
  | [] => Some out
  | sec :: rest =>
      match as_dict sec with
      | Some sec =>
          match py_iter (get_default "questions" (JList []) sec) with
          | Some qs =>
              match lookup_questions qs out with
              | Some out => lookup_sections rest out
              | None => None
              end
          | None => None
          end
      | None => None
      end
  end.

Definition question_lookup_from_form (form : dict) : option (list (string * dict)) :=
  match py_iter (get_default "sections" (JList []) form) with
  | Some secs => lookup_sections secs []
  | None => None
  end.

(** *** add_project_custom_question *)

(** The search for the section titled [section_title] and the assignment
    [section["questions"] = ... + [q]]; the section object sits in the list,
    so the list sees the new questions.  A missing section is appended. *)
Fixpoint add_to_section (section_title : string) (q : json) (sections : list json)
  : option (list json) :=
  match sections with
  | [] => Some [JDict [("title", JStr section_title); ("questions", JList [q])]]
  | s :: rest =>
      match as_dict s with
      | Some section =>
          if eq_str (get_or_null "title" section) section_title then
            match py_iter (py_or (get_or_null "questions" section) (JList [])) with
            | Some questions =>
                Some (JDict (dict_set "questions" (JList (questions ++ [q])) section) :: rest)
            | None => None
            end
          else
            match add_to_section section_title q rest with
            | Some rest' => Some (s :: rest')
            | None => None
            end
      | None => None
      end
  end.

Definition set_custom_questions (p : Project) (cq : json) : Project :=
  {| p_id := p_id p;
     p_name := p_name p;
     p_focalpoint_code := p_focalpoint_code p;
     p_custom_questions := cq |}.

(** [p.custom_questions = cq; db.commit()] *)
Definition save_custom_questions (project_id : Z) (cq : json) : M unit :=
  w <- get_world ;;
  put_world (with_projects w
               (map (fun p => if (p_id p =? project_id)%Z
                              then set_custom_questions p cq else p)
                  (projects w))).

(** [q = dict(question)] and its three [setdefault] calls; [u] is the
    identifier drawn for the last one. *)
Definition new_custom_question (question : dict) (u : string) : dict :=
  let q := setdefault "required" (JBool true) question in
  let q := setdefault "type" (JStr "short_text") q in
  setdefault "id" (JStr u) q.

Definition add_project_custom_question (project_id : Z) (section_title : string)
  (question : dict) : M unit :=
  w <- get_world ;;
  p <- _get_or_404 (get_project w project_id) "Project not found" ;;
  cq <- run_gen (Utils.canonical_project_custom_questions (p_custom_questions p)) ;;
  sections <- run_opt (py_iter (get_default "sections" (JList []) cq)) ;;
  u <- run_gen Utils.fresh_uuid ;;
  let q := new_custom_question question u in
  sections <- run_opt (add_to_section section_title (JDict q) sections) ;;
  save_custom_questions project_id (JDict (dict_set "sections" (JList sections) cq)).

(** *** create_record *)

Definition create_record (project_id : Z) (created_by_user_id : Z) (answers : dict)
  : M AnswerRecord :=
  w <- get_world ;;
  let rec := {| rec_id := next_record_id w;
                rec_project_id := project_id;
                rec_created_by_user_id := created_by_user_id;
                rec_answers := answers |} in
  put_world (with_records w (records w ++ [rec]) (next_record_id w + 1)%Z) ;;;
  ret rec.


(** *** delete_question_set *)

Definition delete_question_set (question_set_id : Z) : M unit :=
  w <- get_world ;;
  _get_or_404 (get_question_set w question_set_id) "Question set not found" ;;;
  put_world
    (with_project_question_sets
       (with_question_sets w
          (filter (fun q => negb (qs_id q =? question_set_id)%Z) (question_sets w))
          (next_question_set_id w))
       (filter (fun r => negb (pqs_question_set_id r =? question_set_id)%Z)
          (project_question_sets w))).

(** *** delete_project_custom_question *)

(** [str(q.get("id")) == str(question_id)] *)
Definition has_question_id (question_id : string) (q : json) : option bool :=
  match as_dict q with
  | Some d => Some (String.eqb (py_str (get_or_null "id" d)) question_id)
  | None => None
  end.

(** [[q for q in qs if str(q.get("id")) != str(question_id)]] *)
Fixpoint without_question (question_id : string) (qs : list json) : option (list json) :=
  match qs with
  | [] => Some []
  | q :: rest =>
      match has_question_id question_id q with
      | Some b =>
          match without_question question_id rest with
          | Some rest' => Some (if b then rest' else q :: rest')
          | None => None
          end
      | None => None
      end
  end.

(** [list(s.get("questions") or [])] *)
Definition questions_of (s : json) : option (list json) :=
  match as_dict s with
  | Some sec => py_iter (py_or (get_or_null "questions" sec) (JList []))
  | None => None
  end.

(** [s["questions"] = qs], on the section object that sits in the list. *)
Definition set_questions (qs : list json) (s : json) : option json :=
  match as_dict s with
  | Some sec => Some (JDict (dict_set "questions" (JList qs) sec))
  | None => None
  end.

(** The loop over [sections] of [delete_project_custom_question]: the
    sections with their new question lists, and the flag [removed]. *)
Fixpoint delete_from_sections (question_id : string) (sections : list json)
  (removed : bool) : option (list json * bool) :=
  match sections with
  | [] => Some ([], removed)
  | s :: rest =>
      match questions_of s with
      | Some qs =>
          match without_question question_id qs with
          | Some new_qs =>
              let removed :=
                if negb (List.length new_qs =? List.length qs) then true else removed in
              match set_questions new_qs s with
              | Some s' =>
                  match delete_from_sections question_id rest removed with
                  | Some (rest', removed) => Some (s' :: rest', removed)
                  | None => None
                  end
              | None => None
              end
          | None => None
          end
      | None => None
      end
  end.

(** "Drop empty sections": [[s for s in sections if s.get("questions")]] *)
Fixpoint nonempty_sections (sections : list json) : option (list json) :=
  match sections with
  | [] => Some []
  | s :: rest =>
      match as_dict s with
      | Some sec =>
          match nonempty_sections rest with
          | Some rest' =>
              Some (if truthy (get_or_null "questions" sec) then s :: rest' else rest')
          | None => None
          end
      | None => None
      end
  end.

Definition delete_project_custom_question (project_id : Z) (question_id : string)
  : M unit :=
  w <- get_world ;;
  p <- _get_or_404 (get_project w project_id) "Project not found" ;;
  cq <- run_gen (Utils.canonical_project_custom_questions (p_custom_questions p)) ;;
  sections <- run_opt (py_iter (get_default "sections" (JList []) cq)) ;;
  r <- run_opt (delete_from_sections question_id sections false) ;;
  if negb (snd r) then raise_http 404 "Custom question not found"
  else
    kept <- run_opt (nonempty_sections (fst r)) ;;
    save_custom_questions project_id (JDict (dict_set "sections" (JList kept) cq)).

(** *** update_project_custom_question *)

(** The inner loop of the search: the first question of the section that
    has the id; the questions after it are not looked at. *)
Fixpoint first_with_id (question_id : string) (qs : list json) : option (option json) :=
  match qs with
  | [] => Some None
  | q :: rest =>
      match has_question_id question_id q with
      | Some true => Some (Some q)
      | Some false => first_with_id question_id rest
      | None => None
      end
  end.

(** [if found:] *)
Definition is_found (found : option (json * nat)) : bool :=
  match found with
  | Some (q, _) => truthy q
  | None => false
  end.

(** The outer loop of the search, from the section at position [idx];
    [found] holds the question and the position of [found_section]. *)
Fixpoint find_question (question_id : string) (sections : list json) (idx : nat)
  (found : option (json * nat)) : option (option (json * nat)) :=
  match sections with
  | [] => Some found
  | s :: rest =>
      match as_dict s with
      | Some sec =>
          match py_iter (py_or (get_or_null "questions" sec) (JList [])) with
          | Some qs =>
              match first_with_id question_id qs with
              | Some hit =>
                  let found :=
                    match hit with
                    | Some q => Some (q, idx)
                    | None => found
                    end in
                  if is_found found then Some found
                  else find_question question_id rest (S idx) found
              | None => None
              end
          | None => None
          end
      | None => None
      end
  end.

(** The list with the object at position [i] replaced. *)
Fixpoint replace_nth (i : nat) (x : json) (l : list json) : list json :=
  match l, i with
  | [], _ => []
  | _ :: rest, O => x :: rest
  | y :: rest, S i' => y :: replace_nth i' x rest
  end.

(** "Remove from old section if moving." *)
Definition move_out (question_id new_section_title : string) (idx : nat)
  (sections : list json) : option (list json) :=
  match nth_error sections idx with
  | Some found_section =>
      match as_dict found_section with
      | Some sec =>
          if truthy found_section
             && negb (eq_str (get_or_null "title" sec) new_section_title)
          then
            match questions_of found_section with
            | Some qs =>
                match without_question question_id qs with
                | Some qs' =>
                    Some (replace_nth idx
                            (JDict (dict_set "questions" (JList qs') sec)) sections)
                | None => None
                end
            | None => None
            end
          else Some sections
      | None => None
      end
  | None => None
  end.

(** [next((s for s in sections if s.get("title") == title), None)], as the
    position of the section found. *)
Fixpoint section_index (title : string) (sections : list json) (idx : nat)
  : option (option nat) :=
  match sections with
  | [] => Some None
  | s :: rest =>
      match as_dict s with
      | Some sec =>
          if eq_str (get_or_null "title" sec) title then Some (Some idx)
          else section_index title rest (S idx)
      | None => None
      end
  end.

(** [qnew]: the posted question under the id of the one it replaces. *)
Definition updated_question (question : dict) (question_id : string) : dict :=
  let qnew := dict_set "id" (JStr question_id) question in
  let qnew := setdefault "required" (JBool true) qnew in
  setdefault "type" (JStr "short_text") qnew.

(** "Replace if present; else append." *)
Fixpoint replace_or_append (question_id : string) (qnew : json) (tgtqs : list json)
  : option (list json) :=
  match tgtqs with
  | [] => Some [qnew]
  | qq :: rest =>
      match has_question_id question_id qq with
      | Some true => Some (qnew :: rest)
      | Some false =>
          match replace_or_append question_id qnew rest with
          | Some rest' => Some (qq :: rest')
          | None => None
          end
      | None => None
      end
  end.

(** From "Ensure target section exists" to "Drop empty sections". *)
Definition place_question (question_id new_section_title : string) (qnew : json)
  (sections : list json) : option (list json) :=
  match section_index new_section_title sections 0 with
  | Some found_target =>
      let sections :=
        match found_target with
        | Some _ => sections
        | None =>
            sections ++ [JDict [("title", JStr new_section_title);
                                ("questions", JList [])]]
        end in
      let position :=
        match found_target with
        | Some j => j
        | None => Nat.pred (List.length sections)
        end in
      match nth_error sections position with
      | Some target =>
          match questions_of target with
          | Some tgtqs =>
              match replace_or_append question_id qnew tgtqs with
              | Some tgtqs =>
                  match set_questions tgtqs target with
                  | Some target => nonempty_sections (replace_nth position target sections)
                  | None => None
                  end
              | None => None
              end
          | None => None
          end
      | None => None
      end
  | None => None
  end.

Definition update_project_custom_question (project_id : Z)
  (question_id new_section_title : string) (question : dict) : M unit :=
  w <- get_world ;;
  p <- _get_or_404 (get_project w project_id) "Project not found" ;;
  cq <- run_gen (Utils.canonical_project_custom_questions (p_custom_questions p)) ;;
  sections <- run_opt (py_iter (get_default "sections" (JList []) cq)) ;;
  found <- run_opt (find_question question_id sections 0 None) ;;
  if negb (is_found found) then raise_http 404 "Custom question not found"
  else
    let idx := match found with Some (_, idx) => idx | None => 0 end in
    sections <- run_opt (move_out question_id new_section_title idx sections) ;;
    kept <- run_opt (place_question question_id new_section_title
                       (JDict (updated_question question question_id)) sections) ;;
    save_custom_questions project_id (JDict (dict_set "sections" (JList kept) cq)).

End WithRuntime.
End Crud.

(* ===================================================================== *)
(** ** [main.py]: answer ingestion ([POST /api/projects/{id}/records])    *)
(* ===================================================================== *)

Module Main.
Import Py Models.
Local Open Scope handler_scope.

Section WithRuntime.
Context `{R : Runtime}.

Definition _is_uuid (value : string) : bool := uuid_parses value.

Definition _norm_label (value : json) : string :=
  casefold (join " " (split (strip (py_str value)))).

Definition _normalize_yes_no : json -> json := Utils.normalize_yes_no.

Definition _infer_question_from_value : string -> json -> Utils.Gen (dict * json) :=
  Utils.infer_with Utils.matches_iso_date.

(** The auto-fill loop over [qlookup.items()]. *)
Definition autofill_one (proj : Project) (answers : dict) (entry : string * dict) : dict :=
  let (qid, qinfo) := entry in
  match get_or_null "auto" qinfo with
  | JDict auto =>
      let src := get_or_null "source" auto in
      if eq_str src "project_name" then dict_set qid (JStr (p_name proj)) answers
      else if eq_str src "project_focalpoint_code" then
        match p_focalpoint_code proj with
        | Some code => dict_set qid (JInt code) answers
        | None => answers
        end
      else answers
  | _ => answers
  end.

Definition autofill (proj : Project) (qlookup : list (string * dict)) (answers : dict)
  : dict :=
  fold_left (autofill_one proj) qlookup answers.

(** The loops that fill [label_to_qid] from a lookup. *)
Definition index_label (label_to_qid : list (string * string)) (entry : string * dict)
  : list (string * string) :=
  let (qid, qinfo) := entry in
  if truthy (get_or_null "text" qinfo)
  then assoc_set (_norm_label (get_or_null "text" qinfo)) qid label_to_qid
  else label_to_qid.

Definition index_labels (qlookup : list (string * dict))
  (label_to_qid : list (string * string)) : list (string * string) :=
  fold_left index_label qlookup label_to_qid.

(** [label_to_qid.get(...)] followed by [if existing_qid:]. *)
Definition existing_qid (label_to_qid : list (string * string)) (label : string)
  : option string :=
  match assoc_get label label_to_qid with
  | Some qid => if String.eqb qid "" then None else Some qid
  | None => None
  end.

(** The variables the loop over [unknown_keys] reads and writes. *)
Record Ingest : Type := {
  qlookup : list (string * dict);
  label_to_qid : list (string * string);
  answers : dict
}.

Definition set_answer (st : Ingest) (k : string) (v : json) : Ingest :=
  {| qlookup := qlookup st;
     label_to_qid := label_to_qid st;
     answers := dict_set k v (answers st) |}.

(** "Refresh lookup." *)
Definition refresh_lookup (project_id : Z) (st : Ingest) : M Ingest :=
  form <- Crud.merged_project_form project_id ;;
  ql <- run_opt (Crud.question_lookup_from_form form) ;;
  ret {| qlookup := ql;
         label_to_qid := index_labels ql (label_to_qid st);
         answers := answers st |}.

Definition unknown_key_detail (k : string) : string :=
  ("Unknown question id: " ++ k ++
   ". Provide question metadata or use a human-readable label as the key.")%string.

(** One turn of the loop over [unknown_keys]. *)
Definition resolve_key (project_id : Z) (st : Ingest) (k : string) : M Ingest :=
  raw_val <- run_opt (dict_get k (answers st)) ;;
  let st := {| qlookup := qlookup st;
               label_to_qid := label_to_qid st;
               answers := dict_remove k (answers st) |} in
  let meta := match raw_val with JDict d => d | _ => [] end in
  if _is_uuid k && is_dict raw_val
     && truthy (py_or (get_or_null "text" meta) (get_or_null "question" meta))
  then
    let label := py_or (get_or_null "text" meta) (get_or_null "question" meta) in
    let qtype := get_or_null "type" meta in
    r <- run_gen (_infer_question_from_value (py_str label)
                    (JDict [("type", qtype);
                            ("value", get_default "value" (get_or_null "answer" meta) meta)])) ;;
    let qdef := dict_set "id" (JStr k) (fst r) in
    let norm_val := snd r in
    match existing_qid (label_to_qid st) (_norm_label label) with
    | Some qid => ret (set_answer st qid norm_val)
    | None =>
        Crud.add_project_custom_question project_id "Auto-created" qdef ;;;
        st <- refresh_lookup project_id st ;;
        ret (set_answer st k norm_val)
    end
  else if negb (_is_uuid k) then
    let label := k in
    match existing_qid (label_to_qid st) (_norm_label (JStr label)) with
    | Some qid => ret (set_answer st qid raw_val)
    | None =>
        r <- run_gen (_infer_question_from_value label raw_val) ;;
        let qdef := fst r in
        let norm_val := snd r in
        Crud.add_project_custom_question project_id "Auto-created" qdef ;;;
        st <- refresh_lookup project_id st ;;
        ret (set_answer st (py_str (get_or_null "id" qdef)) norm_val)
    end
  else raise_http 400 (unknown_key_detail k).

Fixpoint resolve_keys (project_id : Z) (st : Ingest) (unknown_keys : list string)
  : M Ingest :=
  match unknown_keys with
  | [] => ret st
  | k :: rest =>
      st <- resolve_key project_id st k ;;
      resolve_keys project_id st rest
  end.

(** [answers[qid] in ("", None)] *)
Definition is_blank (v : json) : bool :=
  match v with
  | JNull => true
  | JStr s => String.eqb s ""
  | _ => false
  end.

(** The completeness loop: the [text] of every required question without
    an answer. *)
Definition missing_one (answers : dict) (entry : string * dict) : list json :=
  let (qid, qinfo) := entry in
  if truthy (get_or_null "required" qinfo)
     && (negb (dict_has qid answers) || is_blank (get_or_null qid answers))
  then [get_or_null "text" qinfo]
  else [].

Definition missing_required (qlookup : list (string * dict)) (answers : dict)
  : list json :=
  flat_map (missing_one answers) qlookup.

(** [', '.join(items)] raises [TypeError] unless every item is a [str]. *)
Fixpoint join_values (items : list json) : option (list string) :=
  match items with
  | [] => Some []
  | JStr s :: rest =>
      match join_values rest with
      | Some l => Some (s :: l)
      | None => None
      end
  | _ => None
  end.

Definition missing_detail (texts : list string) : string :=
  ("Missing required answers: " ++ join ", " texts)%string.

(** The tail of the handler: completeness check, then the insert. *)
Definition check_and_store (project_id user_id : Z) (st : Ingest) : M AnswerRecord :=
  let missing := missing_required (qlookup st) (answers st) in
  match missing with
  | [] => Crud.create_record project_id user_id (answers st)
  | _ =>
      texts <- run_opt (join_values (firstn 10 missing)) ;;
      raise_http 400 (missing_detail texts)
  end.

(** The head of the handler, past authentication and the access check:
    the form, its lookup, auto-fill, the label table and [unknown_keys]. *)
Definition start_ingest (project_id : Z) (payload_answers : dict)
  : M (Ingest * list string) :=
  form <- Crud.merged_project_form project_id ;;
  ql <- run_opt (Crud.question_lookup_from_form form) ;;
  w <- get_world ;;
  let answers0 :=
    match Crud.get_project w project_id with
    | Some proj => autofill proj ql payload_answers
    | None => payload_answers
    end in
  let unknown_keys :=
    filter (fun k => match assoc_get k ql with Some _ => false | None => true end)
      (map fst answers0) in
  ret ({| qlookup := ql;
          label_to_qid := index_labels ql [];
          answers := answers0 |}, unknown_keys).

Definition create_record (project_id user_id : Z) (payload_answers : dict)
  : M AnswerRecord :=
  start <- start_ingest project_id payload_answers ;;
  st <- resolve_keys project_id (fst start) (snd start) ;;
  check_and_store project_id user_id st.

(** *** Reading records back ([GET /api/records/{id}], [GET .../records]) *)

(** [s.split(",")]; [cur] is the piece being read. *)
Fixpoint split_on (sep : ascii) (cur : string) (s : string) : list string :=
  match s with
  | EmptyString => [cur]
  | String c s' =>
      if Ascii.eqb c sep then cur :: split_on sep "" s'
      else split_on sep (cur ++ String c EmptyString)%string s'
  end.

(** [{k.strip() for k in keys.split(",") if k.strip()}], as the list of its
    members. *)
Definition keyset (keys : string) : list string :=
  filter Utils.nonempty (map strip (split_on "," "" keys)).

(** The answers a record is returned with: all of them unless [keys] is
    given and not empty, else those whose key is in the key set. *)
Definition select_answers (keys : option string) (ans : dict) : dict :=
  match keys with
  | Some ks =>
      if String.eqb ks "" then ans
      else filter (fun kv => str_in (fst kv) (keyset ks)) ans
  | None => ans
  end.

(** *** [PUT /api/admin/question_sets/{id}] *)


End WithRuntime.
End Main.

(* ===================================================================== *)
(** ** Project access ([crud.py], [main.py])                              *)
(* ===================================================================== *)

Module Access.
Import Py Models.

Record UserProjectAccess : Type := {
  upa_user_id : Z;
  upa_project_id : Z;
  upa_access_type : string      (* assigned | banned *)
}.

(** The columns of a project the access rules read. *)
Record ProjectState : Type := {
  ps_id : Z;
  ps_closed : bool;
  ps_deleted : bool             (* [deleted_at is not None] *)
}.

Record Tables : Type := {
  user_ids : list Z;
  project_states : list ProjectState;
  user_project_access : list UserProjectAccess
}.

Definition get_user_access (t : Tables) (user_id : Z) : list Z * list Z :=
  let acc := filter (fun a => (upa_user_id a =? user_id)%Z) (user_project_access t) in
  (map upa_project_id
     (filter (fun a => String.eqb (upa_access_type a) "assigned") acc),
   map upa_project_id
     (filter (fun a => String.eqb (upa_access_type a) "banned") acc)).

Fixpoint insert_id (x : Z) (sorted : list Z) : list Z :=
  match sorted with
  | [] => [x]
  | y :: rest => if (x <=? y)%Z then x :: sorted else y :: insert_id x rest
  end.

(** [sorted(set(ids))] *)
Definition sorted_set (ids : list Z) : list Z :=
  fold_right insert_id [] (nodup Z.eq_dec ids).

Definition grant (user_id : Z) (access_type : string) (pid : Z) : UserProjectAccess :=
  {| upa_user_id := user_id; upa_project_id := pid; upa_access_type := access_type |}.

(** The foreign keys of a new row: its user and its project exist. *)
Definition references_ok (t : Tables) (a : UserProjectAccess) : bool :=
  Crud.mem_Z (upa_user_id a) (user_ids t)
  && existsb (fun p => (ps_id p =? upa_project_id a)%Z) (project_states t).

(** [None] is the [IntegrityError] of the commit, which leaves the table as
    it was. *)
Definition set_user_projects (t : Tables) (user_id : Z) (assigned banned : list Z)
  : option Tables :=
  let added :=
    map (grant user_id "assigned") (sorted_set assigned)
    ++ map (grant user_id "banned") (sorted_set banned) in
  if forallb (references_ok t) added then
    Some {| user_ids := user_ids t;
            project_states := project_states t;
            user_project_access :=
              filter (fun a => negb (upa_user_id a =? user_id)%Z) (user_project_access t)
              ++ added |}
  else None.

(** The [WHERE] clause of [accessible_projects_query]. *)
Definition accessible (t : Tables) (user_id : Z) (include_closed include_deleted : bool)
  (p : ProjectState) : bool :=
  let assigned := fst (get_user_access t user_id) in
  let banned := snd (get_user_access t user_id) in
  (include_closed || negb (ps_closed p))
  && (include_deleted || negb (ps_deleted p))
  && match assigned with
     | [] => true
     | _ => Crud.mem_Z (ps_id p) assigned
     end
  && match banned with
     | [] => true
     | _ => negb (Crud.mem_Z (ps_id p) banned)
     end.

(** The rows of the query, in table order; its [ORDER BY name] is left out,
    the caller below asks for the one row with a given primary key. *)
Definition accessible_projects_query (t : Tables) (user_id : Z)
  (include_closed include_deleted : bool) : list ProjectState :=
  filter (accessible t user_id include_closed include_deleted) (project_states t).

Definition _require_project_access (t : Tables) (user_id project_id : Z)
  (include_closed : bool) (on_forbidden_status : Z) (on_forbidden_detail : string)
  : outcome ProjectState :=
  match find (fun p => (ps_id p =? project_id)%Z)
          (accessible_projects_query t user_id include_closed false) with
  | Some allowed => Ok allowed
  | None => HTTPError on_forbidden_status on_forbidden_detail
  end.

End Access.

(* ===================================================================== *)
(** ** Invites and registration ([crud.py])                               *)
(* ===================================================================== *)

Module Invites.
Import Py Models.

Record Invite : Type := {
  inv_id : Z;
  inv_key : string;
  inv_secret_hash : string;
  inv_email : option string;          (* optional email binding *)
  inv_used : bool;                    (* [used_at is not None] *)
  inv_used_by_user_id : option Z
}.

Record User : Type := {
  u_id : Z;
  u_email : string;
  u_password_hash : string;
  u_is_admin : bool
}.

(** The two tables, their primary-key sequences and the number of tokens
    [secrets.token_urlsafe] has handed out. *)
Record Tables : Type := {
  invites : list Invite;
  users : list User;
  next_invite_id : Z;
  next_user_id : Z;
  tokens_drawn : nat
}.

Section WithCrypto.
(** [utils.sha256_hex], and [utils.new_key nbytes] at its [n]-th call. *)
Variable sha256_hex : string -> string.
Variable new_key : nat -> nat -> string.

Definition get_admin_count (t : Tables) : nat :=
  List.length (filter u_is_admin (users t)).

(** The commit raises [IntegrityError] when the key is taken (the column is
    unique); the table is then as it was. *)
Definition create_invite (email : option string) (t : Tables)
  : outcome (string * string) * Tables :=
  let key := new_key 18 (tokens_drawn t) in
  let secret := new_key 18 (S (tokens_drawn t)) in
  let inv := {| inv_id := next_invite_id t;
                inv_key := key;
                inv_secret_hash := sha256_hex secret;
                inv_email := email;
                inv_used := false;
                inv_used_by_user_id := None |} in
  if existsb (fun i => String.eqb (inv_key i) key) (invites t) then
    (PyError,
     {| invites := invites t; users := users t;
        next_invite_id := next_invite_id t; next_user_id := next_user_id t;
        tokens_drawn := S (S (tokens_drawn t)) |})
  else
    (Ok (key, secret),
     {| invites := invites t ++ [inv]; users := users t;
        next_invite_id := (next_invite_id t + 1)%Z; next_user_id := next_user_id t;
        tokens_drawn := S (S (tokens_drawn t)) |}).

(** [inv.used_at = _utcnow(); inv.used_by_user_id = user.id] *)
Definition mark_used (user_id : Z) (inv : Invite) : Invite :=
  {| inv_id := inv_id inv;
     inv_key := inv_key inv;
     inv_secret_hash := inv_secret_hash inv;
     inv_email := inv_email inv;
     inv_used := true;
     inv_used_by_user_id := Some user_id |}.

(** [inv.email and inv.email.lower() != email.lower()] *)
Definition email_mismatch (inv : Invite) (email : string) : bool :=
  match inv_email inv with
  | Some e => negb (String.eqb e "") && negb (String.eqb (lower e) (lower email))
  | None => false
  end.

Definition use_invite_and_create_user (key secret email password_hash : string)
  (make_admin : bool) (t : Tables) : outcome User * Tables :=
  match find (fun i => String.eqb (inv_key i) key) (invites t) with
  | None => (HTTPError 400 "Invalid or used invite key", t)
  | Some inv =>
      if inv_used inv then (HTTPError 400 "Invalid or used invite key", t)
      else if negb (String.eqb (sha256_hex secret) (inv_secret_hash inv))
      then (HTTPError 400 "Invalid secret", t)
      else if email_mismatch inv email
      then (HTTPError 400 "Email does not match invite", t)
      else if existsb (fun u => String.eqb (u_email u) (lower email)) (users t)
      then (HTTPError 400 "Email already registered", t)
      else
        let user := {| u_id := next_user_id t;
                       u_email := lower email;
                       u_password_hash := password_hash;
                       u_is_admin := make_admin |} in
        (Ok user,
         {| invites := map (fun i => if (inv_id i =? inv_id inv)%Z
                                     then mark_used (u_id user) i else i)
                         (invites t);
            users := users t ++ [user];
            next_invite_id := next_invite_id t;
            next_user_id := (next_user_id t + 1)%Z;
            tokens_drawn := tokens_drawn t |})
  end.

End WithCrypto.
End Invites.

(* ===================================================================== *)
(** ** A concrete runtime and sample data for the worked examples         *)
(* ===================================================================== *)

Module Sample.
Import Py Models.

Definition is_hex (c : ascii) : bool :=
  let n := nat_of_ascii c in
  ((48 <=? n) && (n <=? 57)) || ((97 <=? n) && (n <=? 102)) || ((65 <=? n) && (n <=? 70)).

Fixpoint drop_hyphens (s : string) : list ascii :=
  match s with
  | EmptyString => []
  | String c s' => if Ascii.eqb c "-"%char then drop_hyphens s' else c :: drop_hyphens s'
  end.

(** Thirty-two hexadecimal digits, hyphens ignored. *)
Definition parses_as_uuid (s : string) : bool :=
  let digits := drop_hyphens s in
  (List.length digits =? 32) && forallb is_hex digits.

Fixpoint zeros (n : nat) : string :=
  match n with
  | O => EmptyString
  | S n' => String "0"%char (zeros n')
  end.

(** The [n]-th identifier: a version-4 UUID that spells [n] in decimal. *)
Definition nth_uuid (n : nat) : string :=
  let digits := str_of_Z (Z.of_nat n) in
  ("00000000-0000-4000-8000-" ++ zeros (12 - String.length digits) ++ digits)%string.

(** A runtime for the examples: [repr] and [json.loads] are never reached
    by the inputs used below. *)
Definition runtime : Runtime :=
  {| py_repr := fun _ => "<repr>";
     json_loads := fun s => if String.eqb s "{}" then Some (JDict []) else None;
     uuid_parses := parses_as_uuid;
     uuid4 := nth_uuid |}.

End Sample.

(* ===================================================================== *)
(** ** Vocabulary of the specification                                    *)
(* ===================================================================== *)

Module Spec.
Import Py Models.

(** *** Canonical documents *)

Definition doc_sections (doc : dict) : list json :=
  match dict_get "sections" doc with
  | Some (JList secs) => secs
  | _ => []
  end.

Definition section_questions (sec : json) : list json :=
  match sec with
  | JDict s =>
      match dict_get "questions" s with
      | Some (JList qs) => qs
      | _ => []
      end
  | _ => []
  end.

(** The questions of a document, in document order. *)
Definition doc_questions (doc : dict) : list json :=
  flat_map section_questions (doc_sections doc).

Definition question_id (q : json) : option json :=
  match q with
  | JDict d => dict_get "id" d
  | _ => None
  end.

(** "Already canonical": an object with a [title] and [sections]. *)
Definition is_canonical (raw : json) : bool :=
  match raw with
  | JDict d => dict_has "sections" d && dict_has "title" d
  | _ => false
  end.

(** A question keeps its [id]; one without receives an identifier drawn
    between the [n]-th and the [n']-th call of [uuid4]. *)
Definition id_kept `{R : Runtime} (n n' : nat) (q q' : json) : Prop :=
  match question_id q with
  | Some id => question_id q' = Some id
  | None => exists k, n <= k < n' /\ question_id q' = Some (JStr (uuid4 k))
  end.




(** *** Merge *)

Definition title_of (d : dict) : string :=
  match dict_get "title" d with
  | Some (JStr s) => s
  | _ => ""
  end.

(** A section under its new title ["{prefix} — {section.title}"]. *)
Definition retitled (prefix : string) (sec : json) : json :=
  match sec with
  | JDict s =>
      JDict [("title", JStr (prefix ++ " — " ++ title_of s)%string);
             ("questions", get_default "questions" (JList []) s)]
  | _ => sec
  end.

(** The sections of the merged form as the specification words them. *)
Definition merge_spec (versions : list dict) (custom : dict) : list json :=
  flat_map (fun version => map (retitled (title_of version)) (doc_sections version))
    versions
  ++ map (retitled "Custom") (doc_sections custom).

Definition titled (d : dict) : bool :=
  match dict_get "title" d with
  | Some (JStr _) => true
  | _ => false
  end.

Definition titled_section (sec : json) : bool :=
  match sec with JDict s => titled s | _ => false end.

(** A document with a title whose [sections] is a list of titled objects. *)
Definition well_titled (doc : dict) : bool :=
  titled doc
  && match dict_get "sections" doc with
     | Some (JList secs) => forallb titled_section secs
     | _ => false
     end.

Definition assignments (w : World) (project_id : Z) : list ProjectQuestionSet :=
  filter (fun r => (pqs_project_id r =? project_id)%Z) (project_question_sets w).

Definition assigned_versions (w : World) (links : list ProjectQuestionSet) : list dict :=
  flat_map (fun link =>
              match find (fun q => (qs_id q =? pqs_question_set_id link)%Z)
                         (question_sets w) with
              | Some qs => [qs_data qs]
              | None => []
              end) links.

Inductive in_position_order : list ProjectQuestionSet -> Prop :=
| ipo_nil : in_position_order []
| ipo_cons : forall r rest,
    Forall (fun r' => (pqs_position r <= pqs_position r')%Z) rest ->
    in_position_order rest ->
    in_position_order (r :: rest).

(** *** Version registry *)

Definition version_named (w : World) (name : string) (id : Z) : bool :=
  existsb (fun q => (qs_id q =? id)%Z && String.eqb (qs_name q) name) (question_sets w).

(** An older live version of [name]: what [create_question_set] upgrades. *)
Definition live_version_named (w : World) (name : string) (id : Z) : bool :=
  existsb (fun q => (qs_id q =? id)%Z && String.eqb (qs_name q) name
                    && negb (qs_deleted q)) (question_sets w).


(** Integrity the database enforces: primary keys are unique and below
    their sequence, and every assignment references a stored version. *)
Record registry_ok (w : World) : Prop := {
  pqs_keys : NoDup (map pqs_id (project_question_sets w));
  qs_keys_below : forall q, In q (question_sets w) -> (qs_id q < next_question_set_id w)%Z;
  pqs_references : forall r, In r (project_question_sets w) ->
                   exists q, In q (question_sets w) /\ qs_id q = pqs_question_set_id r
}.




(** *** The questions of a form *)

(** The questions [question_lookup_from_form] visits, section by section. *)
Fixpoint visited (secs : list json) : option (list json) :=
  match secs with
  | [] => Some []
  | sec :: rest =>
      match as_dict sec with
      | Some s =>
          match py_iter (get_default "questions" (JList []) s), visited rest with
          | Some qs, Some qs' => Some (qs ++ qs')
          | _, _ => None
          end
      | None => None
      end
  end.

(** The questions the assigned versions contribute to a project's form. *)
Definition version_questions `{R : Runtime} (w : World) (project_id : Z)
  : option (list json) :=
  match Crud.append_sets 0 (Crud.collect_sets w (Crud.project_links w project_id)) [] with
  | Some merged => visited merged
  | None => None
  end.

(** The key and the text under which the lookup files a question. *)
Definition files_under `{R : Runtime} (q : json) (key : string) (text : json) : Prop :=
  exists d id, q = JDict d /\ dict_get "id" d = Some id /\ py_str id = key
               /\ get_or_null "text" d = text.

(** [q'] is what the canonicaliser makes of the question [q]. *)
Definition ensured `{R : Runtime} (q q' : json) : Prop :=
  exists n n', Utils.ensure_question_id q n = Some (q', n').

Definition has_id (q : json) : bool :=
  match q with
  | JDict d => dict_has "id" d
  | _ => false
  end.


(** The stored block once [sections'] replace its sections. *)
Definition block_with (sections' : list json) (cq : dict) : json :=
  JDict (dict_set "sections" (JList sections') cq).


(** The loop state once the only answer has been popped. *)
Definition emptied (st : Main.Ingest) : Main.Ingest :=
  {| Main.qlookup := Main.qlookup st;
     Main.label_to_qid := Main.label_to_qid st;
     Main.answers := [] |}.

(** *** What a handler may write *)

(** Records, versions and assignments are as before. *)
Definition same_tables (w w' : World) : Prop :=
  records w' = records w
  /\ question_sets w' = question_sets w
  /\ project_question_sets w' = project_question_sets w.

(** Projects, versions and assignments are as before: the forms are. *)
Definition same_forms (w w' : World) : Prop :=
  projects w' = projects w
  /\ question_sets w' = question_sets w
  /\ project_question_sets w' = project_question_sets w.

(** Nothing but the count of drawn identifiers has changed. *)
Definition same_database (w w' : World) : Prop :=
  same_tables w w' /\ projects w' = projects w.

(** Every run of [m], failed or not, relates the worlds by [P]. *)
Definition preserves {A} (P : World -> World -> Prop) (m : M A) : Prop :=
  forall w out w', m w = (out, w') -> P w w'.

(** *** Completeness *)

(** A required question without an answer, with [""] or with [null]. *)
Definition violates (answers : dict) (entry : string * dict) : bool :=
  truthy (get_or_null "required" (snd entry))
  && match dict_get (fst entry) answers with
     | None => true
     | Some v => Main.is_blank v
     end.

(** *** Auto-fill *)

(** A lookup entry without an [auto] binding. *)
Definition unbound (entry : string * dict) : Prop :=
  get_or_null "auto" (snd entry) = JNull.

(** *** What canonicalisation establishes *)

(** A stripped, non-empty option. *)
Definition clean_option (x : json) : Prop :=
  exists s, x = JStr s /\ strip s = s /\ s <> "".

Definition clean_options (v : json) : Prop :=
  match v with
  | JStr _ => False
  | JList l => Forall clean_option l
  | _ => True
  end.

(** The dropdown fields of a question after [normalize_dropdown_options]. *)
Definition normalized (q : dict) : Prop :=
  let qtype := get_or_null "type" q in
  Utils.unhashable qtype = false
  /\ (eq_str qtype "dropdown" || eq_str qtype "dropdown_mapped" = true ->
      clean_options (get_or_null "options" q))
  /\ (eq_str qtype "dropdown_mapped" = true ->
      is_dict (get_or_null "value_map" q) = true).

Definition canonical_question (q : json) : Prop :=
  exists d, q = JDict d /\ dict_has "id" d = true /\ normalized d.

Definition canonical_section (sec : json) : Prop :=
  exists s qs, sec = JDict s /\ dict_get "questions" s = Some (JList qs)
               /\ Forall canonical_question qs.

(** The shape of every document the canonicaliser returns. *)
Definition canonical_document (doc : dict) : Prop :=
  dict_has "title" doc = true
  /\ exists secs, dict_get "sections" doc = Some (JList secs)
                  /\ Forall canonical_section secs.

End Spec.

Ltac inv H := inversion H; subst; clear H.

(* ===================================================================== *)
(** ** Sample data                                                        *)
(* ===================================================================== *)

Module Examples.
Import Py Models.
Local Open Scope Z_scope.



(** A question as an administrator may post it, without [required]. *)
Definition budget_question : dict := [("text", JStr "Budget")].

(** A version whose two optional questions are bound to project fields,
    as in the built-in default question set. *)
Definition bound_version : dict :=
  [("title", JStr "default");
   ("sections",
    JList
      [JDict
         [("title", JStr "Monthly Update");
          ("questions",
           JList
             [JDict [("text", JStr "Project name?"); ("type", JStr "short_text");
                     ("required", JBool false);
                     ("auto", JDict [("source", JStr "project_name")]);
                     ("id", JStr "q-name")];
              JDict [("text", JStr "Focalpoint code?"); ("type", JStr "integer");
                     ("required", JBool false);
                     ("auto", JDict [("source", JStr "project_focalpoint_code")]);
                     ("id", JStr "q-code")]])]])].

Definition empty_block : json := JDict [("title", JStr "Custom"); ("sections", JList [])].

(** Project 1, "Alpha", focalpoint code 7, assigned to that version. *)
Definition alpha_world : World :=
  {| question_sets :=
       [{| qs_id := 1; qs_name := "default"; qs_deleted := false;
           qs_data := bound_version |}];
     project_question_sets :=
       [{| pqs_id := 1; pqs_project_id := 1; pqs_question_set_id := 1;
           pqs_position := 0 |}];
     projects :=
       [{| p_id := 1; p_name := "Alpha"; p_focalpoint_code := Some 7;
           p_custom_questions := empty_block |}];
     records := [];
     next_question_set_id := 2;
     next_record_id := 1;
     uuids_drawn := 0%nat |}.

(** A canonical document whose first question has an [id] and whose
    second has none. *)
Definition half_identified : dict :=
  [("title", JStr "Weekly");
   ("sections",
    JList [JDict [("title", JStr "Status");
                  ("questions",
                   JList [JDict [("id", JStr "q1"); ("text", JStr "Done?");
                                 ("type", JStr "yes_no")];
                          JDict [("text", JStr "Notes"); ("type", JStr "long_text")]])]])].

Definition half_identified_canonical : dict :=
  [("title", JStr "Weekly");
   ("sections",
    JList [JDict [("title", JStr "Status");
                  ("questions",
                   JList [JDict [("id", JStr "q1"); ("text", JStr "Done?");
                                 ("type", JStr "yes_no")];
                          JDict [("text", JStr "Notes"); ("type", JStr "long_text");
                                 ("id", JStr "00000000-0000-4000-8000-000000000001")]])]])].







(** Versions "A" and "B", B assigned at position 1 and A at position 0,
    and a custom block with one section "C". *)
Definition version_a : dict :=
  [("title", JStr "A");
   ("sections",
    JList [JDict [("title", JStr "a1");
                  ("questions", JList [JDict [("id", JStr "qa"); ("text", JStr "A?")]])]])].

Definition version_b : dict :=
  [("title", JStr "B");
   ("sections",
    JList [JDict [("title", JStr "b1");
                  ("questions", JList [JDict [("id", JStr "qb"); ("text", JStr "B?")]])];
           JDict [("title", JStr "b2"); ("questions", JList [])]])].

Definition block_c : dict :=
  [("title", JStr "Custom");
   ("sections",
    JList [JDict [("title", JStr "C");
                  ("questions", JList [JDict [("id", JStr "qc"); ("text", JStr "C?")]])]])].

Definition merge_project : Project :=
  {| p_id := 1; p_name := "Alpha"; p_focalpoint_code := None;
     p_custom_questions := JDict block_c |}.

Definition merge_world : World :=
  {| question_sets :=
       [{| qs_id := 1; qs_name := "a"; qs_deleted := false; qs_data := version_a |};
        {| qs_id := 2; qs_name := "b"; qs_deleted := false; qs_data := version_b |}];
     project_question_sets :=
       [{| pqs_id := 1; pqs_project_id := 1; pqs_question_set_id := 2;
           pqs_position := 1 |};
        {| pqs_id := 2; pqs_project_id := 1; pqs_question_set_id := 1;
           pqs_position := 0 |}];
     projects := [merge_project];
     records := [];
     next_question_set_id := 3;
     next_record_id := 1;
     uuids_drawn := 0%nat |}.

(** The state of an ingestion at the completeness check: "Name" is
    required and answered with the empty string, "Age" is required and
    answered, "Notes" is optional. *)
Definition check_state : Main.Ingest :=
  {| Main.qlookup :=
       [("q-name", [("text", JStr "Name"); ("type", JStr "short_text");
                    ("required", JBool true); ("options", JNull); ("value_map", JNull)]);
        ("q-age", [("text", JStr "Age"); ("type", JStr "numeric");
                   ("required", JBool true); ("options", JNull); ("value_map", JNull)]);
        ("q-notes", [("text", JStr "Notes"); ("type", JStr "long_text");
                     ("required", JBool false); ("options", JNull); ("value_map", JNull)])];
     Main.label_to_qid := [];
     Main.answers := [("q-name", JStr ""); ("q-age", JInt 41)] |}.

Definition complete_state : Main.Ingest :=
  {| Main.qlookup := Main.qlookup check_state;
     Main.label_to_qid := [];
     Main.answers := [("q-name", JStr "Ada"); ("q-age", JInt 41)] |}.

(** Lineage "daily": version 1 (live) is assigned to projects 1 and 2,
    project 1 also holds version 2 (live, same name) and version 3 of
    another name. *)
Definition daily_world : World :=
  {| question_sets :=
       [{| qs_id := 1; qs_name := "daily"; qs_deleted := false; qs_data := version_a |};
        {| qs_id := 2; qs_name := "daily"; qs_deleted := false; qs_data := version_a |};
        {| qs_id := 3; qs_name := "other"; qs_deleted := false; qs_data := version_b |}];
     project_question_sets :=
       [{| pqs_id := 10; pqs_project_id := 1; pqs_question_set_id := 3; pqs_position := 0 |};
        {| pqs_id := 11; pqs_project_id := 1; pqs_question_set_id := 1; pqs_position := 1 |};
        {| pqs_id := 12; pqs_project_id := 2; pqs_question_set_id := 1; pqs_position := 0 |};
        {| pqs_id := 13; pqs_project_id := 1; pqs_question_set_id := 2; pqs_position := 2 |}];
     projects :=
       [{| p_id := 1; p_name := "Alpha"; p_focalpoint_code := None;
           p_custom_questions := empty_block |};
        {| p_id := 2; p_name := "Beta"; p_focalpoint_code := None;
           p_custom_questions := empty_block |}];
     records := [];
     next_question_set_id := 4;
     next_record_id := 1;
     uuids_drawn := 0%nat |}.


(** Project 1 with one required custom question, "Name". *)
Definition strict_block : dict :=
  [("title", JStr "Custom");
   ("sections",
    JList [JDict [("title", JStr "Details");
                  ("questions",
                   JList [JDict [("id", JStr "q-name"); ("text", JStr "Name");
                                 ("type", JStr "short_text");
                                 ("required", JBool true)]])]])].

Definition strict_world : World :=
  {| question_sets := [];
     project_question_sets := [];
     projects :=
       [{| p_id := 1; p_name := "Alpha"; p_focalpoint_code := None;
           p_custom_questions := JDict strict_block |}];
     records := [];
     next_question_set_id := 1;
     next_record_id := 1;
     uuids_drawn := 0%nat |}.




End Examples.

(* ===================================================================== *)
(** ** Further vocabulary: labels, blocks, tables                         *)
(* ===================================================================== *)

Module Vocab.
Import Py Models.

(** *** Labels *)

Fixpoint no_space (s : string) : bool :=
  match s with
  | EmptyString => true
  | String c s' => negb (is_space c) && no_space s'
  end.

(** A word: a non-empty run of characters that are not white space. *)
Definition is_word (s : string) : bool :=
  negb (String.eqb s "") && no_space s.

(** The words of a label, case folded. *)
Definition folded_words (label : string) : list string :=
  map casefold (split label).

(** *** Custom-question blocks *)

(** The question answers to [question_id]. *)
Definition id_is `{R : Runtime} (question_id : string) (q : json) : bool :=
  match Crud.has_question_id question_id q with
  | Some b => b
  | None => false
  end.

(** The questions that do not answer to [question_id]. *)
Definition others `{R : Runtime} (question_id : string) (qs : list json) : list json :=
  filter (fun q => negb (id_is question_id q)) qs.

(** All questions of a list of sections. *)
Definition all_questions (secs : list json) : list json :=
  flat_map Spec.section_questions secs.

(** A section object whose [questions] is a list of objects. *)
Definition listed_section (sec : json) : Prop :=
  exists s qs, sec = JDict s /\ dict_get "questions" s = Some (JList qs)
               /\ Forall (fun q => is_dict q = true) qs.

(** The section without the questions that answer to [question_id]. *)
Definition strip_section `{R : Runtime} (question_id : string) (sec : json) : json :=
  match sec with
  | JDict s =>
      JDict (dict_set "questions"
               (JList (others question_id (Spec.section_questions sec))) s)
  | _ => sec
  end.

Definition has_questions (sec : json) : bool :=
  match Spec.section_questions sec with
  | [] => false
  | _ => true
  end.

(** *** Keys and posted values *)

Fixpoint comma_free (s : string) : bool :=
  match s with
  | EmptyString => true
  | String c s' => negb (Ascii.eqb c ",") && comma_free s'
  end.

(** A key that survives the key list: not empty, no comma, no white space
    at either end. *)
Definition clean_key (k : string) : Prop :=
  k <> "" /\ comma_free k = true /\ strip k = k.

(** The value posted under an unknown UUID carries the text of a question:
    an object with a truthy [text] or [question]. *)
Definition carries_label (v : json) : bool :=
  match v with
  | JDict meta => truthy (py_or (get_or_null "text" meta) (get_or_null "question" meta))
  | _ => false
  end.

(** What an object posted under an unknown UUID carries: the label of the
    question, [raw_val.get("text") or raw_val.get("question")], and its
    answer, [raw_val.get("value", raw_val.get("answer"))]. *)
Definition label_of (meta : dict) : json :=
  py_or (get_or_null "text" meta) (get_or_null "question" meta).

Definition posted_value (meta : dict) : json :=
  get_default "value" (get_or_null "answer" meta) meta.

(** *** Tables *)

Definition pair_of (r : ProjectQuestionSet) : Z * Z :=
  (pqs_project_id r, pqs_question_set_id r).

(** The unique constraint of the assignment table: a project holds a
    version at most once. *)
Definition unique_pairs (rows : list ProjectQuestionSet) : Prop :=
  NoDup (map pair_of rows).

(** The constraints the database enforces on versions and assignments. *)
Record database_ok (w : World) : Prop := {
  db_registry : Spec.registry_ok w;
  db_pairs : unique_pairs (project_question_sets w)
}.


End Vocab.

(** Further sample data. *)
Module Cases.
Import Py Models.
Local Open Scope Z_scope.

(** A legacy payload: one title, one section, both legacy item shapes. *)
Definition legacy_doc : dict :=
  [("Site visit",
    JDict [("Access",
            JList [JDict [("Gate code?",
                           JDict [("type", JStr "short_text");
                                  ("required", JBool false)])];
                   JDict [("question", JStr "Keys held?");
                          ("type", JStr "yes_no")]])])].

Definition legacy_doc_canonical : dict :=
  [("title", JStr "Site visit");
   ("sections",
    JList [JDict [("title", JStr "Access");
                  ("questions",
                   JList [JDict [("text", JStr "Gate code?");
                                 ("type", JStr "short_text");
                                 ("required", JBool false);
                                 ("id", JStr "00000000-0000-4000-8000-000000000000")];
                          JDict [("text", JStr "Keys held?");
                                 ("type", JStr "yes_no");
                                 ("required", JBool true);
                                 ("id", JStr "00000000-0000-4000-8000-000000000001")]])]])].

(** A block with two sections of the same title. *)
Definition twin_block : dict :=
  [("title", JStr "Custom");
   ("sections",
    JList [JDict [("title", JStr "S");
                  ("questions", JList [JDict [("id", JStr "q2"); ("text", JStr "Two")]])];
           JDict [("title", JStr "S");
                  ("questions", JList [JDict [("id", JStr "q1"); ("text", JStr "One")]])]])].

Definition twin_world : World :=
  {| question_sets := [];
     project_question_sets := [];
     projects :=
       [{| p_id := 1; p_name := "Alpha"; p_focalpoint_code := None;
           p_custom_questions := JDict twin_block |}];
     records := [];
     next_question_set_id := 1;
     next_record_id := 1;
     uuids_drawn := 0%nat |}.

(** Project 1 is open, project 2 closed, project 3 soft-deleted. *)
Definition three_projects : list Access.ProjectState :=
  [{| Access.ps_id := 1; Access.ps_closed := false; Access.ps_deleted := false |};
   {| Access.ps_id := 2; Access.ps_closed := true; Access.ps_deleted := false |};
   {| Access.ps_id := 3; Access.ps_closed := true; Access.ps_deleted := true |}].

(** The payload of the handler's comment: a question posted with its
    metadata under a UUID of the client's choice. *)
Definition sentiment_key : string := "6f1c2a9e-3b7d-4e55-9c10-2d8a4b6f7e01".

Definition sentiment_meta : dict :=
  [("text", JStr "Local stakeholder sentiment");
   ("type", JStr "short_text");
   ("value", JStr "positive")].

(** Stand-ins for SHA-256 and the token generator in the examples. *)
Definition toy_hash (s : string) : string := ("h:" ++ s)%string.

Definition toy_key (nbytes n : nat) : string :=
  ("k" ++ str_of_Z (Z.of_nat n))%string.

(** One unused invite bound to an email, and no user. *)
Definition invite_tables : Invites.Tables :=
  {| Invites.invites :=
       [{| Invites.inv_id := 1; Invites.inv_key := "key-1";
           Invites.inv_secret_hash := toy_hash "secret-1";
           Invites.inv_email := Some "Ada@Example.org";
           Invites.inv_used := false;
           Invites.inv_used_by_user_id := None |}];
     Invites.users := [];
     Invites.next_invite_id := 2;
     Invites.next_user_id := 1;
     Invites.tokens_drawn := 0%nat |}.

End Cases.

(* ===================================================================== *)
(** ** Facts about the built-ins                                          *)
(* ===================================================================== *)

Module PyFacts.
Import Py.

Lemma lstrip_idempotent (s : string) : lstrip (lstrip s) = lstrip s.
Proof.
  induction s as [|c s IH]; simpl; auto.
  destruct (is_space c) eqn:E; auto.
  simpl. now rewrite E.
Qed.

Lemma rstrip_idempotent (s : string) : rstrip (rstrip s) = rstrip s.
Proof.
  induction s as [|c s IH]; simpl; auto.
  destruct (rstrip s) as [|c' r] eqn:Er.
  - destruct (is_space c) eqn:E; simpl; auto. now rewrite E.
  - simpl in *. now rewrite IH.
Qed.

Lemma rstrip_fixed_tail (c : ascii) (s : string) :
  rstrip (String c s) = String c s -> rstrip s = s.
Proof.
  simpl. destruct (rstrip s) as [|c' r] eqn:Er.
  - destruct (is_space c); intro H; inv H; auto.
  - intro H; inv H; auto.
Qed.

Lemma rstrip_lstrip_fixed (s : string) :
  rstrip s = s -> rstrip (lstrip s) = lstrip s.
Proof.
  induction s as [|c s IH]; intro H; auto.
  cbn [lstrip]. destruct (is_space c); auto.
  apply IH. eapply rstrip_fixed_tail; eauto.
Qed.

(** [s.strip().strip() == s.strip()] *)
Lemma strip_idempotent (s : string) : strip (strip s) = strip s.
Proof.
  unfold strip.
  rewrite (rstrip_lstrip_fixed (rstrip s)) by apply rstrip_idempotent.
  apply lstrip_idempotent.
Qed.

Lemma dict_get_set_same (k : string) (v : json) (d : dict) :
  dict_get k (dict_set k v d) = Some v.
Proof.
  induction d as [|[k' v'] d IH]; simpl.
  - now rewrite String.eqb_refl.
  - destruct (String.eqb k k') eqn:E; simpl; rewrite E; auto.
Qed.

Lemma dict_get_set_other (k k' : string) (v : json) (d : dict) :
  k <> k' -> dict_get k (dict_set k' v d) = dict_get k d.
Proof.
  intro Hne. induction d as [|[k2 v2] d IH]; simpl.
  - destruct (String.eqb k k') eqn:E; auto.
    apply String.eqb_eq in E. contradiction.
  - destruct (String.eqb k' k2) eqn:E; simpl.
    + apply String.eqb_eq in E; subst k2.
      destruct (String.eqb k k') eqn:E'; auto.
      apply String.eqb_eq in E'. contradiction.
    + now rewrite IH.
Qed.


Lemma setdefault_present (k : string) (v v0 : json) (d : dict) :
  dict_get k d = Some v0 -> setdefault k v d = d.
Proof. unfold setdefault, dict_has. now intros ->. Qed.

Lemma dict_get_setdefault_other (k k' : string) (v : json) (d : dict) :
  k <> k' -> dict_get k (setdefault k' v d) = dict_get k d.
Proof.
  intro Hne. unfold setdefault. destruct (dict_has k' d); auto.
  now apply dict_get_set_other.
Qed.

Lemma dict_get_setdefault_same (k : string) (v : json) (d : dict) :
  dict_get k (setdefault k v d) =
  match dict_get k d with Some v0 => Some v0 | None => Some v end.
Proof.
  unfold setdefault, dict_has. destruct (dict_get k d) eqn:E; auto.
  apply dict_get_set_same.
Qed.

Lemma get_or_null_set_other (k k' : string) (v : json) (d : dict) :
  k <> k' -> get_or_null k (dict_set k' v d) = get_or_null k d.
Proof. intro H. unfold get_or_null. now rewrite dict_get_set_other. Qed.

Lemma get_or_null_set_same (k : string) (v : json) (d : dict) :
  get_or_null k (dict_set k v d) = v.
Proof. unfold get_or_null. now rewrite dict_get_set_same. Qed.

Lemma get_or_null_setdefault_other (k k' : string) (v : json) (d : dict) :
  k <> k' -> get_or_null k (setdefault k' v d) = get_or_null k d.
Proof. intro H. unfold get_or_null. now rewrite dict_get_setdefault_other. Qed.

Lemma assoc_get_set_same {A} (k : string) (v : A) (d : list (string * A)) :
  assoc_get k (assoc_set k v d) = Some v.
Proof.
  induction d as [|[k' v'] d IH]; simpl.
  - now rewrite String.eqb_refl.
  - destruct (String.eqb k k') eqn:E; simpl; rewrite E; auto.
Qed.

Lemma assoc_get_set_other {A} (k k' : string) (v : A) (d : list (string * A)) :
  k <> k' -> assoc_get k (assoc_set k' v d) = assoc_get k d.
Proof.
  intro Hne. induction d as [|[k2 v2] d IH]; simpl.
  - destruct (String.eqb k k') eqn:E; auto.
    apply String.eqb_eq in E. contradiction.
  - destruct (String.eqb k' k2) eqn:E; simpl.
    + apply String.eqb_eq in E; subst k2.
      destruct (String.eqb k k') eqn:E'; auto.
      apply String.eqb_eq in E'. contradiction.
    + now rewrite IH.
Qed.

End PyFacts.

(* ===================================================================== *)
(** ** Type inference and required-ness of synthesized questions          *)
(* ===================================================================== *)

Module InferenceFacts.
Import Py Models PyFacts.

Section WithRuntime.
Context `{R : Runtime}.

Lemma required_after_set (k : string) (v : json) (q : dict) (b : json) :
  k <> "required" ->
  dict_get "required" q = Some b ->
  dict_get "required" (dict_set k v q) = Some b.
Proof. intros Hk H. rewrite dict_get_set_other; auto. Qed.

Lemma apply_meta_required (q : dict) (raw : json) :
  dict_get "required" q = Some (JBool false) ->
  dict_get "required" (fst (Utils.apply_meta q raw)) = Some (JBool false).
Proof.
  intro H. destruct raw; simpl; auto.
  repeat match goal with
         | |- context [if ?c then _ else _] => destruct c
         end;
    repeat (apply required_after_set; [discriminate|]); auto.
Qed.

Lemma apply_meta_type (q : dict) (raw : json) :
  dict_has "type" q = false ->
  dict_has "type" (fst (Utils.apply_meta q raw)) = false
  \/ exists t, dict_get "type" (fst (Utils.apply_meta q raw)) = Some (JStr t).
Proof.
  intro H. destruct raw as [|b|z|m e|s|l0|meta]; simpl; auto.
  destruct (truthy (py_or _ _)).
  - right. eexists.
    destruct (is_list _); destruct (is_dict _);
      repeat (rewrite dict_get_set_other by discriminate);
      apply dict_get_set_same.
  - left. unfold dict_has in *.
    destruct (is_list _); destruct (is_dict _);
      repeat (rewrite dict_get_set_other by discriminate); auto.
Qed.

Lemma infer_type_required (date_test : string -> bool) (q : dict) (raw : json) :
  dict_get "required" q = Some (JBool false) ->
  dict_get "required" (fst (Utils.infer_type date_test q raw)) = Some (JBool false).
Proof.
  intro H. unfold Utils.infer_type.
  destruct (dict_has "type" q); simpl; auto.
  destruct raw as [|b|z|m e|s|l0|meta]; try destruct (date_test s); simpl;
    apply required_after_set; auto; discriminate.
Qed.

Lemma infer_type_type (date_test : string -> bool) (q : dict) (raw : json) :
  dict_has "type" q = false ->
  exists t, dict_get "type" (fst (Utils.infer_type date_test q raw)) = Some (JStr t).
Proof.
  intro H. unfold Utils.infer_type. rewrite H. simpl.
  destruct raw as [|b|z|m e|s|l0|meta]; try destruct (date_test s); simpl;
    eexists; apply dict_get_set_same.
Qed.

Lemma infer_type_typed (date_test : string -> bool) (q : dict) (raw : json) (v : json) :
  dict_get "type" q = Some v ->
  Utils.infer_type date_test q raw = (q, raw).
Proof. intro H. unfold Utils.infer_type, dict_has. now rewrite H. Qed.

(** Every synthesized definition is optional and carries a type name. *)
Lemma infer_with_required (date_test : string -> bool) (label : string)
  (raw : json) (n : nat) :
  exists q v, Utils.infer_with date_test label raw n = Some ((q, v), S n)
              /\ dict_get "required" q = Some (JBool false)
              /\ exists t, dict_get "type" q = Some (JStr t).
Proof.
  unfold Utils.infer_with, Utils.gbind, Utils.fresh_uuid, Utils.gret.
  set (q0 := [("id", JStr (uuid4 n)); ("text", JStr (strip label));
              ("required", JBool false)]).
  do 2 eexists. split; [reflexivity|]. split.
  - apply infer_type_required, apply_meta_required. reflexivity.
  - destruct (apply_meta_type q0 raw eq_refl) as [Hno | [t Ht]].
    + now apply infer_type_type.
    + erewrite infer_type_typed by eauto. simpl. eauto.
Qed.

(** Normalising the dropdown fields leaves every other field alone. *)
Lemma normalize_options_preserves (k : string) (qtype : json) (q : dict) :
  k <> "options" ->
  dict_get k (Utils.normalize_options qtype q) = dict_get k q.
Proof.
  intro Ho. unfold Utils.normalize_options.
  destruct (eq_str qtype "dropdown" || eq_str qtype "dropdown_mapped"); auto.
  destruct (get_or_null "options" q); auto.
  - now apply dict_get_set_other.
  - destruct (truthy _ && _); now apply dict_get_set_other.
Qed.

Lemma normalize_value_map_preserves (k : string) (qtype : json) (q : dict) :
  k <> "value_map" ->
  dict_get k (Utils.normalize_value_map qtype q) = dict_get k q.
Proof.
  intro Hv. unfold Utils.normalize_value_map.
  destruct (eq_str qtype "dropdown_mapped"); auto.
  destruct (get_or_null "value_map" q); try now apply dict_get_set_other.
  destruct (json_loads _) as [[]|]; now apply dict_get_set_other.
Qed.

Lemma normalize_inv (q q' : dict) :
  Utils.normalize_dropdown_options q = Some q' ->
  Utils.unhashable (get_or_null "type" q) = false
  /\ q' = Utils.normalize_value_map (get_or_null "type" q)
            (Utils.normalize_options (get_or_null "type" q) q).
Proof.
  unfold Utils.normalize_dropdown_options.
  destruct (Utils.unhashable _); [discriminate|]. intro H. now inv H.
Qed.

(** Normalising the dropdown fields leaves every other field alone. *)
Lemma normalize_preserves (k : string) (q q' : dict) :
  k <> "options" -> k <> "value_map" ->
  Utils.normalize_dropdown_options q = Some q' ->
  dict_get k q' = dict_get k q.
Proof.
  intros Ho Hv H. apply normalize_inv in H. destruct H as [_ ->].
  rewrite normalize_value_map_preserves, normalize_options_preserves; auto.
Qed.


End WithRuntime.
End InferenceFacts.



(** The date test of [main._infer_question_from_value] on scalars: the
    table of the specification, with the posted text stripped first. *)
Lemma main_infer_type_scalar `{R : Py.Runtime} (q : Py.dict) (raw : Py.json) :
  Py.dict_has "type" q = false ->
  Py.is_dict raw = false ->
  Py.dict_get "type" (fst (Utils.infer_type Utils.matches_iso_date q raw)) =
  Some (Py.JStr
          match raw with
          | Py.JBool _ => "yes_no"
          | Py.JInt _ | Py.JFloat _ _ => "numeric"
          | Py.JStr s =>
              if Utils.matches_iso_date s then "date"
              else if 80 <? String.length s then "long_text" else "short_text"
          | _ => "short_text"
          end).
Proof.
  intros Hq Hd. unfold Utils.infer_type. rewrite Hq. simpl.
  destruct raw as [|b|z|m e|s|l|d]; try discriminate;
    try destruct (Utils.matches_iso_date s);
    simpl; apply PyFacts.dict_get_set_same.
Qed.

Example normalize_yes_no_words :
  map Utils.normalize_yes_no
    [Py.JBool true; Py.JStr " YES "; Py.JStr "t"; Py.JStr "1"; Py.JInt 1;
     Py.JBool false; Py.JStr "No"; Py.JStr "F"; Py.JStr "0"; Py.JInt 0]
  = [Py.JStr "yes"; Py.JStr "yes"; Py.JStr "yes"; Py.JStr "yes"; Py.JStr "yes";
     Py.JStr "no"; Py.JStr "no"; Py.JStr "no"; Py.JStr "no"; Py.JStr "no"].
Proof. reflexivity. Qed.

(** C7.  [utils.infer_question_from_value] recognises a date by shape only
    (ten characters after stripping, a hyphen in fifth place): the text
    ["abcd-efghi"], which is not of the form YYYY-MM-DD and is shorter
    than 81 characters, is typed [date] and not [short_text].  The copy in
    [main.py], which tests the pattern itself, types it [short_text]. *)
Theorem utils_date_test_is_shape_only `{R : Py.Runtime} (label : string) (n : nat) :
  (exists q n',
      Utils.infer_question_from_value label (Py.JStr "abcd-efghi") n
      = Some (q, Py.JStr "abcd-efghi", n')
      /\ Py.dict_get "type" q = Some (Py.JStr "date"))
  /\ (exists q n',
         Main._infer_question_from_value label (Py.JStr "abcd-efghi") n
         = Some (q, Py.JStr "abcd-efghi", n')
         /\ Py.dict_get "type" q = Some (Py.JStr "short_text")).
Proof.
  split; do 2 eexists;
    (split; [unfold Utils.infer_question_from_value, Main._infer_question_from_value,
               Utils.infer_with, Utils.gbind, Utils.fresh_uuid, Utils.gret;
             cbn; reflexivity
            |reflexivity]).
Qed.

(* ===================================================================== *)
(** ** Auto-fill                                                          *)
(* ===================================================================== *)

Module AutofillFacts.
Import Py Models PyFacts.

Section WithRuntime.
Context `{R : Runtime}.

Import Spec.

Lemma assoc_set_Forall {A} (P : string * A -> Prop) (k : string) (v : A)
  (d : list (string * A)) :
  (forall k', P (k', v)) -> Forall P d -> Forall P (assoc_set k v d).
Proof.
  intros Hv Hd. induction Hd as [|[k' v'] d Hx Hd IH]; simpl.
  - constructor; auto.
  - destruct (String.eqb k k'); constructor; auto.
Qed.

Lemma lookup_questions_unbound (qs : list json) (out ql : list (string * dict)) :
  Forall unbound out ->
  Crud.lookup_questions qs out = Some ql -> Forall unbound ql.
Proof.
  revert out. induction qs as [|q qs IH]; simpl; intros out Hout H.
  - now inv H.
  - destruct (as_dict q) as [d|]; [|discriminate].
    destruct (dict_get "id" d) as [id|]; [|discriminate].
    eapply IH; [|exact H].
    apply assoc_set_Forall; auto. intro. reflexivity.
Qed.

Lemma lookup_sections_unbound (secs : list json) (out ql : list (string * dict)) :
  Forall unbound out ->
  Crud.lookup_sections secs out = Some ql -> Forall unbound ql.
Proof.
  revert out. induction secs as [|sec secs IH]; simpl; intros out Hout H.
  - now inv H.
  - destruct (as_dict sec) as [d|]; [|discriminate].
    destruct (py_iter _) as [qs|]; [|discriminate].
    destruct (Crud.lookup_questions qs out) as [out'|] eqn:E; [|discriminate].
    eapply IH; [|exact H]. eapply lookup_questions_unbound; eauto.
Qed.

(** The lookup keeps [text], [type], [required], [options] and
    [value_map] only: no entry carries an [auto] binding. *)
Lemma lookup_unbound (form : dict) (ql : list (string * dict)) :
  Crud.question_lookup_from_form form = Some ql -> Forall unbound ql.
Proof.
  unfold Crud.question_lookup_from_form.
  destruct (py_iter _) as [secs|]; [|discriminate].
  apply lookup_sections_unbound. constructor.
Qed.

Lemma autofill_unbound (proj : Project) (ql : list (string * dict)) (answers : dict) :
  Forall unbound ql -> Main.autofill proj ql answers = answers.
Proof.
  unfold Main.autofill. intro H. revert answers.
  induction H as [|[qid qinfo] ql Hx Hq IH]; simpl; intro answers; auto.
  unfold unbound in Hx. simpl in Hx. rewrite Hx. apply IH.
Qed.

(** On the lookup of any form the auto-fill loop writes nothing. *)
Lemma autofill_is_noop (proj : Project) (form : dict) (ql : list (string * dict))
  (answers : dict) :
  Crud.question_lookup_from_form form = Some ql ->
  Main.autofill proj ql answers = answers.
Proof. intro H. apply autofill_unbound. eapply lookup_unbound; eauto. Qed.

End WithRuntime.
End AutofillFacts.

(** C1.  Project "Alpha" (focalpoint code 7) is assigned a version whose
    questions [q-name] and [q-code] are bound to [project_name] and
    [project_focalpoint_code]; ingesting an empty answer map stores a record
    whose answers are still empty: neither entry is filled. *)
Theorem autofill_leaves_bound_questions_unanswered :
  exists r w',
    Main.create_record (R := Sample.runtime) 1 5 [] Examples.alpha_world = (Models.Ok r, w')
    /\ Models.rec_answers r = []
    /\ Py.dict_get "q-name" (Models.rec_answers r) <> Some (Py.JStr "Alpha")
    /\ Py.dict_get "q-code" (Models.rec_answers r) <> Some (Py.JInt 7).
Proof.
  do 2 eexists. split; [vm_compute; reflexivity|].
  repeat split; discriminate.
Qed.

(* ===================================================================== *)
(** ** Canonicalisation                                                   *)
(* ===================================================================== *)

Module CanonFacts.
Import Py Models PyFacts Spec.

Section WithRuntime.
Context `{R : Runtime}.

(** *** The identifier-drawing monad *)

Lemma gbind_inv {A B} (m : Utils.Gen A) (k : A -> Utils.Gen B) n b n' :
  Utils.gbind m k n = Some (b, n') ->
  exists a n1, m n = Some (a, n1) /\ k a n1 = Some (b, n').
Proof.
  unfold Utils.gbind. destruct (m n) as [[a n1]|]; [|discriminate]. eauto.
Qed.

Lemma glift_inv {A} (o : option A) n a n' :
  Utils.glift o n = Some (a, n') -> o = Some a /\ n' = n.
Proof. unfold Utils.glift. destruct o; intro H; inv H; auto. Qed.

(** [gmap] relates the lists item by item, between counters that grow. *)
Lemma gmap_Forall2 {A B} (f : A -> Utils.Gen B) (P : nat -> nat -> A -> B -> Prop) :
  (forall a n b n', f a n = Some (b, n') -> n <= n' /\ P n n' a b) ->
  (forall n1 n2 n3 n4 a b, n1 <= n2 -> n3 <= n4 -> P n2 n3 a b -> P n1 n4 a b) ->
  forall l n l' n',
    Utils.gmap f l n = Some (l', n') ->
    n <= n' /\ Forall2 (P n n') l l'.
Proof.
  intros Hf Hmono. induction l as [|a l IH]; simpl; intros n l' n' H.
  - unfold Utils.gret in H. inv H. split; auto.
  - apply gbind_inv in H. destruct H as (b & n1 & Eb & H).
    apply gbind_inv in H. destruct H as (bs & n2 & Ebs & H).
    unfold Utils.gret in H. inv H.
    destruct (Hf _ _ _ _ Eb) as [L1 Pb].
    destruct (IH _ _ _ Ebs) as [L2 Pbs].
    split; [lia|]. constructor.
    + eapply Hmono; [| |exact Pb]; lia.
    + eapply Forall2_impl; [|exact Pbs].
      intros x y Hxy. eapply Hmono; [| |exact Hxy]; lia.
Qed.

(** *** Identifiers *)

Lemma id_kept_widen n1 n2 n3 n4 q q' :
  n1 <= n2 -> n3 <= n4 -> id_kept n2 n3 q q' -> id_kept n1 n4 q q'.
Proof.
  unfold id_kept. intros L1 L2. destruct (question_id q); auto.
  intros (k & Hk & E). exists k. split; [lia|auto].
Qed.

Lemma ensure_question_id_kept q n q' n' :
  Utils.ensure_question_id q n = Some (q', n') ->
  n <= n' /\ id_kept n n' q q'.
Proof.
  unfold Utils.ensure_question_id. intro H.
  apply gbind_inv in H. destruct H as (d & n1 & E1 & H).
  apply glift_inv in E1. destruct E1 as [E1 ->].
  apply gbind_inv in H. destruct H as (qn & n2 & E2 & H).
  apply glift_inv in E2. destruct E2 as [E2 ->].
  apply gbind_inv in H. destruct H as (u & n3 & E3 & H).
  unfold Utils.fresh_uuid in E3. inv E3.
  unfold Utils.gret in H. inv H.
  split; [lia|].
  destruct q; try discriminate. simpl in E1. inv E1.
  unfold id_kept. simpl.
  rewrite dict_get_setdefault_same.
  rewrite (InferenceFacts.normalize_preserves "id" _ _
             ltac:(discriminate) ltac:(discriminate) E2).
  destruct (dict_get "id" d); auto.
  exists n. split; [lia|auto].
Qed.

Lemma gmap_questions_kept qs n qs' n' :
  Utils.gmap Utils.ensure_question_id qs n = Some (qs', n') ->
  n <= n' /\ Forall2 (id_kept n n') qs qs'.
Proof.
  apply (gmap_Forall2 Utils.ensure_question_id id_kept).
  - apply ensure_question_id_kept.
  - intros. eapply id_kept_widen; eauto.
Qed.

Lemma ensure_question_id_needs_dict q n :
  as_dict q = None -> Utils.ensure_question_id q n = None.
Proof. unfold Utils.ensure_question_id, Utils.gbind, Utils.glift. now intros ->. Qed.

(** Items that are not objects stop the loop at once. *)
Lemma gmap_non_dicts qs n qs' n' :
  Forall (fun q => as_dict q = None) qs ->
  Utils.gmap Utils.ensure_question_id qs n = Some (qs', n') ->
  qs = [] /\ qs' = [] /\ n' = n.
Proof.
  intros Hall H. destruct qs as [|q qs].
  - simpl in H. unfold Utils.gret in H. inv H. auto.
  - inv Hall. simpl in H. unfold Utils.gbind in H.
    rewrite ensure_question_id_needs_dict in H by assumption. discriminate.
Qed.

Lemma chars_not_dicts s : Forall (fun q => as_dict q = None) (chars s).
Proof. induction s; simpl; constructor; auto. Qed.

Lemma keys_not_dicts (d : dict) :
  Forall (fun q => as_dict q = None) (map (fun kv => JStr (fst kv)) d).
Proof. induction d; simpl; constructor; auto. Qed.

(** What iterating [sec.get("questions", [])] yields when the loop body
    succeeds on every item: the question list of the section. *)
Lemma iter_questions (s : dict) qs n qs' n' :
  py_iter (get_default "questions" (JList []) s) = Some qs ->
  Utils.gmap Utils.ensure_question_id qs n = Some (qs', n') ->
  qs = section_questions (JDict s).
Proof.
  unfold get_default. simpl. intros Hi Hg.
  destruct (dict_get "questions" s) as [v|]; [|now inv Hi].
  destruct v; simpl in Hi; try discriminate; inv Hi; auto.
  - destruct (gmap_non_dicts _ _ _ _ (chars_not_dicts _) Hg) as (-> & _); auto.
  - destruct (gmap_non_dicts _ _ _ _ (keys_not_dicts _) Hg) as (-> & _); auto.
Qed.

Lemma ensure_section_ids_kept sec n sec' n' :
  Utils.ensure_section_ids sec n = Some (sec', n') ->
  n <= n' /\ Forall2 (id_kept n n') (section_questions sec) (section_questions sec').
Proof.
  unfold Utils.ensure_section_ids. intro H.
  apply gbind_inv in H. destruct H as (s & n1 & E1 & H).
  apply glift_inv in E1. destruct E1 as [E1 ->].
  apply gbind_inv in H. destruct H as (qs & n2 & E2 & H).
  apply glift_inv in E2. destruct E2 as [E2 ->].
  apply gbind_inv in H. destruct H as (qs' & n3 & E3 & H).
  unfold Utils.gret in H. inv H.
  destruct sec; try discriminate. simpl in E1. inv E1.
  pose proof (iter_questions _ _ _ _ _ E2 E3) as ->.
  destruct (gmap_questions_kept _ _ _ _ E3) as [L F].
  split; auto.
  cbn [section_questions] in *. now rewrite dict_get_set_same.
Qed.

Lemma Forall2_flat_map {A B C D} (P : C -> D -> Prop) (f : A -> list C)
  (g : B -> list D) l l' :
  Forall2 (fun a b => Forall2 P (f a) (g b)) l l' ->
  Forall2 P (flat_map f l) (flat_map g l').
Proof.
  induction 1; simpl; [constructor|]. apply Forall2_app; auto.
Qed.

Lemma ensure_section_ids_needs_dict sec n :
  as_dict sec = None -> Utils.ensure_section_ids sec n = None.
Proof. unfold Utils.ensure_section_ids, Utils.gbind, Utils.glift. now intros ->. Qed.

Lemma gmap_sections_non_dicts secs n secs' n' :
  Forall (fun q => as_dict q = None) secs ->
  Utils.gmap Utils.ensure_section_ids secs n = Some (secs', n') ->
  secs = [] /\ secs' = [] /\ n' = n.
Proof.
  intros Hall H. destruct secs as [|q qs].
  - simpl in H. unfold Utils.gret in H. inv H. auto.
  - inv Hall. simpl in H. unfold Utils.gbind in H.
    rewrite ensure_section_ids_needs_dict in H by assumption. discriminate.
Qed.

Lemma iter_sections (d : dict) secs n secs' n' :
  py_iter (get_default "sections" (JList []) d) = Some secs ->
  Utils.gmap Utils.ensure_section_ids secs n = Some (secs', n') ->
  secs = doc_sections d.
Proof.
  unfold get_default, doc_sections. intros Hi Hg.
  destruct (dict_get "sections" d) as [v|]; [|now inv Hi].
  destruct v; simpl in Hi; try discriminate; inv Hi; auto.
  - destruct (gmap_sections_non_dicts _ _ _ _ (chars_not_dicts _) Hg) as (-> & _); auto.
  - destruct (gmap_sections_non_dicts _ _ _ _ (keys_not_dicts _) Hg) as (-> & _); auto.
Qed.

(** The result of [ensure_question_ids], spelled out. *)
Lemma ensure_question_ids_inv d n y n' :
  Utils.ensure_question_ids d n = Some (y, n') ->
  exists secs',
    Utils.gmap Utils.ensure_section_ids (doc_sections d) n = Some (secs', n')
    /\ y = setdefault "title"
             (py_or (get_or_null "name" (dict_set "sections" (JList secs') d))
                (JStr "Untitled"))
             (dict_set "sections" (JList secs') d)
    /\ doc_sections y = secs'.
Proof.
  unfold Utils.ensure_question_ids. intro H.
  apply gbind_inv in H. destruct H as (secs & n1 & E1 & H).
  apply glift_inv in E1. destruct E1 as [E1 ->].
  apply gbind_inv in H. destruct H as (secs' & n2 & E2 & H).
  unfold Utils.gret in H. inv H.
  pose proof (iter_sections _ _ _ _ _ E1 E2) as ->.
  exists secs'. split; auto. split; auto.
  unfold doc_sections at 1.
  rewrite dict_get_setdefault_other by discriminate.
  now rewrite dict_get_set_same.
Qed.

Lemma ensure_question_ids_kept d n y n' :
  Utils.ensure_question_ids d n = Some (y, n') ->
  Forall2 (id_kept n n') (doc_questions d) (doc_questions y).
Proof.
  intro H. apply ensure_question_ids_inv in H.
  destruct H as (secs' & Hg & _ & Hs).
  unfold doc_questions. rewrite Hs.
  apply Forall2_flat_map.
  eapply (gmap_Forall2 Utils.ensure_section_ids
            (fun n n' a b =>
               Forall2 (id_kept n n') (section_questions a) (section_questions b)));
    [| |exact Hg].
  - apply ensure_section_ids_kept.
  - intros n1 n2 n3 n4 a b L1 L2 F. eapply Forall2_impl; [|exact F].
    intros. eapply id_kept_widen; eauto.
Qed.

End WithRuntime.
End CanonFacts.

(** C5.  Canonicalising an already-canonical document (an object with
    [title] and [sections]) keeps the [id] of every question that carries
    one; a question without an [id] receives an identifier drawn from
    [uuid4] during the call. *)
Theorem canonical_ids_are_stable `{R : Py.Runtime}
  (d : Py.dict) (fallback_name : string) (n : nat) (y : Py.dict) (n' : nat) :
  Spec.is_canonical (Py.JDict d) = true ->
  Utils.to_canonical_question_set (Py.JDict d) fallback_name n = Some (y, n') ->
  Forall2 (Spec.id_kept n n') (Spec.doc_questions d) (Spec.doc_questions y).
Proof.
  intros Hc H. simpl in Hc. unfold Utils.to_canonical_question_set in H.
  rewrite Hc in H. now apply CanonFacts.ensure_question_ids_kept.
Qed.

Lemma canonical_ids_are_stable_witness :
  Forall2 (Spec.id_kept (R := Sample.runtime) 0 2)
    (Spec.doc_questions Examples.half_identified)
    (Spec.doc_questions Examples.half_identified_canonical).
Proof.
  apply (canonical_ids_are_stable (R := Sample.runtime)
           Examples.half_identified "Imported" 0
           Examples.half_identified_canonical 2); reflexivity.
Defined.

(* ===================================================================== *)
(** ** A second canonicalisation pass                                     *)
(* ===================================================================== *)

Module IdempotenceFacts.
Import Py Models PyFacts Spec CanonFacts.

Section WithRuntime.
Context `{R : Runtime}.

(** *** What the first pass leaves behind *)

Lemma split_lines_clean (text : string) :
  Forall clean_option (map JStr (Utils._split_nonempty_lines text)).
Proof.
  unfold Utils._split_nonempty_lines.
  induction (splitlines text) as [|l ls IH]; simpl; [constructor|].
  destruct (Utils.nonempty (strip l)) eqn:E; simpl; auto.
  constructor; auto. exists (strip l). split; auto. split.
  - apply strip_idempotent.
  - unfold Utils.nonempty in E. intro H. rewrite H in E. discriminate.
Qed.

Lemma stripped_items_clean (opts : list json) :
  Forall clean_option
    (map JStr (filter Utils.nonempty (map (fun x => strip (py_str x)) opts))).
Proof.
  induction opts as [|x opts IH]; simpl; [constructor|].
  destruct (Utils.nonempty (strip (py_str x))) eqn:E; simpl; auto.
  constructor; auto. exists (strip (py_str x)). split; auto. split.
  - apply strip_idempotent.
  - unfold Utils.nonempty in E. intro H. rewrite H in E. discriminate.
Qed.

Lemma normalize_options_clean (qtype : json) (q : dict) :
  eq_str qtype "dropdown" || eq_str qtype "dropdown_mapped" = true ->
  clean_options (get_or_null "options" (Utils.normalize_options qtype q)).
Proof.
  intro Ht. unfold Utils.normalize_options. rewrite Ht.
  destruct (get_or_null "options" q) eqn:E;
    try (rewrite E; exact I).
  - rewrite get_or_null_set_same. apply split_lines_clean.
  - destruct (truthy _ && _); rewrite get_or_null_set_same.
    + apply split_lines_clean.
    + apply stripped_items_clean.
Qed.

Lemma normalize_value_map_is_dict (qtype : json) (q : dict) :
  eq_str qtype "dropdown_mapped" = true ->
  is_dict (get_or_null "value_map" (Utils.normalize_value_map qtype q)) = true.
Proof.
  intro Ht. unfold Utils.normalize_value_map. rewrite Ht.
  destruct (get_or_null "value_map" q);
    try (destruct (json_loads _) as [[]|]);
    now rewrite get_or_null_set_same.
Qed.

Lemma normalize_normalized (q q' : dict) :
  Utils.normalize_dropdown_options q = Some q' -> normalized q'.
Proof.
  intro H. pose proof (normalize_preserves_type := InferenceFacts.normalize_preserves
                         "type" q q' ltac:(discriminate) ltac:(discriminate) H).
  apply InferenceFacts.normalize_inv in H. destruct H as [Hh ->].
  unfold normalized.
  assert (Ety : get_or_null "type"
                  (Utils.normalize_value_map (get_or_null "type" q)
                     (Utils.normalize_options (get_or_null "type" q) q))
                = get_or_null "type" q).
  { unfold get_or_null at 1 4. now rewrite normalize_preserves_type. }
  rewrite Ety. split; [assumption|]. split.
  - intro Ht. unfold get_or_null at 1.
    rewrite InferenceFacts.normalize_value_map_preserves by discriminate.
    now apply normalize_options_clean.
  - apply normalize_value_map_is_dict.
Qed.

Lemma normalized_setdefault_id (q : dict) (u : json) :
  normalized q -> normalized (setdefault "id" u q).
Proof.
  unfold normalized.
  rewrite !get_or_null_setdefault_other by discriminate. auto.
Qed.

Lemma ensure_question_id_canonical q n q' n' :
  Utils.ensure_question_id q n = Some (q', n') -> canonical_question q'.
Proof.
  unfold Utils.ensure_question_id. intro H.
  apply gbind_inv in H. destruct H as (d & n1 & E1 & H).
  apply glift_inv in E1. destruct E1 as [E1 ->].
  apply gbind_inv in H. destruct H as (qn & n2 & E2 & H).
  apply glift_inv in E2. destruct E2 as [E2 ->].
  apply gbind_inv in H. destruct H as (u & n3 & E3 & H).
  unfold Utils.gret in H. inv H.
  eexists. split; [reflexivity|]. split.
  - unfold dict_has. rewrite dict_get_setdefault_same.
    now destruct (dict_get "id" qn).
  - apply normalized_setdefault_id. eapply normalize_normalized; eauto.
Qed.

Lemma Forall2_right {A B} (P : B -> Prop) (l : list A) (l' : list B) :
  Forall2 (fun _ b => P b) l l' -> Forall P l'.
Proof. induction 1; constructor; auto. Qed.

Lemma gmap_output {A B} (f : A -> Utils.Gen B) (P : B -> Prop) :
  (forall a n b n', f a n = Some (b, n') -> P b) ->
  forall l n l' n', Utils.gmap f l n = Some (l', n') -> Forall P l'.
Proof.
  intros Hf. induction l as [|a l IH]; simpl; intros n l' n' H.
  - unfold Utils.gret in H. inv H. constructor.
  - apply gbind_inv in H. destruct H as (b & n1 & Eb & H).
    apply gbind_inv in H. destruct H as (bs & n2 & Ebs & H).
    unfold Utils.gret in H. inv H. constructor; eauto.
Qed.

Lemma ensure_section_ids_canonical sec n sec' n' :
  Utils.ensure_section_ids sec n = Some (sec', n') -> canonical_section sec'.
Proof.
  unfold Utils.ensure_section_ids. intro H.
  apply gbind_inv in H. destruct H as (s & n1 & E1 & H).
  apply glift_inv in E1. destruct E1 as [E1 ->].
  apply gbind_inv in H. destruct H as (qs & n2 & E2 & H).
  apply glift_inv in E2. destruct E2 as [E2 ->].
  apply gbind_inv in H. destruct H as (qs' & n3 & E3 & H).
  unfold Utils.gret in H. inv H.
  do 2 eexists. split; [reflexivity|]. split.
  - apply dict_get_set_same.
  - eapply gmap_output; [|exact E3]. apply ensure_question_id_canonical.
Qed.

(** Every document [ensure_question_ids] returns is canonical. *)
Lemma ensure_question_ids_canonical d n y n' :
  Utils.ensure_question_ids d n = Some (y, n') -> canonical_document y.
Proof.
  intro H. apply ensure_question_ids_inv in H.
  destruct H as (secs' & Hg & -> & Hs). split.
  - unfold dict_has. rewrite dict_get_setdefault_same.
    now destruct (dict_get "title" _).
  - exists secs'. split.
    + rewrite dict_get_setdefault_other by discriminate. apply dict_get_set_same.
    + eapply gmap_output; [|exact Hg]. apply ensure_section_ids_canonical.
Qed.


(** *** Running the pass again *)















End WithRuntime.
End IdempotenceFacts.




(* ===================================================================== *)
(** ** Merge engine                                                       *)
(* ===================================================================== *)

Module MergeFacts.
Import Py Models PyFacts Spec.

Section WithRuntime.
Context `{R : Runtime}.

(** *** [ORDER BY position] *)

Lemma insert_by_position_perm row sorted :
  Permutation (row :: sorted) (Crud.insert_by_position row sorted).
Proof.
  induction sorted as [|r rest IH]; simpl; auto.
  destruct (pqs_position row <? pqs_position r)%Z; auto.
  rewrite perm_swap. now constructor.
Qed.

Lemma insert_by_position_ordered row sorted :
  in_position_order sorted ->
  in_position_order (Crud.insert_by_position row sorted).
Proof.
  induction 1 as [|r rest Hr Hrest IH]; simpl.
  - repeat constructor.
  - destruct (pqs_position row <? pqs_position r)%Z eqn:E.
    + apply Z.ltb_lt in E. constructor; [|now constructor].
      constructor; [lia|].
      eapply Forall_impl; [|exact Hr]. simpl. intros; lia.
    + apply Z.ltb_ge in E. constructor; auto.
      eapply Permutation_Forall; [apply insert_by_position_perm|].
      constructor; auto.
Qed.

Lemma order_by_position_perm rows :
  Permutation (Crud.order_by_position rows) rows.
Proof.
  unfold Crud.order_by_position.
  induction rows as [|r rows IH]; simpl; auto.
  rewrite <- insert_by_position_perm. now constructor.
Qed.

Lemma order_by_position_ordered rows :
  in_position_order (Crud.order_by_position rows).
Proof.
  unfold Crud.order_by_position.
  induction rows as [|r rows IH]; simpl.
  - constructor.
  - now apply insert_by_position_ordered.
Qed.

(** *** The loops *)

Lemma collect_sets_spec w links :
  Crud.collect_sets w links = assigned_versions w links.
Proof.
  induction links as [|link links IH]; simpl; auto.
  unfold Crud.get_question_set.
  destruct (find _ (question_sets w)); simpl; now rewrite IH.
Qed.

Lemma titled_title (d : dict) :
  titled d = true ->
  py_str (get_default "title" (JStr "Section") d) = title_of d.
Proof.
  unfold titled, get_default, title_of.
  destruct (dict_get "title" d) as [[]|]; try discriminate. reflexivity.
Qed.

Lemma titled_set_title (d : dict) (default : json) :
  titled d = true ->
  py_str (get_default "title" default d) = title_of d.
Proof.
  unfold titled, get_default, title_of.
  destruct (dict_get "title" d) as [[]|]; try discriminate. reflexivity.
Qed.

Lemma append_sections_spec prefix secs merged :
  forallb titled_section secs = true ->
  Crud.append_sections prefix secs merged
  = Some (merged ++ map (retitled prefix) secs).
Proof.
  revert merged. induction secs as [|sec secs IH]; simpl; intros merged H.
  - now rewrite app_nil_r.
  - apply Bool.andb_true_iff in H. destruct H as [Hs Hrest].
    destruct sec; try discriminate. simpl in *.
    rewrite IH by assumption. rewrite <- app_assoc. simpl.
    unfold Crud.merged_section. now rewrite titled_set_title.
Qed.

Lemma well_titled_inv (doc : dict) :
  well_titled doc = true ->
  titled doc = true
  /\ dict_get "sections" doc = Some (JList (doc_sections doc))
  /\ forallb titled_section (doc_sections doc) = true.
Proof.
  unfold well_titled, doc_sections. intro H.
  apply Bool.andb_true_iff in H. destruct H as [Ht Hs]. split; auto.
  destruct (dict_get "sections" doc) as [[]|]; try discriminate. auto.
Qed.

Lemma append_sets_spec idx sets merged :
  Forall (fun v => well_titled v = true) sets ->
  Crud.append_sets idx sets merged
  = Some (merged
          ++ flat_map (fun v => map (retitled (title_of v)) (doc_sections v)) sets).
Proof.
  intro H. revert idx merged.
  induction H as [|sdata sets Hw Hsets IH]; intros idx merged;
    cbn [Crud.append_sets flat_map].
  - now rewrite app_nil_r.
  - destruct (well_titled_inv _ Hw) as (Ht & Hs & Hsecs).
    rewrite titled_set_title by assumption.
    unfold get_default. rewrite Hs. cbn [py_iter].
    rewrite append_sections_spec by assumption.
    rewrite IH. now rewrite <- app_assoc.
Qed.

Lemma assigned_versions_stored w links v :
  In v (assigned_versions w links) ->
  exists qs, In qs (question_sets w) /\ qs_data qs = v.
Proof.
  unfold assigned_versions. intro H. apply in_flat_map in H.
  destruct H as (link & _ & H).
  destruct (find _ (question_sets w)) as [qs|] eqn:E; [|contradiction].
  destruct H as [<-|[]]. apply find_some in E. exists qs. tauto.
Qed.

End WithRuntime.
End MergeFacts.

(** C6.  When every stored version and the canonical custom block have
    titled sections, [merged_project_form] returns the form whose sections
    are those of the assigned versions, taken in position order and each
    retitled ["{version.title} — {section.title}"] in the version's own
    order, followed by the sections of the custom block retitled
    ["Custom — {section.title}"]. *)
Theorem merge_follows_position_order `{R : Py.Runtime}
  (w : Models.World) (project_id : Z) (p : Models.Project)
  (custom : Py.dict) (n' : nat) :
  Crud.get_project w project_id = Some p ->
  Utils.canonical_project_custom_questions (Models.p_custom_questions p)
    (Models.uuids_drawn w) = Some (custom, n') ->
  (forall qs, In qs (Models.question_sets w) ->
              Spec.well_titled (Models.qs_data qs) = true) ->
  Spec.well_titled custom = true ->
  exists links,
    Permutation links (Spec.assignments w project_id)
    /\ Spec.in_position_order links
    /\ Crud.merged_project_form project_id w
       = (Models.Ok
            [("title", Py.JStr (Models.p_name p));
             ("sections",
              Py.JList (Spec.merge_spec (Spec.assigned_versions w links) custom))],
          Models.with_uuids_drawn w n').
Proof.
  intros Hp Hc Hv Hcw.
  exists (Crud.project_links w project_id). split; [|split].
  - apply MergeFacts.order_by_position_perm.
  - apply MergeFacts.order_by_position_ordered.
  - unfold Crud.merged_project_form, Models.bind, Models.get_world.
    rewrite Hp. simpl. unfold Models.run_gen. rewrite Hc.
    unfold Models.run_opt.
    rewrite MergeFacts.collect_sets_spec.
    rewrite MergeFacts.append_sets_spec.
    + destruct (MergeFacts.well_titled_inv _ Hcw) as (_ & Hs & Hsecs).
      unfold Py.get_default. rewrite Hs. simpl.
      rewrite MergeFacts.append_sections_spec by assumption.
      reflexivity.
    + apply Forall_forall. intros v Hin.
      apply MergeFacts.assigned_versions_stored in Hin.
      destruct Hin as (qs & Hqs & <-). auto.
Qed.

Lemma merge_follows_position_order_witness :
  exists links,
    Permutation links (Spec.assignments Examples.merge_world 1)
    /\ Spec.in_position_order links
    /\ Crud.merged_project_form (R := Sample.runtime) 1 Examples.merge_world
       = (Models.Ok
            [("title", Py.JStr "Alpha");
             ("sections",
              Py.JList (Spec.merge_spec
                          (Spec.assigned_versions Examples.merge_world links)
                          Examples.block_c))],
          Models.with_uuids_drawn Examples.merge_world 1).
Proof.
  apply (merge_follows_position_order (R := Sample.runtime)
           Examples.merge_world 1 Examples.merge_project Examples.block_c 1).
  - reflexivity.
  - reflexivity.
  - intros qs [<-|[<-|[]]]; reflexivity.
  - reflexivity.
Defined.

(** The merge ordering example of the specification: A's section, then
    B's sections, then the custom section, under their new titles. *)
Example merge_titles :
  match Crud.merged_project_form (R := Sample.runtime) 1 Examples.merge_world with
  | (Models.Ok form, _) =>
      map (fun sec => match sec with
                      | Py.JDict s => Py.get_or_null "title" s
                      | _ => Py.JNull
                      end) (Spec.doc_sections form)
  | _ => []
  end
  = [Py.JStr "A — a1"; Py.JStr "B — b1"; Py.JStr "B — b2"; Py.JStr "Custom — C"].
Proof. reflexivity. Qed.

(* ===================================================================== *)
(** ** Completeness check                                                 *)
(* ===================================================================== *)

Module CompletenessFacts.
Import Py Models PyFacts Spec.

Lemma missing_one_violates (answers : dict) (entry : string * dict) :
  Main.missing_one answers entry
  = if violates answers entry then [get_or_null "text" (snd entry)] else [].
Proof.
  destruct entry as [qid qinfo]. unfold Main.missing_one, violates. simpl.
  unfold dict_has, get_or_null at 2.
  destruct (truthy (get_or_null "required" qinfo)); simpl; auto.
  destruct (dict_get qid answers); simpl; auto.
Qed.

(** [missing] lists the texts of the violating questions, in lookup order. *)
Lemma missing_required_spec (ql : list (string * dict)) (answers : dict) :
  Main.missing_required ql answers
  = map (fun e => get_or_null "text" (snd e)) (filter (violates answers) ql).
Proof.
  unfold Main.missing_required.
  induction ql as [|e ql IH]; simpl; auto.
  rewrite missing_one_violates, IH.
  destruct (violates answers e); reflexivity.
Qed.

Lemma filter_none {A} (f : A -> bool) (l : list A) :
  existsb f l = false -> filter f l = [].
Proof.
  induction l as [|a l IH]; simpl; auto.
  destruct (f a); simpl; [discriminate|auto].
Qed.

Lemma filter_some {A} (f : A -> bool) (l : list A) :
  existsb f l = true -> filter f l <> [].
Proof.
  induction l as [|a l IH]; simpl; [discriminate|].
  destruct (f a); simpl; [discriminate|auto].
Qed.

Lemma join_values_strings (texts : list string) :
  Main.join_values (map JStr texts) = Some texts.
Proof. induction texts as [|t texts IH]; simpl; auto. now rewrite IH. Qed.

End CompletenessFacts.

(** C8.  At the completeness check the handler goes on to store a record
    exactly when no question of the lookup is required (truthy [required])
    while its answer is absent, [""] or [null].  Otherwise it fails, the
    database is untouched (no record), and when the question texts are
    strings the error is HTTP 400 with the texts of the violating questions,
    the first ten of them, joined by [", "]. *)
Theorem completeness_check_spec
  (project_id user_id : Z) (st : Main.Ingest) (w : Models.World) :
  (existsb (Spec.violates (Main.answers st)) (Main.qlookup st) = false ->
   exists r w',
     Main.check_and_store project_id user_id st w = (Models.Ok r, w')
     /\ Models.rec_answers r = Main.answers st
     /\ Models.records w' = Models.records w ++ [r])
  /\ (existsb (Spec.violates (Main.answers st)) (Main.qlookup st) = true ->
      exists out,
        Main.check_and_store project_id user_id st w = (out, w)
        /\ (forall r, out <> Models.Ok r)
        /\ (forall texts,
               map (fun e => Py.get_or_null "text" (snd e))
                 (filter (Spec.violates (Main.answers st)) (Main.qlookup st))
               = map Py.JStr texts ->
               out = Models.HTTPError 400
                       ("Missing required answers: "
                        ++ Py.join ", " (firstn 10 texts))%string)).
Proof.
  unfold Main.check_and_store.
  rewrite CompletenessFacts.missing_required_spec. split; intro H.
  - rewrite (CompletenessFacts.filter_none _ _ H). cbn [map].
    unfold Crud.create_record, Models.bind, Models.get_world, Models.put_world,
      Models.ret. cbn.
    do 2 eexists. split; [reflexivity|]. split; reflexivity.
  - apply CompletenessFacts.filter_some in H.
    remember (map (fun e => Py.get_or_null "text" (snd e))
                (filter (Spec.violates (Main.answers st)) (Main.qlookup st)))
      as missing eqn:Em.
    destruct missing as [|x rest].
    { destruct (filter _ _); [contradiction|discriminate]. }
    unfold Models.bind, Models.run_opt, Models.raise_http.
    destruct (Main.join_values (firstn 10 (x :: rest))) as [joined|] eqn:J;
      (eexists; split; [reflexivity|]; split; [discriminate|]);
      intros texts Ht; rewrite Ht in J;
      rewrite firstn_map, CompletenessFacts.join_values_strings in J.
    + now inv J.
    + discriminate.
Qed.

Lemma completeness_check_spec_witness :
  (exists r w',
      Main.check_and_store 1 5 Examples.complete_state
        Examples.alpha_world = (Models.Ok r, w')
      /\ Models.rec_answers r = Main.answers Examples.complete_state
      /\ Models.records w' = Models.records Examples.alpha_world ++ [r])
  /\ (exists out,
         Main.check_and_store 1 5 Examples.check_state
           Examples.alpha_world = (out, Examples.alpha_world)
         /\ (forall r, out <> Models.Ok r)
         /\ out = Models.HTTPError 400 "Missing required answers: Name").
Proof.
  split.
  - apply (proj1 (completeness_check_spec 1 5
                    Examples.complete_state Examples.alpha_world)).
    reflexivity.
  - destruct (proj2 (completeness_check_spec 1 5
                       Examples.check_state Examples.alpha_world) eq_refl)
      as (out & E & Hno & Htexts).
    exists out. split; [exact E|]. split; [exact Hno|].
    apply (Htexts ["Name"]). reflexivity.
Defined.

(* ===================================================================== *)
(** ** Version registry: auto-upgrade                                     *)
(* ===================================================================== *)

Module RegistryFacts.
Import Py Models PyFacts Spec.




Section Upgrade.
Variable new_id : Z.
Variable olds : list Z.

Local Notation "'old' r" := (Crud.mem_Z (pqs_question_set_id r) olds)
  (at level 10, r at level 9).





Variable project_id : Z.
Variable named : Z -> bool.   (* a version of the lineage, after the insert *)

Local Notation "'mine' r" := (Z.eqb (pqs_project_id r) project_id
                                && named (pqs_question_set_id r))
  (at level 10, r at level 9).

Hypothesis new_is_named : named new_id = true.



End Upgrade.

(** *** The selects of [create_question_set] *)





Lemma live_is_named (w : World) (name : string) (id : Z) :
  live_version_named w name id = true -> version_named w name id = true.
Proof.
  unfold live_version_named, version_named. intro H.
  apply existsb_exists in H. destruct H as (q & Hq & H).
  apply existsb_exists. exists q. split; auto.
  apply Bool.andb_true_iff in H. tauto.
Qed.

End RegistryFacts.

Module UpgradeFacts.
Import Py Models PyFacts Spec RegistryFacts.

Section WithRuntime.
Context `{R : Runtime}.




End WithRuntime.
End UpgradeFacts.


Lemma daily_world_ok : Spec.registry_ok Examples.daily_world.
Proof.
  constructor.
  - simpl. repeat (constructor; [simpl; intuition discriminate|]). constructor.
  - intros q Hq. simpl in Hq.
    repeat (destruct Hq as [<-|Hq]; [reflexivity|]). contradiction.
  - intros r Hr. simpl in Hr.
    repeat (destruct Hr as [<-|Hr];
            [first [ eexists; split; [left; reflexivity|reflexivity]
                   | eexists; split; [right; left; reflexivity|reflexivity]
                   | eexists; split; [right; right; left; reflexivity|reflexivity] ]|]).
    contradiction.
Qed.


(** The assignment table of the example after the upgrade: project 1 keeps
    row 11 at position 1 on the new version 4 and loses row 13; project 2
    keeps row 12; the assignment to "other" is untouched. *)
Example daily_upgrade_table :
  Models.project_question_sets
    (snd (Crud.create_question_set (R := Sample.runtime) "daily"
            (Py.JDict Examples.version_b) Examples.daily_world))
  = [{| Models.pqs_id := 10; Models.pqs_project_id := 1;
        Models.pqs_question_set_id := 3; Models.pqs_position := 0 |};
     {| Models.pqs_id := 11; Models.pqs_project_id := 1;
        Models.pqs_question_set_id := 4; Models.pqs_position := 1 |};
     {| Models.pqs_id := 12; Models.pqs_project_id := 2;
        Models.pqs_question_set_id := 4; Models.pqs_position := 0 |}].
Proof. reflexivity. Qed.

(* ===================================================================== *)
(** ** What a failed ingestion leaves behind                              *)
(* ===================================================================== *)

Module FrameFacts.
Import Py Models PyFacts Spec.

Lemma same_tables_refl w : same_tables w w.
Proof. repeat split. Qed.

Lemma same_tables_trans w1 w2 w3 :
  same_tables w1 w2 -> same_tables w2 w3 -> same_tables w1 w3.
Proof.
  intros (A1 & A2 & A3) (B1 & B2 & B3). repeat split; congruence.
Qed.

Lemma same_database_refl w : same_database w w.
Proof. split; [apply same_tables_refl|reflexivity]. Qed.

Lemma same_database_trans w1 w2 w3 :
  same_database w1 w2 -> same_database w2 w3 -> same_database w1 w3.
Proof.
  intros [A1 A2] [B1 B2]. split; [eapply same_tables_trans; eauto|congruence].
Qed.


Section Frame.
Variable P : World -> World -> Prop.
Hypothesis P_refl : forall w, P w w.
Hypothesis P_trans : forall w1 w2 w3, P w1 w2 -> P w2 w3 -> P w1 w3.
Hypothesis P_draw : forall w n, P w (with_uuids_drawn w n).

Lemma preserves_ret {A} (a : A) : preserves P (ret a).
Proof. intros w out w' H. inv H. auto. Qed.

Lemma preserves_raise {A} status detail : preserves P (@raise_http A status detail).
Proof. intros w out w' H. inv H. auto. Qed.

Lemma preserves_get_world : preserves P get_world.
Proof. intros w out w' H. inv H. auto. Qed.

Lemma preserves_run_opt {A} (o : option A) : preserves P (run_opt o).
Proof. intros w out w' H. unfold run_opt in H. destruct o; inv H; auto. Qed.

Lemma preserves_run_gen {A} (g : Utils.Gen A) : preserves P (run_gen g).
Proof.
  intros w out w' H. unfold run_gen in H.
  destruct (g (uuids_drawn w)) as [[a n]|]; inv H; auto.
Qed.

Lemma preserves_get_or_404 {A} (o : option A) detail :
  preserves P (Crud._get_or_404 o detail).
Proof.
  unfold Crud._get_or_404. destruct o; [apply preserves_ret|apply preserves_raise].
Qed.

Lemma preserves_bind {A B} (m : M A) (k : A -> M B) :
  preserves P m -> (forall a, preserves P (k a)) -> preserves P (bind m k).
Proof.
  intros Hm Hk w out w' H. unfold bind in H.
  destruct (m w) as [o w1] eqn:E. specialize (Hm _ _ _ E).
  destruct o; try (inv H; assumption).
  eapply P_trans; [exact Hm|]. eapply Hk; eauto.
Qed.

End Frame.

Ltac frame_with leaf :=
  repeat first
    [ leaf
    | apply preserves_ret; assumption
    | apply preserves_raise; assumption
    | apply preserves_get_world; assumption
    | apply preserves_run_opt; assumption
    | apply preserves_run_gen; assumption
    | apply preserves_get_or_404; assumption
    | apply preserves_bind; [assumption| |intro] ].

Ltac frame := frame_with fail.

Section WithRuntime.
Context `{R : Runtime}.

Lemma same_database_draw w n : same_database w (with_uuids_drawn w n).
Proof. repeat split. Qed.

Lemma same_tables_draw w n : same_tables w (with_uuids_drawn w n).
Proof. repeat split. Qed.

(** Building the form writes nothing. *)
Lemma merged_project_form_reads project_id :
  preserves same_database (Crud.merged_project_form project_id).
Proof.
  pose proof same_database_refl. pose proof same_database_trans.
  pose proof same_database_draw.
  unfold Crud.merged_project_form. frame.
Qed.

Lemma save_custom_questions_tables project_id cq :
  preserves same_tables (Crud.save_custom_questions project_id cq).
Proof.
  intros w out w' H.
  unfold Crud.save_custom_questions, bind, get_world, put_world in H.
  inv H. repeat split.
Qed.

(** Adding a custom question writes the project's block only. *)
Lemma add_project_custom_question_tables project_id section_title question :
  preserves same_tables
    (Crud.add_project_custom_question project_id section_title question).
Proof.
  pose proof same_tables_refl. pose proof same_tables_trans.
  pose proof same_tables_draw.
  unfold Crud.add_project_custom_question.
  frame_with ltac:(apply save_custom_questions_tables).
Qed.


Lemma refresh_lookup_reads project_id st :
  preserves same_database (Main.refresh_lookup project_id st).
Proof.
  pose proof same_database_refl. pose proof same_database_trans.
  pose proof same_database_draw.
  unfold Main.refresh_lookup.
  frame_with ltac:(apply merged_project_form_reads).
Qed.



Lemma start_ingest_reads project_id payload :
  preserves same_database (Main.start_ingest project_id payload).
Proof.
  pose proof same_database_refl. pose proof same_database_trans.
  pose proof same_database_draw.
  unfold Main.start_ingest.
  frame_with ltac:(apply merged_project_form_reads).
Qed.


Lemma bind_inv {A B} (m : M A) (k : A -> M B) w out w' :
  bind m k w = (out, w') ->
  (exists a w1, m w = (Ok a, w1) /\ k a w1 = (out, w'))
  \/ ((forall b, out <> Ok b)
      /\ ((exists s d, m w = (HTTPError s d, w') /\ out = HTTPError s d)
          \/ (m w = (PyError, w') /\ out = PyError))).
Proof.
  unfold bind. destruct (m w) as [[a|s d|] w1]; intro H.
  - left. eauto.
  - inv H. right. split; [discriminate|]. left. eauto.
  - inv H. right. split; [discriminate|]. right. auto.
Qed.

End WithRuntime.
End FrameFacts.




(* ===================================================================== *)
(** ** The lookup of a merged form                                        *)
(* ===================================================================== *)

Module LookupFacts.
Import Py Models PyFacts Spec.

Section WithRuntime.
Context `{R : Runtime}.



Lemma assoc_get_set {A} (k k' : string) (v : A) (d : list (string * A)) :
  assoc_get k (assoc_set k' v d) = if String.eqb k k' then Some v else assoc_get k d.
Proof.
  destruct (String.eqb k k') eqn:E.
  - apply String.eqb_eq in E. subst. apply assoc_get_set_same.
  - apply assoc_get_set_other. now apply String.eqb_neq.
Qed.

(** *** [lookup_questions] *)

(** An entry of the lookup comes from a question filed under its key. *)
Lemma lookup_questions_sound qs : forall out ql k e,
  Crud.lookup_questions qs out = Some ql ->
  assoc_get k ql = Some e ->
  assoc_get k out = Some e
  \/ exists q, In q qs /\ files_under q k (get_or_null "text" e).
Proof.
  induction qs as [|q qs IH]; simpl; intros out ql k e H Hk.
  - inv H. auto.
  - destruct (as_dict q) as [d|] eqn:Ed; [|discriminate].
    destruct (dict_get "id" d) as [id|] eqn:Ei; [|discriminate].
    destruct q; try discriminate. simpl in Ed. inv Ed.
    destruct (IH _ _ _ _ H Hk) as [Hout|(q' & Hin & Hf)].
    + rewrite assoc_get_set in Hout.
      destruct (String.eqb k (py_str id)) eqn:E; auto.
      apply String.eqb_eq in E. inv Hout.
      right. exists (JDict d). split; [now left|].
      exists d, id. repeat split; auto.
    + right. exists q'. split; [now right|assumption].
Qed.

(** Every question visited has its key in the lookup. *)
Lemma lookup_questions_complete qs : forall out ql k,
  Crud.lookup_questions qs out = Some ql ->
  (assoc_get k out <> None
   \/ exists q t, In q qs /\ files_under q k t) ->
  assoc_get k ql <> None.
Proof.
  induction qs as [|q qs IH]; simpl; intros out ql k H Hk.
  - inv H. destruct Hk as [Hk|(q & t & [] & _)]; auto.
  - destruct (as_dict q) as [d|] eqn:Ed; [|discriminate].
    destruct (dict_get "id" d) as [id|] eqn:Ei; [|discriminate].
    destruct q; try discriminate. simpl in Ed. inv Ed.
    eapply IH; [exact H|].
    destruct Hk as [Hk|(q & t & [Hq|Hq] & Hf)].
    + left. rewrite assoc_get_set. destruct (String.eqb k (py_str id)); [discriminate|auto].
    + left. subst q. destruct Hf as (d' & id' & E & Hid & Hs & _). inv E.
      rewrite Ei in Hid. inv Hid. rewrite assoc_get_set, String.eqb_refl. discriminate.
    + right. eauto.
Qed.

(** Conversely a key of the lookup is the key of a visited question. *)
Lemma lookup_questions_keys qs ql k e :
  Crud.lookup_questions qs [] = Some ql ->
  assoc_get k ql = Some e ->
  exists q, In q qs /\ files_under q k (get_or_null "text" e).
Proof.
  intros H Hk. destruct (lookup_questions_sound _ _ _ _ _ H Hk) as [Hout|Hq]; auto.
  discriminate.
Qed.

Lemma lookup_questions_app qs1 qs2 out :
  Crud.lookup_questions (qs1 ++ qs2) out
  = match Crud.lookup_questions qs1 out with
    | Some out' => Crud.lookup_questions qs2 out'
    | None => None
    end.
Proof.
  revert out. induction qs1 as [|q qs1 IH]; simpl; intro out; auto.
  destruct (as_dict q) as [d|]; auto.
  destruct (dict_get "id" d); auto.
Qed.

Lemma lookup_sections_visited secs : forall out ql,
  Crud.lookup_sections secs out = Some ql ->
  exists qs, visited secs = Some qs /\ Crud.lookup_questions qs out = Some ql.
Proof.
  induction secs as [|sec secs IH]; simpl; intros out ql H.
  - exists []. auto.
  - destruct (as_dict sec) as [s|]; [|discriminate].
    destruct (py_iter _) as [qs|]; [|discriminate].
    destruct (Crud.lookup_questions qs out) as [out'|] eqn:E; [|discriminate].
    destruct (IH _ _ H) as (qs' & Hv & Hl).
    exists (qs ++ qs'). rewrite Hv. split; auto.
    now rewrite lookup_questions_app, E.
Qed.

Lemma visited_app secs1 secs2 :
  visited (secs1 ++ secs2)
  = match visited secs1, visited secs2 with
    | Some qs1, Some qs2 => Some (qs1 ++ qs2)
    | _, _ => None
    end.
Proof.
  induction secs1 as [|sec secs1 IH]; simpl.
  - now destruct (visited secs2).
  - destruct (as_dict sec) as [s|]; auto.
    destruct (py_iter _) as [qs|]; auto.
    rewrite IH. destruct (visited secs1), (visited secs2); auto.
    now rewrite app_assoc.
Qed.

(** *** The sections of the merged form *)

Lemma visited_merged_section prefix (sec : dict) rest :
  visited (Crud.merged_section prefix sec :: rest) = visited (JDict sec :: rest).
Proof. reflexivity. Qed.

Lemma append_sections_inv prefix secs : forall merged result,
  Crud.append_sections prefix secs merged = Some result ->
  exists added, result = merged ++ added /\ visited added = visited secs.
Proof.
  induction secs as [|sec secs IH]; simpl; intros merged result H.
  - inv H. exists []. now rewrite app_nil_r.
  - destruct (as_dict sec) as [s|] eqn:Es; [|discriminate].
    destruct sec; try discriminate. simpl in Es. inv Es.
    destruct (IH _ _ H) as (added & -> & Hv).
    exists (Crud.merged_section prefix s :: added). split.
    + now rewrite <- app_assoc.
    + rewrite visited_merged_section. simpl. now rewrite Hv.
Qed.

Lemma canonical_sections_visited secs :
  Forall canonical_section secs ->
  visited secs = Some (flat_map section_questions secs).
Proof.
  induction 1 as [|sec secs (s & qs & -> & Hq & _) Hsecs IH]; simpl; auto.
  unfold get_default. rewrite Hq, IH. reflexivity.
Qed.

End WithRuntime.
End LookupFacts.

(* ===================================================================== *)
(** ** The form and the head of the ingestion handler                     *)
(* ===================================================================== *)

Module FormFacts.
Import Py Models PyFacts Spec LookupFacts.

Section WithRuntime.
Context `{R : Runtime}.

Lemma canonical_custom_is_ensure block n custom n' :
  Utils.canonical_project_custom_questions block n = Some (custom, n') ->
  exists d, Utils.ensure_question_ids d n = Some (custom, n').
Proof.
  unfold Utils.canonical_project_custom_questions.
  destruct block as [| | | | | |d]; eauto.
  destruct (dict_has "sections" d && dict_has "title" d); eauto.
Qed.

Lemma canonical_custom_document block n custom n' :
  Utils.canonical_project_custom_questions block n = Some (custom, n') ->
  canonical_document custom.
Proof.
  intro H. apply canonical_custom_is_ensure in H. destruct H as (d & H).
  eapply IdempotenceFacts.ensure_question_ids_canonical; eauto.
Qed.

Lemma canonical_document_sections custom :
  canonical_document custom ->
  py_iter (get_default "sections" (JList []) custom) = Some (doc_sections custom)
  /\ Forall canonical_section (doc_sections custom)
  /\ dict_get "sections" custom = Some (JList (doc_sections custom)).
Proof.
  intros (_ & secs & Hs & Hc). unfold get_default, doc_sections.
  rewrite Hs. auto.
Qed.

(** The run of [merged_project_form] that returns a form. *)
Lemma merged_form_ok project_id w form w' :
  Crud.merged_project_form project_id w = (Ok form, w') ->
  exists p custom n' merged added,
    Crud.get_project w project_id = Some p
    /\ Utils.canonical_project_custom_questions (p_custom_questions p) (uuids_drawn w)
       = Some (custom, n')
    /\ w' = with_uuids_drawn w n'
    /\ Crud.append_sets 0 (Crud.collect_sets w (Crud.project_links w project_id)) []
       = Some merged
    /\ form = [("title", JStr (p_name p)); ("sections", JList (merged ++ added))]
    /\ visited added = Some (doc_questions custom).
Proof.
  unfold Crud.merged_project_form, bind, get_world, Crud._get_or_404, ret, raise_http.
  destruct (Crud.get_project w project_id) as [p|] eqn:Ep; [|discriminate].
  unfold run_gen.
  destruct (Utils.canonical_project_custom_questions _ _) as [[custom n']|] eqn:Ec;
    [|discriminate].
  unfold run_opt.
  destruct (Crud.append_sets 0 _ []) as [merged|] eqn:Em; [|discriminate].
  pose proof (canonical_custom_document _ _ _ _ Ec) as Hdoc.
  destruct (canonical_document_sections _ Hdoc) as (Hi & Hsecs & _).
  cbn [uuids_drawn with_uuids_drawn] in *.
  change (question_sets (with_uuids_drawn w n')) with (question_sets w) in *.
  rewrite Hi.
  destruct (Crud.append_sections "Custom" (doc_sections custom) merged)
    as [result|] eqn:Ea; [|discriminate].
  intro H. inv H.
  destruct (append_sections_inv _ _ _ _ Ea) as (added & -> & Hv).
  exists p, custom, n', merged, added. repeat split; auto.
  rewrite Hv. now apply canonical_sections_visited.
Qed.


(** The lookup of a form: the versions' questions, then the custom ones. *)
Lemma form_lookup project_id w form w' ql :
  Crud.merged_project_form project_id w = (Ok form, w') ->
  Crud.question_lookup_from_form form = Some ql ->
  exists p custom n' vqs,
    Crud.get_project w project_id = Some p
    /\ Utils.canonical_project_custom_questions (p_custom_questions p) (uuids_drawn w)
       = Some (custom, n')
    /\ w' = with_uuids_drawn w n'
    /\ version_questions w project_id = Some vqs
    /\ Crud.lookup_questions (vqs ++ doc_questions custom) [] = Some ql.
Proof.
  intros Hf Hl. apply merged_form_ok in Hf.
  destruct Hf as (p & custom & n' & merged & added & Hp & Hc & -> & Hm & -> & Hv).
  unfold Crud.question_lookup_from_form in Hl. cbn in Hl.
  apply lookup_sections_visited in Hl. destruct Hl as (qs & Hvis & Hl).
  rewrite visited_app, Hv in Hvis.
  destruct (visited merged) as [vqs|] eqn:Evq; [|discriminate]. inv Hvis.
  exists p, custom, n', vqs. repeat split; auto.
  unfold version_questions. now rewrite Hm.
Qed.

(** The state in which the loop over the unknown keys starts. *)
Lemma start_ingest_ok project_id payload w st unknown w0 :
  Main.start_ingest project_id payload w = (Ok (st, unknown), w0) ->
  exists p custom vqs ql,
    Crud.get_project w project_id = Some p
    /\ Utils.canonical_project_custom_questions (p_custom_questions p) (uuids_drawn w)
       = Some (custom, uuids_drawn w0)
    /\ same_database w w0
    /\ version_questions w project_id = Some vqs
    /\ Crud.lookup_questions (vqs ++ doc_questions custom) [] = Some ql
    /\ st = {| Main.qlookup := ql;
               Main.label_to_qid := Main.index_labels ql [];
               Main.answers := payload |}
    /\ unknown = filter (fun k => match assoc_get k ql with
                                  | Some _ => false
                                  | None => true
                                  end) (map fst payload).
Proof.
  unfold Main.start_ingest. intro H.
  apply FrameFacts.bind_inv in H.
  destruct H as [(form & w1 & Ef & H)|(Hno & _)]; [|exfalso; eapply Hno; eauto].
  apply FrameFacts.bind_inv in H.
  destruct H as [(ql & w2 & El & H)|(Hno & _)]; [|exfalso; eapply Hno; eauto].
  unfold run_opt in El.
  destruct (Crud.question_lookup_from_form form) as [ql'|] eqn:Eq; inv El.
  destruct (form_lookup _ _ _ _ _ Ef Eq) as (p & custom & n' & vqs & Hp & Hc & -> & Hv & Hl).
  unfold bind, get_world, ret in H. cbv beta zeta iota in H.
  change (Crud.get_project (with_uuids_drawn w n') project_id)
    with (Crud.get_project w project_id) in H.
  rewrite Hp in H.
  rewrite (AutofillFacts.autofill_is_noop p form ql payload Eq) in H.
  inv H. exists p, custom, vqs, ql. repeat split; auto.
Qed.


End WithRuntime.
End FormFacts.

(* ===================================================================== *)
(** ** Canonicalising a block whose questions carry ids                   *)
(* ===================================================================== *)

Module ReindexFacts.
Import Py Models PyFacts Spec CanonFacts.

Section WithRuntime.
Context `{R : Runtime}.

Lemma ensure_question_id_inv q n q' n' :
  Utils.ensure_question_id q n = Some (q', n') ->
  exists d qn,
    q = JDict d /\ Utils.normalize_dropdown_options d = Some qn
    /\ q' = JDict (setdefault "id" (JStr (uuid4 n)) qn) /\ n' = S n.
Proof.
  unfold Utils.ensure_question_id. intro H.
  apply gbind_inv in H. destruct H as (d & n1 & E1 & H).
  apply glift_inv in E1. destruct E1 as [E1 ->].
  apply gbind_inv in H. destruct H as (qn & n2 & E2 & H).
  apply glift_inv in E2. destruct E2 as [E2 ->].
  apply gbind_inv in H. destruct H as (u & n3 & E3 & H).
  unfold Utils.fresh_uuid in E3. inv E3.
  unfold Utils.gret in H. inv H.
  destruct q; try discriminate. simpl in E1. inv E1.
  do 2 eexists. repeat split; eauto.
Qed.







(** *** Key and text of a question through canonicalisation *)

Lemma ensured_files q q' k t :
  ensured q q' -> files_under q k t -> files_under q' k t.
Proof.
  intros (n & n' & H) (d & id & -> & Hid & Hk & Ht).
  apply ensure_question_id_inv in H.
  destruct H as (d0 & qn & E & Hn & -> & _). inv E.
  exists (setdefault "id" (JStr (uuid4 n)) qn), id. split; auto.
  assert (Hq : dict_get "id" qn = Some id).
  { rewrite (InferenceFacts.normalize_preserves "id" d0 qn) by (discriminate || assumption).
    exact Hid. }
  repeat split; auto.
  - rewrite dict_get_setdefault_same. now rewrite Hq.
  - rewrite get_or_null_setdefault_other by discriminate.
    unfold get_or_null.
    now rewrite (InferenceFacts.normalize_preserves "text" d0 qn)
      by (discriminate || assumption).
Qed.


Lemma files_under_text q k t1 t2 :
  files_under q k t1 -> files_under q k t2 -> t1 = t2.
Proof.
  intros (d & id & -> & _ & _ & <-) (d' & id' & E & _ & _ & <-). now inv E.
Qed.

Lemma ensure_section_ids_ensured sec n sec' n' :
  Utils.ensure_section_ids sec n = Some (sec', n') ->
  Forall2 ensured (section_questions sec) (section_questions sec').
Proof.
  unfold Utils.ensure_section_ids. intro H.
  apply gbind_inv in H. destruct H as (s & n1 & E1 & H).
  apply glift_inv in E1. destruct E1 as [E1 ->].
  apply gbind_inv in H. destruct H as (qs & n2 & E2 & H).
  apply glift_inv in E2. destruct E2 as [E2 ->].
  apply gbind_inv in H. destruct H as (qs' & n3 & E3 & H).
  unfold Utils.gret in H. inv H.
  destruct sec; try discriminate. simpl in E1. inv E1.
  pose proof (iter_questions _ _ _ _ _ E2 E3) as ->.
  cbn [section_questions] in *. rewrite dict_get_set_same.
  eapply (gmap_Forall2 Utils.ensure_question_id (fun _ _ a b => ensured a b));
    [| |exact E3].
  - intros a k b k' Hk. split; [|do 2 eexists; exact Hk].
    apply ensure_question_id_inv in Hk. destruct Hk as (? & ? & _ & _ & _ & ->). lia.
  - auto.
Qed.

(** The canonicaliser maps the questions of a document one to one. *)
Lemma ensure_question_ids_ensured d n y n' :
  Utils.ensure_question_ids d n = Some (y, n') ->
  Forall2 ensured (doc_questions d) (doc_questions y).
Proof.
  intro H. apply ensure_question_ids_inv in H.
  destruct H as (secs' & Hg & _ & Hs).
  unfold doc_questions. rewrite Hs.
  apply Forall2_flat_map.
  eapply (gmap_Forall2 Utils.ensure_section_ids
            (fun _ _ a b => Forall2 ensured (section_questions a) (section_questions b)));
    [| |exact Hg].
  - intros a k b k' Hk. split; [|eapply ensure_section_ids_ensured; eauto].
    now apply ensure_section_ids_kept in Hk.
  - auto.
Qed.

Lemma Forall2_In_l {A B} (P : A -> B -> Prop) l l' a :
  Forall2 P l l' -> In a l -> exists b, In b l' /\ P a b.
Proof.
  induction 1 as [|x y l l' Hxy Hl IH]; simpl; [contradiction|].
  intros [->|Hin]; [eauto|]. destruct (IH Hin) as (b & Hb & Hp). eauto.
Qed.


End WithRuntime.
End ReindexFacts.

(* ===================================================================== *)
(** ** Adding a synthesized question                                      *)
(* ===================================================================== *)

Module AddFacts.
Import Py Models PyFacts Spec LookupFacts FormFacts ReindexFacts.

Section WithRuntime.
Context `{R : Runtime}.

(** *** The synthesized definition *)

Lemma apply_meta_preserves (k : string) (q : dict) (raw : json) :
  k <> "type" -> k <> "options" -> k <> "value_map" ->
  dict_get k (fst (Utils.apply_meta q raw)) = dict_get k q.
Proof.
  intros Ht Ho Hv. destruct raw; simpl; auto.
  repeat match goal with
         | |- context [if ?c then _ else _] => destruct c
         end;
    repeat (rewrite dict_get_set_other by assumption); reflexivity.
Qed.

Lemma infer_type_preserves (date_test : string -> bool) (k : string) (q : dict)
  (raw : json) :
  k <> "type" ->
  dict_get k (fst (Utils.infer_type date_test q raw)) = dict_get k q.
Proof.
  intro Ht. unfold Utils.infer_type.
  destruct (negb (dict_has "type" q)); auto.
  destruct raw as [|b|z|m e|s|l|d]; try destruct (date_test s); simpl;
    now rewrite dict_get_set_other.
Qed.

(** The definition inferred for a label: a fresh id, the stripped label
    as text, and every field [add_project_custom_question] would default. *)
Lemma infer_with_fields (date_test : string -> bool) (label : string) (raw : json)
  (n : nat) :
  exists q v,
    Utils.infer_with date_test label raw n = Some ((q, v), S n)
    /\ files_under (JDict q) (uuid4 n) (JStr (strip label))
    /\ forall u, Crud.new_custom_question q u = q.
Proof.
  destruct (InferenceFacts.infer_with_required date_test label raw n)
    as (q & v & E & Hr & (t & Ht)).
  exists q, v. split; [exact E|].
  unfold Utils.infer_with, Utils.gbind, Utils.fresh_uuid, Utils.gret in E.
  cbv zeta in E. inv E.
  set (q0 := [("id", JStr (uuid4 n)); ("text", JStr (strip label));
              ("required", JBool false)]) in *.
  set (q := fst (Utils.infer_type date_test (fst (Utils.apply_meta q0 raw))
                   (snd (Utils.apply_meta q0 raw)))) in *.
  assert (Hid : dict_get "id" q = Some (JStr (uuid4 n))).
  { unfold q. rewrite infer_type_preserves, apply_meta_preserves by discriminate.
    reflexivity. }
  assert (Htx : dict_get "text" q = Some (JStr (strip label))).
  { unfold q. rewrite infer_type_preserves, apply_meta_preserves by discriminate.
    reflexivity. }
  split.
  - exists q, (JStr (uuid4 n)). repeat split; auto.
    unfold get_or_null. now rewrite Htx.
  - intro u. unfold Crud.new_custom_question.
    rewrite (setdefault_present "required" _ _ q Hr).
    rewrite (setdefault_present "type" _ _ q Ht).
    now rewrite (setdefault_present "id" _ _ q Hid).
Qed.

(** *** [add_to_section] *)

Lemma add_to_section_questions title q sections sections' :
  Forall canonical_section sections ->
  Crud.add_to_section title q sections = Some sections' ->
  forall x, In x (flat_map section_questions sections')
            <-> In x (flat_map section_questions sections) \/ x = q.
Proof.
  intro Hc. revert sections'.
  induction Hc as [|sec sections (s & qs & -> & Hq & _) Hsecs IH];
    intros sections' H x.
  - simpl in H. inv H. simpl. intuition.
  - cbn [Crud.add_to_section as_dict] in H.
    destruct (eq_str (get_or_null "title" s) title).
    + assert (Ei : py_iter (py_or (get_or_null "questions" s) (JList [])) = Some qs).
      { unfold get_or_null. rewrite Hq. unfold py_or. now destruct qs. }
      rewrite Ei in H. inv H.
      cbn [flat_map section_questions]. rewrite dict_get_set_same, Hq.
      rewrite !in_app_iff. simpl. intuition.
    + destruct (Crud.add_to_section title q sections) as [rest'|]; [|discriminate].
      inv H. cbn [flat_map]. rewrite !in_app_iff, (IH rest' eq_refl x). intuition.
Qed.

(** *** [add_project_custom_question] *)

Lemma add_ok project_id title question w w' :
  Crud.add_project_custom_question project_id title question w = (Ok tt, w') ->
  exists p cq n1 sections',
    Crud.get_project w project_id = Some p
    /\ Utils.canonical_project_custom_questions (p_custom_questions p) (uuids_drawn w)
       = Some (cq, n1)
    /\ Crud.add_to_section title
         (JDict (Crud.new_custom_question question (uuid4 n1))) (doc_sections cq)
       = Some sections'
    /\ projects w'
       = map (fun p0 => if (p_id p0 =? project_id)%Z
                        then Crud.set_custom_questions p0 (block_with sections' cq)
                        else p0) (projects w)
    /\ question_sets w' = question_sets w
    /\ project_question_sets w' = project_question_sets w.
Proof.
  unfold Crud.add_project_custom_question, bind, get_world, Crud._get_or_404,
    ret, raise_http.
  destruct (Crud.get_project w project_id) as [p|] eqn:Ep; [|discriminate].
  unfold run_gen.
  destruct (Utils.canonical_project_custom_questions _ _) as [[cq n1]|] eqn:Ec;
    [|discriminate].
  unfold run_opt.
  pose proof (canonical_custom_document _ _ _ _ Ec) as Hdoc.
  destruct (canonical_document_sections _ Hdoc) as (Hi & _ & _).
  rewrite Hi. unfold Utils.fresh_uuid. cbn [uuids_drawn with_uuids_drawn].
  destruct (Crud.add_to_section _ _ _) as [sections'|] eqn:Ea; [|discriminate].
  unfold Crud.save_custom_questions, bind, get_world, put_world.
  intro H. inv H. exists p, cq, n1, sections'. repeat split; auto.
Qed.


Lemma get_project_updated (l : list Project) (project_id : Z) (p : Project) (cq : json) :
  find (fun p0 => (p_id p0 =? project_id)%Z) l = Some p ->
  find (fun p0 => (p_id p0 =? project_id)%Z)
    (map (fun p0 => if (p_id p0 =? project_id)%Z
                    then Crud.set_custom_questions p0 cq else p0) l)
  = Some (Crud.set_custom_questions p cq).
Proof.
  induction l as [|p0 l IH]; simpl; [discriminate|].
  destruct (p_id p0 =? project_id)%Z eqn:E; simpl; rewrite E.
  - intro H. now inv H.
  - exact IH.
Qed.

(** *** What the form depends on *)




(** *** The label table *)




End WithRuntime.
End AddFacts.

(* ===================================================================== *)
(** ** Label dedup across two ingestions                                  *)
(* ===================================================================== *)

Module DedupFacts.
Import Py Models PyFacts Spec LookupFacts FormFacts ReindexFacts AddFacts.
Local Open Scope handler_scope.

Ltac bind_cases H a wx E :=
  apply FrameFacts.bind_inv in H;
  destruct H as [(a & wx & E & H)|(_ & [(? & ? & E & ->)|(E & ->)])].

Section WithRuntime.
Context `{R : Runtime}.


Lemma same_forms_trans w1 w2 w3 :
  same_forms w1 w2 -> same_forms w2 w3 -> same_forms w1 w3.
Proof. intros (A1 & A2 & A3) (B1 & B2 & B3). repeat split; congruence. Qed.

Lemma same_forms_draw w n : same_forms w (with_uuids_drawn w n).
Proof. repeat split. Qed.

Lemma same_database_forms w w' : same_database w w' -> same_forms w w'.
Proof. intros [(_ & A & B) C]. repeat split; auto. Qed.

Lemma check_and_store_forms project_id user_id st :
  preserves same_forms (Main.check_and_store project_id user_id st).
Proof.
  intros w out w'. unfold Main.check_and_store.
  destruct (Main.missing_required _ _) as [|x rest].
  - unfold Crud.create_record, bind, get_world, put_world, ret. cbn.
    intro H. inv H. repeat split.
  - unfold bind, run_opt, raise_http.
    destruct (Main.join_values _); intro H; inv H; repeat split.
Qed.

Lemma check_and_store_answers project_id user_id st w r w' :
  Main.check_and_store project_id user_id st w = (Ok r, w') ->
  rec_answers r = Main.answers st.
Proof.
  unfold Main.check_and_store.
  destruct (Main.missing_required _ _) as [|x rest].
  - unfold Crud.create_record, bind, get_world, put_world, ret. cbn.
    intro H. now inv H.
  - unfold bind, run_opt, raise_http.
    destruct (Main.join_values _); discriminate.
Qed.

Lemma refresh_lookup_forms project_id st :
  preserves same_forms (Main.refresh_lookup project_id st).
Proof.
  intros w out w' H. apply same_database_forms.
  eapply FrameFacts.refresh_lookup_reads; eauto.
Qed.

(** *** One turn of the loop on a label *)



(** A run of [bind] is a run of its first part, then of the rest. *)
Lemma bind_run {A B} (m : M A) (k : A -> M B) w out w' :
  bind m k w = (out, w') ->
  exists o wm,
    m w = (o, wm)
    /\ match o with
       | Ok a => k a wm = (out, w')
       | HTTPError s d => out = HTTPError s d /\ w' = wm
       | PyError => out = PyError /\ w' = wm
       end.
Proof.
  unfold bind. destruct (m w) as [[a|s d|] wm]; intro H;
    do 2 eexists; (split; [reflexivity|]); try inv H; auto.
Qed.






(** An ingestion that cannot build its form writes nothing. *)
Lemma failed_start project_id user_id payload w o w0 out w' :
  Main.start_ingest project_id payload w = (o, w0) ->
  (forall a, o <> Ok a) ->
  Main.create_record project_id user_id payload w = (out, w') ->
  same_forms w w' /\ forall r, out <> Ok r.
Proof.
  intros Es Hno H. unfold Main.create_record in H.
  apply bind_run in H. destruct H as (o' & wm & E & H).
  rewrite Es in E. inv E.
  pose proof (FrameFacts.start_ingest_reads _ _ _ _ _ Es) as Hdb.
  apply same_database_forms in Hdb.
  destruct o' as [a|s d|].
  - exfalso. eapply Hno; eauto.
  - destruct H as [-> ->]. split; [auto|discriminate].
  - destruct H as [-> ->]. split; [auto|discriminate].
Qed.

End WithRuntime.
End DedupFacts.



(** The two submissions of the specification's example: the first creates
    the question, the second stores its answer under the same id. *)
Example mood_twice :
  let first := Main.create_record (R := Sample.runtime) 1 5 [("Mood", Py.JStr "ok")]
                 Examples.alpha_world in
  let second := Main.create_record (R := Sample.runtime) 1 5 [(" mood  ", Py.JStr "fine")]
                  (snd first) in
  Models.projects (snd second) = Models.projects (snd first)
  /\ map Models.rec_answers (Models.records (snd second))
     = [[("00000000-0000-4000-8000-000000000000", Py.JStr "ok")];
        [("00000000-0000-4000-8000-000000000000", Py.JStr "fine")]].
Proof. split; reflexivity. Qed.


(* ===================================================================== *)
(** ** Labels and yes/no values                                           *)
(* ===================================================================== *)

Module LabelFacts.
Import Py Vocab.

Lemma split_lstrip (s : string) : split (lstrip s) = split s.
Proof.
  induction s as [|c s IH]; auto.
  cbn [lstrip]. destruct (is_space c) eqn:E; auto.
  cbn [split]. now rewrite E.
Qed.

Lemma rstrip_empty_head (c : ascii) (s : string) :
  rstrip (String c s) = "" -> is_space c = true /\ rstrip s = "".
Proof.
  cbn [rstrip]. destruct (rstrip s); [|discriminate].
  destruct (is_space c); [auto|discriminate].
Qed.

Lemma rstrip_head (c a : ascii) (s r : string) :
  rstrip (String c s) = String a r -> a = c.
Proof.
  cbn [rstrip]. destruct (rstrip s).
  - destruct (is_space c); [discriminate|]. intro H. now inv H.
  - intro H. now inv H.
Qed.

Lemma split_rstrip (s : string) : split (rstrip s) = split s.
Proof.
  induction s as [|c s IH]; auto.
  cbn [rstrip]. destruct (rstrip s) as [|a r] eqn:Er.
  - destruct (is_space c) eqn:E.
    + cbn [split]. rewrite E. now rewrite <- IH.
    + cbn [split]. rewrite E. destruct s as [|c' s']; auto.
      destruct (rstrip_empty_head _ _ Er) as [E' _]. rewrite E'.
      now rewrite <- IH.
  - destruct s as [|c' s']; [discriminate|].
    pose proof (rstrip_head _ _ _ _ Er) as ->.
    change (split (String c (String c' r)))
      with (if is_space c then split (String c' r)
            else if is_space c' then String c EmptyString :: split (String c' r)
                 else match split (String c' r) with
                      | w :: ws => String c w :: ws
                      | [] => [String c EmptyString]
                      end).
    change (split (String c (String c' s')))
      with (if is_space c then split (String c' s')
            else if is_space c' then String c EmptyString :: split (String c' s')
                 else match split (String c' s') with
                      | w :: ws => String c w :: ws
                      | [] => [String c EmptyString]
                      end).
    now rewrite IH.
Qed.

(** Stripping is redundant before [split]. *)
Lemma split_strip (s : string) : split (strip s) = split s.
Proof. unfold strip. now rewrite split_lstrip, split_rstrip. Qed.

Lemma split_words (s : string) : Forall (fun w => is_word w = true) (split s).
Proof.
  induction s as [|c s IH]; [constructor|].
  cbn [split]. destruct (is_space c) eqn:E; auto.
  assert (Hc : is_word (String c EmptyString) = true)
    by (unfold is_word; cbn; now rewrite E).
  destruct s as [|c' s']; [now repeat constructor|].
  destruct (is_space c') eqn:E'; [now constructor|].
  destruct (split (String c' s')) as [|w ws]; [now repeat constructor|].
  inv IH. constructor; auto.
  unfold is_word in *. cbn. rewrite E. cbn.
  apply andb_true_iff in H1. tauto.
Qed.

Lemma split_one_word (w : string) : is_word w = true -> split w = [w].
Proof.
  induction w as [|c w IH]; [discriminate|].
  unfold is_word. cbn [String.eqb no_space negb andb].
  intro H. apply andb_true_iff in H. destruct H as [Hc Hw].
  apply negb_true_iff in Hc.
  cbn [split]. rewrite Hc.
  destruct w as [|c' w']; auto.
  assert (Hw' : is_word (String c' w') = true) by (unfold is_word; now cbn).
  cbn [no_space] in Hw. apply andb_true_iff in Hw. destruct Hw as [Hc' _].
  apply negb_true_iff in Hc'. rewrite Hc'. now rewrite (IH Hw').
Qed.

Lemma split_word_then_space (w t : string) :
  is_word w = true -> split (w ++ String " " t) = w :: split t.
Proof.
  induction w as [|c w IH]; [discriminate|].
  unfold is_word. cbn [String.eqb no_space negb andb].
  intro H. apply andb_true_iff in H. destruct H as [Hc Hw].
  apply negb_true_iff in Hc.
  destruct w as [|c' w'].
  - cbn. now rewrite Hc.
  - assert (Hw' : is_word (String c' w') = true) by (unfold is_word; now cbn).
    cbn [no_space] in Hw. apply andb_true_iff in Hw. destruct Hw as [Hc' _].
    apply negb_true_iff in Hc'.
    change ((String c (String c' w') ++ String " " t)%string)
      with (String c (String c' (w' ++ String " " t))).
    change (split (String c (String c' (w' ++ String " " t))))
      with (if is_space c then split (String c' (w' ++ String " " t))
            else if is_space c' then
                   String c EmptyString :: split (String c' (w' ++ String " " t))
                 else match split (String c' (w' ++ String " " t)) with
                      | x :: xs => String c x :: xs
                      | [] => [String c EmptyString]
                      end).
    rewrite Hc, Hc'.
    change (String c' (w' ++ String " " t)) with ((String c' w' ++ String " " t)%string).
    now rewrite (IH Hw').
Qed.

(** Joining words with single spaces and splitting again is the identity. *)
Lemma split_join (l : list string) :
  Forall (fun w => is_word w = true) l -> split (join " " l) = l.
Proof.
  induction 1 as [|w l Hw Hl IH]; auto.
  destruct l as [|w' l'].
  - cbn. now apply split_one_word.
  - change (join " " (w :: w' :: l'))
      with ((w ++ String " " (join " " (w' :: l')))%string).
    rewrite split_word_then_space by auto. now rewrite IH.
Qed.

Lemma lower_app (a b : string) : lower (a ++ b) = (lower a ++ lower b)%string.
Proof. induction a as [|c a IH]; cbn; auto. now rewrite IH. Qed.

Lemma lower_join (l : list string) :
  lower (join " " l) = join " " (map lower l).
Proof.
  induction l as [|w l IH]; auto.
  destruct l as [|w' l']; auto.
  change (join " " (w :: w' :: l'))
    with ((w ++ String " " (join " " (w' :: l')))%string).
  rewrite lower_app.
  change (lower (String " " (join " " (w' :: l'))))
    with (String " " (lower (join " " (w' :: l')))).
  now rewrite IH.
Qed.

Lemma lower_char_space (c : ascii) : is_space (lower_char c) = is_space c.
Proof.
  unfold lower_char.
  destruct ((65 <=? nat_of_ascii c) && (nat_of_ascii c <=? 90)) eqn:E; auto.
  apply andb_true_iff in E. destruct E as [E1 E2].
  apply Nat.leb_le in E1. apply Nat.leb_le in E2.
  unfold is_space.
  rewrite nat_ascii_embedding by lia.
  repeat match goal with
         | |- context [?a <=? ?b] =>
             let E := fresh in
             destruct (a <=? b) eqn:E;
             [apply Nat.leb_le in E | apply Nat.leb_gt in E]
         end; cbn; auto; lia.
Qed.

Lemma lower_char_idempotent (c : ascii) : lower_char (lower_char c) = lower_char c.
Proof.
  unfold lower_char.
  destruct ((65 <=? nat_of_ascii c) && (nat_of_ascii c <=? 90)) eqn:E.
  - apply andb_true_iff in E. destruct E as [E1 E2].
    apply Nat.leb_le in E1. apply Nat.leb_le in E2.
    rewrite nat_ascii_embedding by lia.
    replace (nat_of_ascii c + 32 <=? 90) with false
      by (symmetry; apply Nat.leb_gt; lia).
    rewrite andb_false_r. reflexivity.
  - now rewrite E.
Qed.

Lemma lower_idempotent (s : string) : lower (lower s) = lower s.
Proof.
  induction s as [|c s IH]; auto.
  cbn. now rewrite lower_char_idempotent, IH.
Qed.

Lemma lower_word (w : string) : is_word w = true -> is_word (lower w) = true.
Proof.
  unfold is_word. intro H. apply andb_true_iff in H. destruct H as [Hn Hs].
  apply andb_true_iff. split.
  - destruct w; [discriminate|reflexivity].
  - clear Hn. induction w as [|c w IH]; auto.
    cbn in *. apply andb_true_iff in Hs. destruct Hs as [Hc Hs].
    now rewrite lower_char_space, Hc, IH.
Qed.

Lemma folded_words_are_words (s : string) :
  Forall (fun w => is_word w = true) (folded_words s).
Proof.
  unfold folded_words, casefold.
  apply Forall_map. eapply Forall_impl; [|apply split_words].
  intros w. apply lower_word.
Qed.

(** A normalised label is its folded words joined by single spaces. *)
Lemma normalize_label_words (s : string) :
  Utils.normalize_label s = join " " (folded_words s).
Proof.
  unfold Utils.normalize_label, folded_words, casefold.
  now rewrite split_strip, lower_join.
Qed.

Lemma folded_words_normalized (s : string) :
  folded_words (Utils.normalize_label s) = folded_words s.
Proof.
  rewrite normalize_label_words.
  unfold folded_words at 1.
  rewrite split_join by apply folded_words_are_words.
  unfold folded_words, casefold. rewrite map_map.
  apply map_ext. intro w. apply lower_idempotent.
Qed.

End LabelFacts.

(** X1.  [normalize_label] is idempotent: a normalised label is its own
    normal form. *)
Theorem normalize_label_idempotent (label : string) :
  Utils.normalize_label (Utils.normalize_label label) = Utils.normalize_label label.
Proof.
  rewrite (LabelFacts.normalize_label_words (Utils.normalize_label label)).
  rewrite LabelFacts.folded_words_normalized.
  symmetry. apply LabelFacts.normalize_label_words.
Qed.


(* ===================================================================== *)
(** ** Posted values: yes/no words and the two inference routines          *)
(* ===================================================================== *)

Module ValueFacts.
Import Py.

Lemma dict_set_twice (k : string) (v v' : json) (d : dict) :
  dict_set k v (dict_set k v' d) = dict_set k v d.
Proof.
  induction d as [|[k0 v0] d IH]; cbn.
  - now rewrite String.eqb_refl.
  - destruct (String.eqb k k0) eqn:E; cbn; rewrite E; auto. now rewrite IH.
Qed.

(** Whatever the pattern [\d{4}-\d{2}-\d{2}] matches has ten characters
    with a hyphen in fifth place. *)
Lemma iso_date_looks_like_date (raw : string) :
  Utils.matches_iso_date raw = true -> Utils.looks_like_date raw = true.
Proof.
  unfold Utils.matches_iso_date, Utils.looks_like_date, char_at.
  rewrite <- (string_of_list_ascii_of_string (strip raw)) at 2 3.
  destruct (list_ascii_of_string (strip raw)) as [|y1 l]; [discriminate|].
  do 9 (destruct l as [|? l]; [discriminate|]).
  destruct l; [|discriminate].
  intro H. apply andb_true_iff in H. destruct H as [H _].
  apply andb_true_iff in H. destruct H as [_ H].
  cbn. exact H.
Qed.

Section WithRuntime.
Context `{R : Runtime}.

Lemma type_after_set (t : string) (q : dict) :
  eq_str (get_or_null "type" (dict_set "type" (JStr t) q)) "yes_no"
  = String.eqb t "yes_no".
Proof. now rewrite PyFacts.get_or_null_set_same. Qed.

End WithRuntime.
End ValueFacts.

(** X3.  [normalize_yes_no] is idempotent: the words it produces are words
    it maps to themselves, and what it leaves alone it leaves alone again. *)
Theorem normalize_yes_no_idempotent (value : Py.json) :
  Utils.normalize_yes_no (Utils.normalize_yes_no value) = Utils.normalize_yes_no value.
Proof.
  destruct value as [|b|z|m e|s|l|d]; cbn [Utils.normalize_yes_no].
  - reflexivity.
  - now destruct b.
  - destruct (Py.eq_zero (Py.JInt z) || Py.eq_one (Py.JInt z)) eqn:E.
    + now destruct (Py.eq_one (Py.JInt z)).
    + cbn [Utils.normalize_yes_no]. now rewrite E.
  - destruct (Py.eq_zero (Py.JFloat m e) || Py.eq_one (Py.JFloat m e)) eqn:E.
    + now destruct (Py.eq_one (Py.JFloat m e)).
    + cbn [Utils.normalize_yes_no]. now rewrite E.
  - destruct (Py.str_in (Py.lower (Py.strip s)) ["true"; "t"; "1"; "yes"; "y"]) eqn:E1;
      [reflexivity|].
    destruct (Py.str_in (Py.lower (Py.strip s)) ["false"; "f"; "0"; "no"; "n"]) eqn:E2;
      [reflexivity|].
    cbn [Utils.normalize_yes_no]. now rewrite E1, E2.
  - reflexivity.
  - reflexivity.
Qed.

(** X4.  The two copies of the inference routine, [utils.infer_question_from_value]
    and [main._infer_question_from_value], return the same value and the same
    question, except that the copy in [utils] may type as [date] a text that
    the copy in [main] types as [short_text] or [long_text]; never the other
    way round. *)
Theorem inference_copies_differ_only_on_dates `{R : Py.Runtime}
  (label : string) (raw : Py.json) (n : nat) :
  exists q1 q2 v,
    Utils.infer_question_from_value label raw n = Some (q1, v, S n)
    /\ Main._infer_question_from_value label raw n = Some (q2, v, S n)
    /\ (q1 = q2
        \/ (q1 = Py.dict_set "type" (Py.JStr "date") q2
            /\ (Py.dict_get "type" q2 = Some (Py.JStr "short_text")
                \/ Py.dict_get "type" q2 = Some (Py.JStr "long_text")))).
Proof.
  unfold Utils.infer_question_from_value, Main._infer_question_from_value,
    Utils.infer_with, Utils.gbind, Utils.fresh_uuid, Utils.gret.
  set (q0 := [("id", Py.JStr (Py.uuid4 n)); ("text", Py.JStr (Py.strip label));
              ("required", Py.JBool false)]).
  destruct (Utils.apply_meta q0 raw) as [qm v0]. cbn [fst snd].
  unfold Utils.infer_type.
  destruct (negb (Py.dict_has "type" qm)) eqn:Et; cbn [fst snd].
  2: { do 3 eexists. split; [reflexivity|]. split; [reflexivity|]. now left. }
  destruct v0 as [|b|z|m e|s|l|d]; cbn [fst snd];
    try (do 3 eexists; split; [reflexivity|]; split; [reflexivity|]; now left).
  destruct (Utils.matches_iso_date s) eqn:Em.
  - rewrite (ValueFacts.iso_date_looks_like_date s Em). cbn [fst snd].
    do 3 eexists. split; [reflexivity|]. split; [reflexivity|]. now left.
  - destruct (Utils.looks_like_date s) eqn:El; cbn [fst snd].
    + rewrite !ValueFacts.type_after_set.
      destruct (80 <? String.length s) eqn:E80; cbn [String.eqb Ascii.eqb Bool.eqb];
        (do 3 eexists; split; [reflexivity|]; split; [reflexivity|]; right;
         rewrite ValueFacts.dict_set_twice, PyFacts.dict_get_set_same; auto).
    + do 3 eexists. split; [reflexivity|]. split; [reflexivity|]. now left.
Qed.

(* ===================================================================== *)
(** ** Canonicalisation: what can raise and what the legacy shapes give    *)
(* ===================================================================== *)

Module ShapeFacts.
Import Py Spec.

Section WithRuntime.
Context `{R : Runtime}.

Lemma gmap_total {A B} (f : A -> Utils.Gen B) (l : list A) :
  Forall (fun a => forall n, exists b n', f a n = Some (b, n')) l ->
  forall n, exists l' n', Utils.gmap f l n = Some (l', n').
Proof.
  induction 1 as [|a l Ha Hl IH]; intro n; cbn [Utils.gmap].
  - now exists [], n.
  - unfold Utils.gbind at 1. destruct (Ha n) as (b & n1 & ->).
    unfold Utils.gbind at 1. destruct (IH n1) as (l' & n2 & ->).
    now exists (b :: l'), n2.
Qed.

Lemma legacy_qobj_type (text : string) (meta : dict) :
  exists t, get_or_null "type" (Utils.legacy_qobj text meta) = JStr t.
Proof.
  unfold Utils.legacy_qobj.
  set (base := [("text", JStr text);
                ("type", JStr (py_str (get_default "type" (JStr "short_text") meta)));
                ("required", JBool (truthy (get_default "required" (JBool true) meta)))]).
  exists (py_str (get_default "type" (JStr "short_text") meta)).
  assert (Hb : get_or_null "type" base
               = JStr (py_str (get_default "type" (JStr "short_text") meta)))
    by reflexivity.
  assert (Ho : get_or_null "type"
                 match get_or_null "options" meta with
                 | JList options =>
                     dict_set "options" (JList (map (fun x => JStr (py_str x)) options)) base
                 | _ => base
                 end
               = JStr (py_str (get_default "type" (JStr "short_text") meta))).
  { destruct (get_or_null "options" meta); auto. }
  destruct (py_or (get_or_null "value_map" meta) (get_or_null "map" meta)); auto.
  all: try now rewrite PyFacts.get_or_null_set_other by discriminate.
Qed.

Lemma ensure_legacy_question (text : string) (meta : dict) (n : nat) :
  exists q' n',
    Utils.ensure_question_id (JDict (Utils.legacy_qobj text meta)) n = Some (q', n').
Proof.
  unfold Utils.ensure_question_id, Utils.gbind, Utils.glift, Utils.fresh_uuid,
    Utils.gret. cbn [as_dict].
  unfold Utils.normalize_dropdown_options.
  destruct (legacy_qobj_type text meta) as (t & ->). cbn [Utils.unhashable].
  eauto.
Qed.

Lemma legacy_item_questions (item : json) :
  Forall (fun q => exists text meta, q = JDict (Utils.legacy_qobj text meta))
    (Utils.legacy_item item).
Proof.
  destruct item as [| | | | | |it]; try constructor.
  cbn [Utils.legacy_item].
  destruct it as [|[q_text meta] [|e it]].
  - cbn. constructor.
  - repeat constructor. eauto.
  - destruct (dict_has "question" ((q_text, meta) :: e :: it)); repeat constructor.
    eauto.
Qed.

Lemma ensure_legacy_section (entry : string * json) (n : nat) :
  exists sec' n', Utils.ensure_section_ids (Utils.legacy_section entry) n = Some (sec', n').
Proof.
  destruct entry as [section_title items].
  unfold Utils.legacy_section, Utils.ensure_section_ids.
  unfold Utils.gbind at 1. cbn [Utils.glift as_dict].
  unfold Utils.gbind at 1.
  change (get_default "questions" (JList [])
            [("title", JStr section_title);
             ("questions",
              JList match items with
                    | JList its => flat_map Utils.legacy_item its
                    | _ => []
                    end)])
    with (JList match items with
                | JList its => flat_map Utils.legacy_item its
                | _ => []
                end).
  cbn [Utils.glift py_iter].
  unfold Utils.gbind at 1.
  assert (H : Forall (fun a => forall m, exists b m',
                          Utils.ensure_question_id a m = Some (b, m'))
                match items with
                | JList its => flat_map Utils.legacy_item its
                | _ => []
                end).
  { destruct items; try constructor.
    apply Forall_flat_map. apply Forall_forall. intros item _.
    eapply Forall_impl; [|apply legacy_item_questions].
    intros q (text & meta & ->) m. apply ensure_legacy_question. }
  destruct (gmap_total _ _ H n) as (qs' & n' & ->).
  unfold Utils.gret. eauto.
Qed.

(** A document built from a title and sections that canonicalise. *)
Lemma ensure_titled (title : string) (secs : list json) (n : nat) :
  Forall (fun s => forall m, exists s' m', Utils.ensure_section_ids s m = Some (s', m')) secs ->
  exists y n',
    Utils.ensure_question_ids [("title", JStr title); ("sections", JList secs)] n
    = Some (y, n')
    /\ dict_get "title" y = Some (JStr title).
Proof.
  intro H. unfold Utils.ensure_question_ids.
  unfold Utils.gbind at 1. cbn [get_default dict_get String.eqb Ascii.eqb Bool.eqb
                                  Utils.glift py_iter].
  unfold Utils.gbind at 1.
  destruct (gmap_total Utils.ensure_section_ids secs H n) as (secs' & n' & ->).
  unfold Utils.gret. do 2 eexists. split; [reflexivity|].
  rewrite PyFacts.dict_get_setdefault_same.
  rewrite PyFacts.dict_get_set_other by discriminate. reflexivity.
Qed.

Lemma ensure_fallback (name : string) (n : nat) :
  Utils.ensure_question_ids
    [("title", JStr name);
     ("sections", JList [JDict [("title", JStr "Section"); ("questions", JList [])]])] n
  = Some ([("title", JStr name);
           ("sections", JList [JDict [("title", JStr "Section"); ("questions", JList [])]])],
          n).
Proof. reflexivity. Qed.

End WithRuntime.
End ShapeFacts.


(** X6.  A payload that is not already canonical never makes
    [to_canonical_question_set] raise.  The result is a canonical document
    (a title, sections, every question with an id) titled by the single key
    of a legacy payload or else by the fallback name; any payload other than
    an object with exactly one key gives the empty container, for which no
    identifier is drawn. *)
Theorem non_canonical_payloads_never_raise `{R : Py.Runtime}
  (raw : Py.json) (fallback_name : string) (n : nat) :
  Spec.is_canonical raw = false ->
  exists y n',
    Utils.to_canonical_question_set raw fallback_name n = Some (y, n')
    /\ Spec.canonical_document y
    /\ Py.dict_get "title" y
       = Some (Py.JStr match raw with
                       | Py.JDict [(title, _)] => title
                       | _ => fallback_name
                       end)
    /\ match raw with
       | Py.JDict [_] => True
       | _ =>
           y = [("title", Py.JStr fallback_name);
                ("sections",
                 Py.JList [Py.JDict [("title", Py.JStr "Section");
                                     ("questions", Py.JList [])]])]
           /\ n' = n
       end.
Proof.
  intro Hc.
  assert (Hfall : forall raw',
             Utils.to_canonical_question_set raw' fallback_name n
             = Utils.ensure_question_ids
                 [("title", Py.JStr fallback_name);
                  ("sections",
                   Py.JList [Py.JDict [("title", Py.JStr "Section");
                                       ("questions", Py.JList [])]])] n ->
             exists y n',
               Utils.to_canonical_question_set raw' fallback_name n = Some (y, n')
               /\ Spec.canonical_document y
               /\ Py.dict_get "title" y = Some (Py.JStr fallback_name)
               /\ y = [("title", Py.JStr fallback_name);
                       ("sections",
                        Py.JList [Py.JDict [("title", Py.JStr "Section");
                                            ("questions", Py.JList [])]])]
               /\ n' = n).
  { intros raw' E. rewrite E, ShapeFacts.ensure_fallback.
    do 2 eexists. split; [reflexivity|]. split; [|auto].
    exact (IdempotenceFacts.ensure_question_ids_canonical _ n _ n
             (ShapeFacts.ensure_fallback fallback_name n)). }
  assert (Hdone : forall raw',
             match raw' with Py.JDict [_] => False | _ => True end ->
             Utils.to_canonical_question_set raw' fallback_name n
             = Utils.ensure_question_ids
                 [("title", Py.JStr fallback_name);
                  ("sections",
                   Py.JList [Py.JDict [("title", Py.JStr "Section");
                                       ("questions", Py.JList [])]])] n ->
             exists y n',
               Utils.to_canonical_question_set raw' fallback_name n = Some (y, n')
               /\ Spec.canonical_document y
               /\ Py.dict_get "title" y
                  = Some (Py.JStr match raw' with
                                  | Py.JDict [(title, _)] => title
                                  | _ => fallback_name
                                  end)
               /\ match raw' with
                  | Py.JDict [_] => True
                  | _ =>
                      y = [("title", Py.JStr fallback_name);
                           ("sections",
                            Py.JList [Py.JDict [("title", Py.JStr "Section");
                                                ("questions", Py.JList [])]])]
                      /\ n' = n
                  end).
  { intros raw' Hshape E.
    destruct (Hfall _ E) as (y & n' & E' & Hd & Ht & Hy & Hn).
    exists y, n'. split; [exact E'|]. split; [exact Hd|].
    destruct raw' as [| | | | | |[|[title inner] [|e d]]];
      try contradiction; (split; [exact Ht|split; [exact Hy|exact Hn]]). }
  destruct raw as [| | | | | |d]; try (apply Hdone; [exact I|reflexivity]).
  cbn [Spec.is_canonical] in Hc.
  destruct d as [|[title inner] [|e d]].
  - apply Hdone; [exact I|reflexivity].
  - unfold Utils.to_canonical_question_set. rewrite Hc.
    assert (H : Forall (fun s => forall m, exists s' m',
                            Utils.ensure_section_ids s m = Some (s', m'))
                  match inner with
                  | Py.JDict secs => map Utils.legacy_section secs
                  | _ => []
                  end).
    { destruct inner; try constructor.
      apply Forall_map. apply Forall_forall. intros entry _ m.
      apply ShapeFacts.ensure_legacy_section. }
    destruct (ShapeFacts.ensure_titled title _ n H) as (y & n' & E & Ht).
    exists y, n'. split; [exact E|]. split; [|split; [exact Ht|exact I]].
    eapply IdempotenceFacts.ensure_question_ids_canonical. exact E.
  - apply Hdone; [exact I|].
    unfold Utils.to_canonical_question_set. now rewrite Hc.
Qed.

Lemma non_canonical_payloads_never_raise_witness :
  exists y n',
    Utils.to_canonical_question_set (R := Sample.runtime)
      (Py.JDict Cases.legacy_doc) "Imported" 0 = Some (y, n')
    /\ Spec.canonical_document y
    /\ Py.dict_get "title" y = Some (Py.JStr "Site visit")
    /\ True.
Proof.
  apply (non_canonical_payloads_never_raise (R := Sample.runtime)
           (Py.JDict Cases.legacy_doc) "Imported" 0).
  reflexivity.
Defined.

(** The legacy payload of the example, canonicalised. *)
Example legacy_doc_canonicalised :
  Utils.to_canonical_question_set (R := Sample.runtime)
    (Py.JDict Cases.legacy_doc) "Imported" 0
  = Some (Cases.legacy_doc_canonical, 2).
Proof. reflexivity. Qed.

(* ===================================================================== *)
(** ** Forms, lookups and added questions                                 *)
(* ===================================================================== *)

Module BlockFacts.
Import Py Models PyFacts Spec Vocab.

Section WithRuntime.
Context `{R : Runtime}.

(** An entry of the lookup is the five-key extract of a question filed
    under its key. *)
Lemma lookup_questions_entries qs : forall out ql k e,
  Crud.lookup_questions qs out = Some ql ->
  assoc_get k ql = Some e ->
  assoc_get k out = Some e
  \/ exists d, In (JDict d) qs
               /\ files_under (JDict d) k (get_or_null "text" d)
               /\ e = Crud.lookup_entry d.
Proof.
  induction qs as [|q qs IH]; simpl; intros out ql k e H Hk.
  - inv H. auto.
  - destruct (as_dict q) as [d|] eqn:Ed; [|discriminate].
    destruct (dict_get "id" d) as [id|] eqn:Ei; [|discriminate].
    destruct q; try discriminate. simpl in Ed. inv Ed.
    destruct (IH _ _ _ _ H Hk) as [Hout|(d' & Hin & Hf & He)].
    + rewrite LookupFacts.assoc_get_set in Hout.
      destruct (String.eqb k (py_str id)) eqn:E; auto.
      apply String.eqb_eq in E. inv Hout.
      right. exists d. split; [now left|]. split; [|reflexivity].
      exists d, id. repeat split; auto.
    + right. exists d'. split; [now right|]. auto.
Qed.

Lemma lookup_sections_eq secs : forall out,
  Crud.lookup_sections secs out
  = match visited secs with
    | Some qs => Crud.lookup_questions qs out
    | None => None
    end.
Proof.
  induction secs as [|sec secs IH]; intro out; cbn [Crud.lookup_sections visited]; auto.
  destruct (as_dict sec) as [s|]; auto.
  destruct (py_iter (get_default "questions" (JList []) s)) as [qs|]; auto.
  destruct (visited secs) as [qs'|] eqn:Ev.
  - rewrite LookupFacts.lookup_questions_app.
    destruct (Crud.lookup_questions qs out); auto.
  - destruct (Crud.lookup_questions qs out); auto.
Qed.

Lemma lookup_questions_needs_id qs : forall out q,
  In q qs -> has_id q = false -> Crud.lookup_questions qs out = None.
Proof.
  induction qs as [|q0 qs IH]; intros out q Hin Hq; [contradiction|].
  cbn [Crud.lookup_questions].
  destruct (as_dict q0) as [d|] eqn:Ed; auto.
  destruct (dict_get "id" d) as [id|] eqn:Ei.
  - destruct Hin as [->|Hin]; [|eauto].
    destruct q; try discriminate. cbn in Ed. inv Ed.
    cbn in Hq. unfold dict_has in Hq. now rewrite Ei in Hq.
  - reflexivity.
Qed.

Lemma doc_questions_with_sections (secs : list json) (cq : dict) :
  doc_questions (dict_set "sections" (JList secs) cq) = all_questions secs.
Proof.
  unfold doc_questions, doc_sections, all_questions.
  now rewrite dict_get_set_same.
Qed.

Lemma doc_sections_with_sections (secs : list json) (cq : dict) :
  doc_sections (dict_set "sections" (JList secs) cq) = secs.
Proof. unfold doc_sections. now rewrite dict_get_set_same. Qed.

(** A block made of a canonical document and new sections is canonicalised
    by [ensure_question_ids]. *)
Lemma canonical_of_new_sections (secs : list json) (cq : dict) (n : nat) :
  canonical_document cq ->
  Utils.canonical_project_custom_questions
    (JDict (dict_set "sections" (JList secs) cq)) n
  = Utils.ensure_question_ids (dict_set "sections" (JList secs) cq) n.
Proof.
  intros (Ht & _). unfold Utils.canonical_project_custom_questions.
  unfold dict_has in *.
  rewrite dict_get_set_same.
  rewrite dict_get_set_other by discriminate.
  destruct (dict_get "title" cq); [reflexivity|discriminate].
Qed.

Lemma new_custom_question_id (question : dict) (u : string) :
  dict_get "id" (Crud.new_custom_question question u)
  = match dict_get "id" question with
    | Some v => Some v
    | None => Some (JStr u)
    end.
Proof.
  unfold Crud.new_custom_question.
  rewrite dict_get_setdefault_same.
  rewrite !dict_get_setdefault_other by discriminate.
  reflexivity.
Qed.

Lemma other_projects_kept (l : list Project) (project_id : Z) (cq : json) (p0 : Project) :
  In p0 l -> p_id p0 <> project_id ->
  In p0 (map (fun p => if (p_id p =? project_id)%Z
                       then Crud.set_custom_questions p cq else p) l).
Proof.
  intros Hin Hne. apply in_map_iff. exists p0. split; auto.
  destruct (p_id p0 =? project_id)%Z eqn:E; auto.
  apply Z.eqb_eq in E. contradiction.
Qed.

End WithRuntime.
End BlockFacts.

(** X7.  [question_lookup_from_form] files every question of the form under
    the text of its id: a key is in the lookup exactly when some question
    of the form has that id, every entry is the five-key extract
    (text, type, required, options, value_map) of such a question, and a
    form with a question that has no id makes it raise. *)
Theorem lookup_files_every_question `{R : Py.Runtime}
  (form : Py.dict) (secs qs : list Py.json) :
  Py.py_iter (Py.get_default "sections" (Py.JList []) form) = Some secs ->
  Spec.visited secs = Some qs ->
  match Crud.question_lookup_from_form form with
  | Some ql =>
      (forall k, Py.assoc_get k ql <> None
                 <-> exists q t, In q qs /\ Spec.files_under q k t)
      /\ (forall k e, Py.assoc_get k ql = Some e ->
                      exists d, In (Py.JDict d) qs
                                /\ Spec.files_under (Py.JDict d) k (Py.get_or_null "text" d)
                                /\ e = Crud.lookup_entry d)
  | None => exists q, In q qs /\ Spec.has_id q = false
  end.
Proof.
  intros Hs Hv. unfold Crud.question_lookup_from_form. rewrite Hs.
  rewrite BlockFacts.lookup_sections_eq, Hv.
  destruct (Crud.lookup_questions qs []) as [ql|] eqn:El.
  - split.
    + intro k. split.
      * intro Hk. destruct (Py.assoc_get k ql) as [e|] eqn:Ee; [|contradiction].
        destruct (LookupFacts.lookup_questions_keys _ _ _ _ El Ee) as (q & Hin & Hf).
        eauto.
      * intros (q & t & Hin & Hf).
        eapply LookupFacts.lookup_questions_complete; [exact El|]. right. eauto.
    + intros k e Hk.
      destruct (BlockFacts.lookup_questions_entries _ _ _ _ _ El Hk) as [H|H];
        [discriminate|exact H].
  - clear Hv Hs. revert El. generalize (@nil (string * Py.dict)).
    induction qs as [|q qs IH]; intros out El; [discriminate|].
    cbn [Crud.lookup_questions] in El.
    destruct (Py.as_dict q) as [d|] eqn:Ed.
    + destruct (Py.dict_get "id" d) as [id|] eqn:Ei.
      * destruct (IH _ El) as (q' & Hin & Hq'). exists q'. split; [now right|exact Hq'].
      * exists q. split; [now left|].
        destruct q; try discriminate. cbn in Ed. inv Ed.
        cbn. unfold Py.dict_has. now rewrite Ei.
    + exists q. split; [now left|]. now destruct q.
Qed.

Lemma lookup_files_every_question_witness :
  match Crud.question_lookup_from_form (R := Sample.runtime) Examples.block_c with
  | Some ql =>
      (forall k, Py.assoc_get k ql <> None
                 <-> exists q t, In q [Py.JDict [("id", Py.JStr "qc"); ("text", Py.JStr "C?")]]
                                 /\ Spec.files_under (R := Sample.runtime) q k t)
      /\ (forall k e, Py.assoc_get k ql = Some e ->
                      exists d, In (Py.JDict d)
                                  [Py.JDict [("id", Py.JStr "qc"); ("text", Py.JStr "C?")]]
                                /\ Spec.files_under (R := Sample.runtime)
                                     (Py.JDict d) k (Py.get_or_null "text" d)
                                /\ e = Crud.lookup_entry d)
  | None => exists q, In q [Py.JDict [("id", Py.JStr "qc"); ("text", Py.JStr "C?")]]
                      /\ Spec.has_id q = false
  end.
Proof.
  apply (lookup_files_every_question (R := Sample.runtime) Examples.block_c
           (Spec.doc_sections Examples.block_c)); reflexivity.
Defined.

(** X8.  Reading a project's form writes nothing: whether
    [merged_project_form] returns or raises, every table is as before (the
    identifiers it draws for stored questions without an id are not saved);
    for an unknown project it raises 404 "Project not found". *)
Theorem reading_a_form_writes_nothing `{R : Py.Runtime}
  (project_id : Z) (w w' : Models.World) (out : Models.outcome Py.dict) :
  Crud.merged_project_form project_id w = (out, w') ->
  Spec.same_database w w'
  /\ (Crud.get_project w project_id = None ->
      out = Models.HTTPError 404 "Project not found" /\ w' = w).
Proof.
  intro H. split.
  - exact (FrameFacts.merged_project_form_reads project_id w out w' H).
  - intro Hn. unfold Crud.merged_project_form, Models.bind, Models.get_world in H.
    rewrite Hn in H. cbn in H. now inv H.
Qed.

Lemma reading_a_form_writes_nothing_witness :
  let run := Crud.merged_project_form (R := Sample.runtime) 9 Examples.alpha_world in
  Spec.same_database Examples.alpha_world (snd run)
  /\ (Crud.get_project Examples.alpha_world 9 = None ->
      fst run = Models.HTTPError 404 "Project not found"
      /\ snd run = Examples.alpha_world).
Proof.
  intro run.
  apply (reading_a_form_writes_nothing (R := Sample.runtime) 9 Examples.alpha_world
           (snd run) (fst run)).
  apply surjective_pairing.
Defined.

(** X9.  A custom question that was added is found in the project's lookup:
    after a successful [add_project_custom_question], the lookup of the
    project's merged form has an entry under the question's id, the posted
    one or else the identifier drawn for it. *)
Theorem added_question_is_in_the_lookup `{R : Py.Runtime}
  (project_id : Z) (section_title : string) (question : Py.dict)
  (w w' w'' : Models.World) (form : Py.dict) (ql : list (string * Py.dict)) :
  Crud.add_project_custom_question project_id section_title question w
  = (Models.Ok tt, w') ->
  Crud.merged_project_form project_id w' = (Models.Ok form, w'') ->
  Crud.question_lookup_from_form form = Some ql ->
  exists p cq n1,
    Crud.get_project w project_id = Some p
    /\ Utils.canonical_project_custom_questions
         (Models.p_custom_questions p) (Models.uuids_drawn w) = Some (cq, n1)
    /\ Py.assoc_get
         (Py.py_str (Py.get_or_null "id"
                       (Crud.new_custom_question question (Py.uuid4 n1)))) ql
       <> None.
Proof.
  intros Ha Hf Hl.
  destruct (AddFacts.add_ok _ _ _ _ _ Ha)
    as (p & cq & n1 & sections' & Hp & Hcq & Hadd & Hprojs & _ & _).
  exists p, cq, n1. split; [exact Hp|]. split; [exact Hcq|].
  destruct (FormFacts.form_lookup _ _ _ _ _ Hf Hl)
    as (p' & custom & n' & vqs & Hp' & Hcan' & _ & _ & Hql).
  assert (Hp1 : Crud.get_project w' project_id
                = Some (Crud.set_custom_questions p (Spec.block_with sections' cq))).
  { unfold Crud.get_project. rewrite Hprojs.
    now apply AddFacts.get_project_updated. }
  rewrite Hp1 in Hp'. inv Hp'.
  cbn [Models.p_custom_questions Crud.set_custom_questions] in Hcan'.
  pose proof (FormFacts.canonical_custom_document _ _ _ _ Hcq) as Hdoc.
  destruct (FormFacts.canonical_document_sections _ Hdoc) as (_ & Hsecs & _).
  unfold Spec.block_with in Hcan'.
  rewrite BlockFacts.canonical_of_new_sections in Hcan' by exact Hdoc.
  apply ReindexFacts.ensure_question_ids_ensured in Hcan'.
  rewrite BlockFacts.doc_questions_with_sections in Hcan'.
  set (q := Crud.new_custom_question question (Py.uuid4 n1)) in *.
  assert (Hin : In (Py.JDict q) (Vocab.all_questions sections')).
  { apply (AddFacts.add_to_section_questions _ _ _ _ Hsecs Hadd). now right. }
  destruct (ReindexFacts.Forall2_In_l _ _ _ _ Hcan' Hin) as (q' & Hin' & Hens).
  destruct (Py.dict_get "id" q) as [id|] eqn:Ei.
  2: { unfold q in Ei. rewrite BlockFacts.new_custom_question_id in Ei.
       destruct (Py.dict_get "id" question); discriminate. }
  assert (Hfiles : Spec.files_under (Py.JDict q) (Py.py_str id) (Py.get_or_null "text" q)).
  { exists q, id. auto. }
  apply (ReindexFacts.ensured_files _ _ _ _ Hens) in Hfiles.
  unfold Py.get_or_null at 1. rewrite Ei.
  eapply LookupFacts.lookup_questions_complete; [exact Hql|].
  right. exists q', (Py.get_or_null "text" q). split; [|exact Hfiles].
  apply in_or_app. now right.
Qed.

Lemma added_question_is_in_the_lookup_witness :
  let w' := snd (Crud.add_project_custom_question (R := Sample.runtime) 1 "Costs"
                   Examples.budget_question Examples.alpha_world) in
  let form := match fst (Crud.merged_project_form (R := Sample.runtime) 1 w') with
              | Models.Ok form => form
              | _ => []
              end in
  let ql := match Crud.question_lookup_from_form (R := Sample.runtime) form with
            | Some ql => ql
            | None => []
            end in
  exists p cq n1,
    Crud.get_project Examples.alpha_world 1 = Some p
    /\ Utils.canonical_project_custom_questions (R := Sample.runtime)
         (Models.p_custom_questions p) 0 = Some (cq, n1)
    /\ Py.assoc_get
         (Py.py_str (R := Sample.runtime)
            (Py.get_or_null "id"
               (Crud.new_custom_question Examples.budget_question
                  (Py.uuid4 (Runtime := Sample.runtime) n1)))) ql
       <> None.
Proof.
  intros w' form ql.
  apply (added_question_is_in_the_lookup (R := Sample.runtime) 1 "Costs"
           Examples.budget_question Examples.alpha_world w'
           (snd (Crud.merged_project_form (R := Sample.runtime) 1 w')) form ql).
  - reflexivity.
  - reflexivity.
  - reflexivity.
Defined.

(** X10.  Adding a custom question loses nothing: records, versions and
    assignments are untouched, every other project is stored as before,
    and the questions of the project's new block are those of its
    canonicalised old block and the new question. *)
Theorem adding_a_question_keeps_the_rest `{R : Py.Runtime}
  (project_id : Z) (section_title : string) (question : Py.dict)
  (w w' : Models.World) :
  Crud.add_project_custom_question project_id section_title question w
  = (Models.Ok tt, w') ->
  Spec.same_tables w w'
  /\ (forall p0, In p0 (Models.projects w) -> Models.p_id p0 <> project_id ->
                 In p0 (Models.projects w'))
  /\ exists p cq n1 block,
      Crud.get_project w project_id = Some p
      /\ Utils.canonical_project_custom_questions
           (Models.p_custom_questions p) (Models.uuids_drawn w) = Some (cq, n1)
      /\ Crud.get_project w' project_id
         = Some (Crud.set_custom_questions p (Py.JDict block))
      /\ forall x, In x (Spec.doc_questions block)
                   <-> In x (Spec.doc_questions cq)
                       \/ x = Py.JDict (Crud.new_custom_question question (Py.uuid4 n1)).
Proof.
  intro Ha.
  split; [exact (FrameFacts.add_project_custom_question_tables _ _ _ _ _ _ Ha)|].
  destruct (AddFacts.add_ok _ _ _ _ _ Ha)
    as (p & cq & n1 & sections' & Hp & Hcq & Hadd & Hprojs & _ & _).
  split.
  - intros p0 Hin Hne. rewrite Hprojs. now apply BlockFacts.other_projects_kept.
  - exists p, cq, n1, (Py.dict_set "sections" (Py.JList sections') cq).
    split; [exact Hp|]. split; [exact Hcq|]. split.
    + unfold Crud.get_project. rewrite Hprojs.
      now apply AddFacts.get_project_updated.
    + intro x. rewrite BlockFacts.doc_questions_with_sections.
      pose proof (FormFacts.canonical_custom_document _ _ _ _ Hcq) as Hdoc.
      destruct (FormFacts.canonical_document_sections _ Hdoc) as (_ & Hsecs & _).
      apply (AddFacts.add_to_section_questions _ _ _ _ Hsecs Hadd).
Qed.

Lemma adding_a_question_keeps_the_rest_witness :
  let w' := snd (Crud.add_project_custom_question (R := Sample.runtime) 1 "Costs"
                   Examples.budget_question Examples.daily_world) in
  Spec.same_tables Examples.daily_world w'
  /\ (forall p0, In p0 (Models.projects Examples.daily_world) ->
                 Models.p_id p0 <> 1%Z -> In p0 (Models.projects w'))
  /\ exists p cq n1 block,
      Crud.get_project Examples.daily_world 1 = Some p
      /\ Utils.canonical_project_custom_questions (R := Sample.runtime)
           (Models.p_custom_questions p) 0 = Some (cq, n1)
      /\ Crud.get_project w' 1 = Some (Crud.set_custom_questions p (Py.JDict block))
      /\ forall x, In x (Spec.doc_questions block)
                   <-> In x (Spec.doc_questions cq)
                       \/ x = Py.JDict (Crud.new_custom_question Examples.budget_question
                                          (Py.uuid4 (Runtime := Sample.runtime) n1)).
Proof.
  intro w'.
  apply (adding_a_question_keeps_the_rest (R := Sample.runtime) 1 "Costs"
           Examples.budget_question Examples.daily_world w').
  reflexivity.
Defined.

(* ===================================================================== *)
(** ** Deleting and updating custom questions                             *)
(* ===================================================================== *)

Module EditFacts.
Import Py Models PyFacts Spec Vocab.

Section WithRuntime.
Context `{R : Runtime}.

Lemma canonical_is_listed (sec : json) : canonical_section sec -> listed_section sec.
Proof.
  intros (s & qs & -> & Hq & Hc). exists s, qs. repeat split; auto.
  eapply Forall_impl; [|exact Hc]. intros q (d & -> & _). reflexivity.
Qed.

Lemma listed_questions (s : dict) (qs : list json) :
  dict_get "questions" s = Some (JList qs) -> section_questions (JDict s) = qs.
Proof. intro H. cbn. now rewrite H. Qed.

Lemma questions_of_listed (s : dict) (qs : list json) :
  dict_get "questions" s = Some (JList qs) -> Crud.questions_of (JDict s) = Some qs.
Proof.
  intro H. unfold Crud.questions_of, get_or_null. cbn [as_dict]. rewrite H.
  now destruct qs.
Qed.

Lemma id_is_dict (question_id : string) (d : dict) :
  Crud.has_question_id question_id (JDict d) = Some (id_is question_id (JDict d)).
Proof. reflexivity. Qed.

Lemma without_question_others (question_id : string) (qs : list json) :
  Forall (fun q => is_dict q = true) qs ->
  Crud.without_question question_id qs = Some (others question_id qs).
Proof.
  induction 1 as [|q qs Hq _ IH]; auto.
  destruct q; try discriminate.
  cbn [Crud.without_question]. rewrite id_is_dict, IH.
  unfold others. cbn [filter]. now destruct (id_is question_id (JDict l)).
Qed.

Lemma others_dicts (question_id : string) (qs : list json) :
  Forall (fun q => is_dict q = true) qs ->
  Forall (fun q => is_dict q = true) (others question_id qs).
Proof.
  intro H. apply Forall_forall. intros q Hin.
  apply filter_In in Hin. destruct Hin as [Hin _].
  rewrite Forall_forall in H. auto.
Qed.

Lemma others_app (question_id : string) (l1 l2 : list json) :
  others question_id (l1 ++ l2) = others question_id l1 ++ others question_id l2.
Proof. apply filter_app. Qed.

Lemma others_others (question_id : string) (qs : list json) :
  others question_id (others question_id qs) = others question_id qs.
Proof.
  unfold others. induction qs as [|q qs IH]; auto.
  cbn [filter]. destruct (negb (id_is question_id q)) eqn:E; auto.
  cbn [filter]. now rewrite E, IH.
Qed.

Lemma shorter_iff_hit (question_id : string) (qs : list json) :
  negb (List.length (others question_id qs) =? List.length qs)
  = existsb (id_is question_id) qs.
Proof.
  assert (Hle : forall l, List.length (others question_id l) <= List.length l).
  { intro l. unfold others. apply filter_length_le. }
  induction qs as [|q qs IH]; auto.
  unfold others in *. cbn [filter existsb].
  destruct (id_is question_id q); cbn [negb orb List.length].
  - specialize (Hle qs). unfold others in Hle.
    apply negb_true_iff. apply Nat.eqb_neq. lia.
  - exact IH.
Qed.

Lemma strip_section_questions (question_id : string) (sec : json) :
  listed_section sec ->
  section_questions (strip_section question_id sec)
  = others question_id (section_questions sec).
Proof.
  intros (s & qs & -> & Hq & _). unfold strip_section.
  rewrite (listed_questions _ _ Hq).
  apply listed_questions. apply dict_get_set_same.
Qed.

Lemma strip_section_listed (question_id : string) (sec : json) :
  listed_section sec -> listed_section (strip_section question_id sec).
Proof.
  intros (s & qs & -> & Hq & Hd). unfold strip_section.
  rewrite (listed_questions _ _ Hq).
  eexists _, _. split; [reflexivity|]. split; [apply dict_get_set_same|].
  now apply others_dicts.
Qed.

Lemma delete_from_sections_spec (question_id : string) (secs : list json) :
  Forall listed_section secs ->
  forall removed,
    Crud.delete_from_sections question_id secs removed
    = Some (map (strip_section question_id) secs,
            removed || existsb (id_is question_id) (all_questions secs)).
Proof.
  induction 1 as [|sec secs Hs _ IH]; intro removed.
  - cbn. now rewrite orb_false_r.
  - destruct Hs as (s & qs & -> & Hq & Hd).
    cbn [Crud.delete_from_sections].
    rewrite (questions_of_listed _ _ Hq), (without_question_others _ _ Hd).
    cbn [Crud.set_questions as_dict]. rewrite IH.
    rewrite shorter_iff_hit.
    unfold all_questions. cbn [flat_map map strip_section].
    rewrite (listed_questions _ _ Hq), existsb_app.
    f_equal. f_equal.
    destruct (existsb (id_is question_id) qs), removed; reflexivity.
Qed.

Lemma nonempty_sections_spec (secs : list json) :
  Forall listed_section secs ->
  Crud.nonempty_sections secs = Some (filter has_questions secs).
Proof.
  induction 1 as [|sec secs Hs _ IH]; auto.
  destruct Hs as (s & qs & -> & Hq & Hd).
  cbn [Crud.nonempty_sections as_dict filter]. rewrite IH.
  assert (E : has_questions (JDict s) = truthy (get_or_null "questions" s)).
  { unfold has_questions. rewrite (listed_questions _ _ Hq).
    unfold get_or_null. rewrite Hq. now destruct qs. }
  now rewrite E.
Qed.

Lemma all_questions_nonempty (secs : list json) :
  all_questions (filter has_questions secs) = all_questions secs.
Proof.
  unfold all_questions. induction secs as [|sec secs IH]; auto.
  cbn [filter flat_map]. unfold has_questions at 1.
  destruct (section_questions sec) eqn:E; cbn [flat_map]; rewrite IH; auto.
  now rewrite E.
Qed.

Lemma all_questions_stripped (question_id : string) (secs : list json) :
  Forall listed_section secs ->
  all_questions (map (strip_section question_id) secs)
  = others question_id (all_questions secs).
Proof.
  unfold all_questions. induction 1 as [|sec secs Hs _ IH]; auto.
  cbn [map flat_map]. rewrite others_app, IH.
  now rewrite strip_section_questions.
Qed.

Lemma kept_sections_nonempty (secs : list json) (sec : json) :
  In sec (filter has_questions secs) -> section_questions sec <> [].
Proof.
  intro H. apply filter_In in H. destruct H as [_ H].
  unfold has_questions in H. now destruct (section_questions sec).
Qed.

(** What the handlers do up to the canonicalised block. *)
Lemma sections_of_block (block : json) (n : nat) (cq : dict) (n1 : nat) :
  Utils.canonical_project_custom_questions block n = Some (cq, n1) ->
  py_iter (get_default "sections" (JList []) cq) = Some (doc_sections cq)
  /\ Forall listed_section (doc_sections cq)
  /\ canonical_document cq.
Proof.
  intro H. pose proof (FormFacts.canonical_custom_document _ _ _ _ H) as Hdoc.
  destruct (FormFacts.canonical_document_sections _ Hdoc) as (Hi & Hs & _).
  split; [exact Hi|]. split; [|exact Hdoc].
  eapply Forall_impl; [|exact Hs]. apply canonical_is_listed.
Qed.

(** The run of [delete_project_custom_question] on a stored project. *)
Lemma delete_run (project_id : Z) (question_id : string) (w : World)
  (p : Project) (cq : dict) (n1 : nat) :
  Crud.get_project w project_id = Some p ->
  Utils.canonical_project_custom_questions (p_custom_questions p) (uuids_drawn w)
  = Some (cq, n1) ->
  Crud.delete_project_custom_question project_id question_id w
  = if existsb (id_is question_id) (doc_questions cq) then
      (Ok tt,
       with_projects (with_uuids_drawn w n1)
         (map (fun p0 =>
                 if (p_id p0 =? project_id)%Z
                 then Crud.set_custom_questions p0
                        (JDict (dict_set "sections"
                                  (JList (filter has_questions
                                            (map (strip_section question_id)
                                               (doc_sections cq)))) cq))
                 else p0) (projects w)))
    else (HTTPError 404 "Custom question not found", with_uuids_drawn w n1).
Proof.
  intros Hp Hc.
  destruct (sections_of_block _ _ _ _ Hc) as (Hi & Hs & _).
  unfold Crud.delete_project_custom_question, bind, get_world, Crud._get_or_404, ret.
  rewrite Hp. unfold run_gen. rewrite Hc. unfold run_opt. rewrite Hi.
  rewrite (delete_from_sections_spec _ _ Hs). cbn [fst snd orb].
  fold (doc_questions cq). unfold all_questions. fold (doc_questions cq).
  destruct (existsb (id_is question_id) (doc_questions cq)); cbn [negb].
  - rewrite nonempty_sections_spec
      by (apply Forall_map; eapply Forall_impl; [|exact Hs];
          intro; apply strip_section_listed).
    reflexivity.
  - reflexivity.
Qed.

End WithRuntime.
End EditFacts.

(** X11.  [delete_project_custom_question] removes exactly the questions
    that answer to the id: when the canonicalised block has such a question
    the call succeeds, the questions of the stored block are the others in
    their order, no empty section is kept, and nothing else is written;
    when it has none the call raises 404 "Custom question not found" and
    stores nothing. *)
Theorem delete_removes_exactly_the_question `{R : Py.Runtime}
  (project_id : Z) (question_id : string) (w : Models.World)
  (p : Models.Project) (cq : Py.dict) (n1 : nat) :
  Crud.get_project w project_id = Some p ->
  Utils.canonical_project_custom_questions
    (Models.p_custom_questions p) (Models.uuids_drawn w) = Some (cq, n1) ->
  let run := Crud.delete_project_custom_question project_id question_id w in
  if existsb (Vocab.id_is question_id) (Spec.doc_questions cq) then
    fst run = Models.Ok tt
    /\ Spec.same_tables w (snd run)
    /\ (forall p0, In p0 (Models.projects w) -> Models.p_id p0 <> project_id ->
                   In p0 (Models.projects (snd run)))
    /\ exists block,
        Crud.get_project (snd run) project_id
        = Some (Crud.set_custom_questions p (Py.JDict block))
        /\ Spec.doc_questions block
           = Vocab.others question_id (Spec.doc_questions cq)
        /\ forall sec, In sec (Spec.doc_sections block) ->
                       Spec.section_questions sec <> []
  else run = (Models.HTTPError 404 "Custom question not found",
              Models.with_uuids_drawn w n1).
Proof.
  intros Hp Hc run. unfold run.
  rewrite (EditFacts.delete_run _ question_id _ _ _ _ Hp Hc).
  destruct (EditFacts.sections_of_block _ _ _ _ Hc) as (_ & Hs & _).
  destruct (existsb (Vocab.id_is question_id) (Spec.doc_questions cq)); [|reflexivity].
  cbn [fst snd]. split; [reflexivity|]. split; [repeat split|]. split.
  - intros p0 Hin Hne. cbn [Models.projects Models.with_projects].
    now apply BlockFacts.other_projects_kept.
  - eexists. split.
    + unfold Crud.get_project. cbn [Models.projects Models.with_projects].
      now apply AddFacts.get_project_updated.
    + split.
      * rewrite BlockFacts.doc_questions_with_sections.
        rewrite EditFacts.all_questions_nonempty.
        now apply EditFacts.all_questions_stripped.
      * rewrite BlockFacts.doc_sections_with_sections.
        apply EditFacts.kept_sections_nonempty.
Qed.

Lemma delete_removes_exactly_the_question_witness :
  let run := Crud.delete_project_custom_question (R := Sample.runtime) 1 "q-name"
               Examples.strict_world in
  fst run = Models.Ok tt
  /\ Spec.same_tables Examples.strict_world (snd run)
  /\ (forall p0, In p0 (Models.projects Examples.strict_world) ->
                 Models.p_id p0 <> 1%Z -> In p0 (Models.projects (snd run)))
  /\ exists block,
      Crud.get_project (snd run) 1
      = Some (Crud.set_custom_questions
                {| Models.p_id := 1; Models.p_name := "Alpha";
                   Models.p_focalpoint_code := None;
                   Models.p_custom_questions := Py.JDict Examples.strict_block |}
                (Py.JDict block))
      /\ Spec.doc_questions block
         = Vocab.others (R := Sample.runtime) "q-name"
             (Spec.doc_questions Examples.strict_block)
      /\ forall sec, In sec (Spec.doc_sections block) ->
                     Spec.section_questions sec <> [].
Proof.
  exact (delete_removes_exactly_the_question (R := Sample.runtime) 1 "q-name"
           Examples.strict_world _ Examples.strict_block 1 eq_refl eq_refl).
Defined.

(** Deleting the only question of the example leaves an empty block. *)
Example delete_last_question :
  map Models.p_custom_questions
    (Models.projects
       (snd (Crud.delete_project_custom_question (R := Sample.runtime) 1 "q-name"
               Examples.strict_world)))
  = [Py.JDict [("title", Py.JStr "Custom"); ("sections", Py.JList [])]].
Proof. reflexivity. Qed.

(* ===================================================================== *)
(** ** Updating a custom question                                         *)
(* ===================================================================== *)

Module MoveFacts.
Import Py Models PyFacts Spec Vocab.

Section WithRuntime.
Context `{R : Runtime}.

Lemma first_with_id_find (question_id : string) (qs : list json) :
  Forall (fun q => is_dict q = true) qs ->
  Crud.first_with_id question_id qs = Some (find (id_is question_id) qs).
Proof.
  induction 1 as [|q qs Hq _ IH]; auto.
  destruct q; try discriminate.
  cbn [Crud.first_with_id find]. rewrite EditFacts.id_is_dict.
  now destruct (id_is question_id (JDict l)).
Qed.

Lemma find_none_existsb {A} (f : A -> bool) (l : list A) :
  find f l = None -> existsb f l = false.
Proof.
  induction l as [|a l IH]; auto. cbn. destruct (f a); [discriminate|auto].
Qed.

Lemma find_some_existsb {A} (f : A -> bool) (l : list A) (a : A) :
  find f l = Some a -> existsb f l = true.
Proof.
  intro H. apply existsb_exists. exists a. apply find_some in H. tauto.
Qed.

Lemma canonical_question_truthy (q : json) : canonical_question q -> truthy q = true.
Proof.
  intros (d & -> & Hid & _). destruct d; [discriminate|reflexivity].
Qed.

(** The search finds a question exactly when the block has one. *)
Lemma find_question_spec (question_id : string) (secs : list json) :
  Forall canonical_section secs ->
  forall idx,
    exists found,
      Crud.find_question question_id secs idx None = Some found
      /\ Crud.is_found found = existsb (id_is question_id) (all_questions secs)
      /\ match found with
         | Some (_, j) => exists i s, j = idx + i /\ nth_error secs i = Some s
         | None => True
         end.
Proof.
  induction 1 as [|sec secs Hs _ IH]; intro idx.
  - exists None. repeat split.
  - destruct Hs as (s & qs & -> & Hq & Hc).
    cbn [Crud.find_question as_dict].
    assert (Hi : py_iter (py_or (get_or_null "questions" s) (JList [])) = Some qs).
    { unfold get_or_null. rewrite Hq. now destruct qs. }
    rewrite Hi.
    assert (Hd : Forall (fun q => is_dict q = true) qs).
    { eapply Forall_impl; [|exact Hc]. intros q (d & -> & _). reflexivity. }
    rewrite (first_with_id_find _ _ Hd).
    unfold all_questions. cbn [flat_map].
    rewrite (EditFacts.listed_questions _ _ Hq), existsb_app.
    destruct (find (id_is question_id) qs) as [q|] eqn:Ef.
    + assert (Ht : truthy q = true).
      { apply canonical_question_truthy. apply find_some in Ef.
        rewrite Forall_forall in Hc. apply Hc. tauto. }
      cbn [Crud.is_found]. rewrite Ht.
      exists (Some (q, idx)). split; [reflexivity|].
      rewrite (find_some_existsb _ _ _ Ef). split; [cbn; now rewrite Ht|].
      exists 0, (JDict s). split; [lia|reflexivity].
    + cbn [Crud.is_found].
      destruct (IH (S idx)) as (found & E & Hf & Hj).
      exists found. split; [exact E|].
      rewrite (find_none_existsb _ _ Ef). split; [exact Hf|].
      destruct found as [[q j]|]; auto.
      destruct Hj as (i & s' & -> & Hn). exists (S i), s'. split; [lia|exact Hn].
Qed.

Lemma replace_nth_split (l : list json) (i : nat) (s : json) :
  nth_error l i = Some s ->
  exists l1 l2, l = l1 ++ s :: l2
                /\ forall x, Crud.replace_nth i x l = l1 ++ x :: l2.
Proof.
  revert i. induction l as [|y l IH]; intros [|i] H; try discriminate.
  - inv H. exists [], l. auto.
  - destruct (IH _ H) as (l1 & l2 & -> & Hr).
    exists (y :: l1), l2. split; auto.
    intro x. cbn. now rewrite Hr.
Qed.

Lemma all_questions_app (l1 l2 : list json) :
  all_questions (l1 ++ l2) = all_questions l1 ++ all_questions l2.
Proof. apply flat_map_app. Qed.

Lemma all_questions_cons (s : json) (l : list json) :
  all_questions (s :: l) = section_questions s ++ all_questions l.
Proof. reflexivity. Qed.

Lemma listed_truthy (sec : json) : listed_section sec -> truthy sec = true.
Proof. intros (s & qs & -> & Hq & _). destruct s; [discriminate|reflexivity]. Qed.

(** "Remove from old section if moving" touches no other question. *)
Lemma move_out_spec (question_id title : string) (secs : list json) (i : nat)
  (s : json) :
  Forall listed_section secs ->
  nth_error secs i = Some s ->
  exists secs',
    Crud.move_out question_id title i secs = Some secs'
    /\ Forall listed_section secs'
    /\ others question_id (all_questions secs')
       = others question_id (all_questions secs).
Proof.
  intros Hs Hn. unfold Crud.move_out. rewrite Hn.
  assert (Hl : listed_section s).
  { rewrite Forall_forall in Hs. apply Hs. eapply nth_error_In; eauto. }
  rewrite (listed_truthy _ Hl).
  pose proof Hl as (d & qs & -> & Hq & Hd). cbn [as_dict andb].
  destruct (negb (eq_str (get_or_null "title" d) title)).
  - rewrite (EditFacts.questions_of_listed _ _ Hq),
            (EditFacts.without_question_others _ _ Hd).
    destruct (replace_nth_split _ _ _ Hn) as (l1 & l2 & -> & Hr).
    rewrite Hr. eexists. split; [reflexivity|].
    apply Forall_app in Hs. destruct Hs as [H1 H2]. inv H2.
    split.
    + apply Forall_app. split; auto. constructor; auto.
      eexists _, _. split; [reflexivity|]. split; [apply dict_get_set_same|].
      now apply EditFacts.others_dicts.
    + rewrite !all_questions_app, !all_questions_cons, !EditFacts.others_app.
      rewrite (EditFacts.listed_questions _ _ Hq).
      rewrite (EditFacts.listed_questions _ _ (dict_get_set_same _ _ _)).
      now rewrite EditFacts.others_others.
  - exists secs. auto.
Qed.

Lemma section_index_spec (title : string) (secs : list json) :
  Forall listed_section secs ->
  forall idx,
    exists r,
      Crud.section_index title secs idx = Some r
      /\ match r with
         | Some j => exists i d, j = idx + i /\ nth_error secs i = Some (JDict d)
                                 /\ get_or_null "title" d = JStr title
         | None => True
         end.
Proof.
  induction 1 as [|sec secs Hs _ IH]; intro idx.
  - exists None. split; [reflexivity|exact I].
  - destruct Hs as (s & qs & -> & _).
    cbn [Crud.section_index as_dict].
    destruct (eq_str (get_or_null "title" s) title) eqn:E.
    + exists (Some idx). split; [reflexivity|].
      exists 0, s. split; [lia|]. split; [reflexivity|].
      destruct (get_or_null "title" s); try discriminate.
      cbn in E. apply String.eqb_eq in E. now subst.
    + destruct (IH (S idx)) as (r & Er & Hr). exists r. split; [exact Er|].
      destruct r as [j|]; auto.
      destruct Hr as (i & d & -> & Hn & Ht). exists (S i), d.
      split; [lia|]. split; [exact Hn|exact Ht].
Qed.

Lemma replace_or_append_spec (question_id : string) (qnew : json) (tgtqs : list json) :
  Forall (fun q => is_dict q = true) tgtqs ->
  is_dict qnew = true ->
  id_is question_id qnew = true ->
  exists r,
    Crud.replace_or_append question_id qnew tgtqs = Some r
    /\ In qnew r
    /\ others question_id r = others question_id tgtqs
    /\ Forall (fun q => is_dict q = true) r.
Proof.
  intros H Hd Hid. induction H as [|q qs Hq Hqs IH].
  - exists [qnew]. repeat split; [now left| |now constructor].
    unfold others. cbn. now rewrite Hid.
  - destruct q; try discriminate.
    cbn [Crud.replace_or_append]. rewrite EditFacts.id_is_dict.
    destruct (id_is question_id (JDict l)) eqn:E.
    + exists (qnew :: qs). repeat split; [now left| |now constructor].
      unfold others. cbn [filter]. now rewrite Hid, E.
    + destruct IH as (r & -> & Hin & Ho & Hr).
      exists (JDict l :: r). repeat split; [now right| |now constructor].
      unfold others in *. cbn [filter]. now rewrite E, Ho.
Qed.

(** The section that receives the question, and what the block looks like
    once it has. *)
Lemma set_at_position (question_id title : string) (qnew : json)
  (l1 l2 : list json) (d : dict) (tgtqs r : list json) :
  Forall listed_section (l1 ++ JDict d :: l2) ->
  dict_get "questions" d = Some (JList tgtqs) ->
  get_or_null "title" d = JStr title ->
  In qnew r ->
  others question_id r = others question_id tgtqs ->
  Forall (fun q => is_dict q = true) r ->
  exists kept,
    Crud.nonempty_sections
      (l1 ++ JDict (dict_set "questions" (JList r) d) :: l2) = Some kept
    /\ others question_id (all_questions kept)
       = others question_id (all_questions (l1 ++ JDict d :: l2))
    /\ (exists d', In (JDict d') kept /\ get_or_null "title" d' = JStr title
                   /\ In qnew (section_questions (JDict d')))
    /\ forall sec, In sec kept -> section_questions sec <> [].
Proof.
  intros Hs Hq Ht Hin Ho Hr.
  set (target := JDict (dict_set "questions" (JList r) d)).
  assert (Hqt : section_questions target = r)
    by (apply EditFacts.listed_questions, dict_get_set_same).
  assert (Hl : Forall listed_section (l1 ++ target :: l2)).
  { apply Forall_app in Hs. destruct Hs as [H1 H2].
    apply Forall_cons_iff in H2. destruct H2 as [_ H2].
    apply Forall_app. split; auto. constructor; auto.
    eexists _, _. split; [reflexivity|]. split; [apply dict_get_set_same|exact Hr]. }
  rewrite (EditFacts.nonempty_sections_spec _ Hl).
  eexists. split; [reflexivity|]. split; [|split].
  - rewrite EditFacts.all_questions_nonempty.
    rewrite !all_questions_app, !all_questions_cons, !EditFacts.others_app.
    rewrite Hqt, (EditFacts.listed_questions _ _ Hq). now rewrite Ho.
  - exists (dict_set "questions" (JList r) d). split; [|split].
    + apply filter_In. split; [apply in_or_app; right; now left|].
      unfold has_questions. fold target. rewrite Hqt. now destruct r.
    + now rewrite get_or_null_set_other by discriminate.
    + fold target. now rewrite Hqt.
  - apply EditFacts.kept_sections_nonempty.
Qed.

Lemma place_question_spec (question_id title : string) (qnew : json)
  (secs : list json) :
  Forall listed_section secs ->
  is_dict qnew = true ->
  id_is question_id qnew = true ->
  exists kept,
    Crud.place_question question_id title qnew secs = Some kept
    /\ others question_id (all_questions kept)
       = others question_id (all_questions secs)
    /\ (exists d', In (JDict d') kept /\ get_or_null "title" d' = JStr title
                   /\ In qnew (section_questions (JDict d')))
    /\ forall sec, In sec kept -> section_questions sec <> [].
Proof.
  intros Hs Hd Hid. unfold Crud.place_question.
  destruct (section_index_spec title secs Hs 0) as (found & -> & Hf).
  destruct found as [j|].
  - destruct Hf as (i & d & -> & Hn & Ht). cbn [Nat.add]. rewrite Hn.
    assert (Hl : listed_section (JDict d)).
    { rewrite Forall_forall in Hs. apply Hs. eapply nth_error_In; eauto. }
    destruct Hl as (d0 & tgtqs & E & Hq & Hdq). inv E.
    rewrite (EditFacts.questions_of_listed _ _ Hq).
    destruct (replace_or_append_spec question_id qnew tgtqs Hdq Hd Hid)
      as (r & -> & Hin & Ho & Hr).
    cbn [Crud.set_questions as_dict].
    destruct (replace_nth_split _ _ _ Hn) as (l1 & l2 & -> & Hrep).
    rewrite Hrep.
    now apply (set_at_position question_id title qnew l1 l2 d0 tgtqs r).
  - set (fresh := JDict [("title", JStr title); ("questions", JList [])]).
    assert (Hlen : Nat.pred (List.length (secs ++ [fresh])) = List.length secs).
    { rewrite length_app. cbn. lia. }
    rewrite Hlen.
    assert (Hn : nth_error (secs ++ [fresh]) (List.length secs) = Some fresh).
    { rewrite nth_error_app2 by lia. now rewrite Nat.sub_diag. }
    rewrite Hn. unfold fresh at 1.
    rewrite (EditFacts.questions_of_listed
               [("title", JStr title); ("questions", JList [])] [] eq_refl).
    cbn [Crud.replace_or_append Crud.set_questions as_dict].
    destruct (replace_nth_split _ _ _ Hn) as (l1 & l2 & E & Hrep).
    assert (Es : Crud.set_questions [qnew] fresh
                 = Some (JDict (dict_set "questions" (JList [qnew])
                                  [("title", JStr title); ("questions", JList [])])))
      by reflexivity.
    rewrite Es, Hrep.
    assert (Hs' : Forall listed_section (secs ++ [fresh])).
    { apply Forall_app. split; auto. constructor; [|constructor].
      eexists _, _. split; [reflexivity|]. split; [reflexivity|constructor]. }
    rewrite E in Hs'.
    destruct (set_at_position question_id title qnew l1 l2
                [("title", JStr title); ("questions", JList [])] [] [qnew])
      as (kept & Ek & Ho & Ht & He).
    + exact Hs'.
    + reflexivity.
    + reflexivity.
    + now left.
    + unfold others. cbn. now rewrite Hid.
    + now constructor.
    + exists kept. split; [exact Ek|]. split; [|split; assumption].
      rewrite Ho. fold fresh. rewrite <- E.
      rewrite all_questions_app. cbn. now rewrite app_nil_r.
Qed.

Lemma updated_question_id (question : dict) (question_id : string) :
  id_is question_id (JDict (Crud.updated_question question question_id)) = true.
Proof.
  unfold id_is, Crud.has_question_id, Crud.updated_question. cbn [as_dict].
  rewrite !get_or_null_setdefault_other by discriminate.
  rewrite get_or_null_set_same. cbn. apply String.eqb_refl.
Qed.

End WithRuntime.
End MoveFacts.

(** X12.  [update_project_custom_question] touches the one question: when the
    canonicalised block has a question that answers to the id the call
    succeeds, the stored block holds the posted question under that id in a
    section with the new title, the questions with other ids are those of
    the old block in their order, no empty section is kept and nothing else
    is written; when the block has no such question the call raises 404
    "Custom question not found" and stores nothing. *)
Theorem update_touches_one_question `{R : Py.Runtime}
  (project_id : Z) (question_id new_section_title : string) (question : Py.dict)
  (w : Models.World) (p : Models.Project) (cq : Py.dict) (n1 : nat) :
  Crud.get_project w project_id = Some p ->
  Utils.canonical_project_custom_questions
    (Models.p_custom_questions p) (Models.uuids_drawn w) = Some (cq, n1) ->
  let run := Crud.update_project_custom_question project_id question_id
               new_section_title question w in
  if existsb (Vocab.id_is question_id) (Spec.doc_questions cq) then
    fst run = Models.Ok tt
    /\ Spec.same_tables w (snd run)
    /\ (forall p0, In p0 (Models.projects w) -> Models.p_id p0 <> project_id ->
                   In p0 (Models.projects (snd run)))
    /\ exists block,
        Crud.get_project (snd run) project_id
        = Some (Crud.set_custom_questions p (Py.JDict block))
        /\ Vocab.others question_id (Spec.doc_questions block)
           = Vocab.others question_id (Spec.doc_questions cq)
        /\ (exists sec, In (Py.JDict sec) (Spec.doc_sections block)
                        /\ Py.get_or_null "title" sec = Py.JStr new_section_title
                        /\ In (Py.JDict (Crud.updated_question question question_id))
                             (Spec.section_questions (Py.JDict sec)))
        /\ forall sec, In sec (Spec.doc_sections block) ->
                       Spec.section_questions sec <> []
  else run = (Models.HTTPError 404 "Custom question not found",
              Models.with_uuids_drawn w n1).
Proof.
  intros Hp Hc run. unfold run. clear run.
  destruct (EditFacts.sections_of_block _ _ _ _ Hc) as (Hi & Hs & Hdoc).
  destruct (FormFacts.canonical_document_sections _ Hdoc) as (_ & Hcs & _).
  unfold Crud.update_project_custom_question, Models.bind, Models.get_world,
    Crud._get_or_404, Models.ret.
  rewrite Hp. unfold Models.run_gen. rewrite Hc. unfold Models.run_opt. rewrite Hi.
  destruct (MoveFacts.find_question_spec question_id _ Hcs 0) as (found & -> & Hf & Hj).
  change (Vocab.all_questions (Spec.doc_sections cq))
    with (Spec.doc_questions cq) in Hf.
  rewrite Hf.
  destruct (existsb (Vocab.id_is question_id) (Spec.doc_questions cq)) eqn:Ex;
    cbn [negb]; [|reflexivity].
  destruct found as [[q j]|]; [|discriminate].
  destruct Hj as (i & s & -> & Hn). cbn [Nat.add].
  destruct (MoveFacts.move_out_spec question_id new_section_title _ _ _ Hs Hn)
    as (secs1 & -> & Hs1 & Ho1).
  destruct (MoveFacts.place_question_spec question_id new_section_title
              (Py.JDict (Crud.updated_question question question_id)) secs1 Hs1
              eq_refl (MoveFacts.updated_question_id _ _))
    as (kept & -> & Ho & Ht & He).
  unfold Crud.save_custom_questions, Models.bind, Models.get_world, Models.put_world.
  cbn [fst snd]. split; [reflexivity|]. split; [repeat split|]. split.
  - intros p0 Hin Hne. cbn [Models.projects Models.with_projects Models.with_uuids_drawn].
    now apply BlockFacts.other_projects_kept.
  - eexists. split.
    + unfold Crud.get_project.
      cbn [Models.projects Models.with_projects Models.with_uuids_drawn].
      now apply AddFacts.get_project_updated.
    + rewrite BlockFacts.doc_questions_with_sections,
              BlockFacts.doc_sections_with_sections.
      split; [|split; [exact Ht|exact He]].
      rewrite Ho, Ho1. reflexivity.
Qed.

Lemma update_touches_one_question_witness :
  let run := Crud.update_project_custom_question (R := Sample.runtime) 1 "q-name"
               "Moved" [("text", Py.JStr "Full name")] Examples.strict_world in
  fst run = Models.Ok tt
  /\ Spec.same_tables Examples.strict_world (snd run)
  /\ (forall p0, In p0 (Models.projects Examples.strict_world) ->
                 Models.p_id p0 <> 1%Z -> In p0 (Models.projects (snd run)))
  /\ exists block,
      Crud.get_project (snd run) 1
      = Some (Crud.set_custom_questions
                {| Models.p_id := 1; Models.p_name := "Alpha";
                   Models.p_focalpoint_code := None;
                   Models.p_custom_questions := Py.JDict Examples.strict_block |}
                (Py.JDict block))
      /\ Vocab.others (R := Sample.runtime) "q-name" (Spec.doc_questions block)
         = Vocab.others (R := Sample.runtime) "q-name"
             (Spec.doc_questions Examples.strict_block)
      /\ (exists sec, In (Py.JDict sec) (Spec.doc_sections block)
                      /\ Py.get_or_null "title" sec = Py.JStr "Moved"
                      /\ In (Py.JDict (Crud.updated_question
                                         [("text", Py.JStr "Full name")] "q-name"))
                           (Spec.section_questions (Py.JDict sec)))
      /\ forall sec, In sec (Spec.doc_sections block) ->
                     Spec.section_questions sec <> [].
Proof.
  exact (update_touches_one_question (R := Sample.runtime) 1 "q-name" "Moved"
           [("text", Py.JStr "Full name")]
           Examples.strict_world _ Examples.strict_block 1 eq_refl eq_refl).
Defined.

(** Moving the only question of the example to a new section: the section
    it leaves is dropped, the question keeps its id and is required by
    default. *)
Example update_moves_question :
  map Models.p_custom_questions
    (Models.projects
       (snd (Crud.update_project_custom_question (R := Sample.runtime) 1 "q-name"
               "Moved" [("text", Py.JStr "Full name")] Examples.strict_world)))
  = [Py.JDict
       [("title", Py.JStr "Custom");
        ("sections",
         Py.JList
           [Py.JDict
              [("title", Py.JStr "Moved");
               ("questions",
                Py.JList [Py.JDict [("text", Py.JStr "Full name");
                                    ("id", Py.JStr "q-name");
                                    ("required", Py.JBool true);
                                    ("type", Py.JStr "short_text")]])]])]].
Proof. reflexivity. Qed.

(** Two sections of one title: the question is found in the second, the
    target is the first, and the block ends with two questions of the id. *)
Example update_with_twin_sections :
  map Models.p_custom_questions
    (Models.projects
       (snd (Crud.update_project_custom_question (R := Sample.runtime) 1 "q1"
               "S" [("text", Py.JStr "Uno")] Cases.twin_world)))
  = [Py.JDict
       [("title", Py.JStr "Custom");
        ("sections",
         Py.JList
           [Py.JDict
              [("title", Py.JStr "S");
               ("questions",
                Py.JList [Py.JDict [("id", Py.JStr "q2"); ("text", Py.JStr "Two")];
                          Py.JDict [("text", Py.JStr "Uno"); ("id", Py.JStr "q1");
                                    ("required", Py.JBool true);
                                    ("type", Py.JStr "short_text")]])];
            Py.JDict
              [("title", Py.JStr "S");
               ("questions",
                Py.JList [Py.JDict [("id", Py.JStr "q1"); ("text", Py.JStr "One")]])]])]].
Proof. reflexivity. Qed.

(** X13.  The three operations on a project's custom questions need the
    project: for an unknown project each raises 404 "Project not found"
    before anything is drawn or written. *)
Theorem custom_question_calls_need_the_project `{R : Py.Runtime}
  (project_id : Z) (w : Models.World) :
  Crud.get_project w project_id = None ->
  (forall section_title question,
      Crud.add_project_custom_question project_id section_title question w
      = (Models.HTTPError 404 "Project not found", w))
  /\ (forall question_id new_section_title question,
         Crud.update_project_custom_question project_id question_id
           new_section_title question w
         = (Models.HTTPError 404 "Project not found", w))
  /\ (forall question_id,
         Crud.delete_project_custom_question project_id question_id w
         = (Models.HTTPError 404 "Project not found", w)).
Proof.
  intro H. repeat split; intros;
    [unfold Crud.add_project_custom_question
    |unfold Crud.update_project_custom_question
    |unfold Crud.delete_project_custom_question];
    unfold Models.bind, Models.get_world; rewrite H; reflexivity.
Qed.

Lemma custom_question_calls_need_the_project_witness :
  (forall section_title question,
      Crud.add_project_custom_question (R := Sample.runtime) 9 section_title question
        Examples.strict_world
      = (Models.HTTPError 404 "Project not found", Examples.strict_world))
  /\ (forall question_id new_section_title question,
         Crud.update_project_custom_question (R := Sample.runtime) 9 question_id
           new_section_title question Examples.strict_world
         = (Models.HTTPError 404 "Project not found", Examples.strict_world))
  /\ (forall question_id,
         Crud.delete_project_custom_question (R := Sample.runtime) 9 question_id
           Examples.strict_world
         = (Models.HTTPError 404 "Project not found", Examples.strict_world)).
Proof.
  exact (custom_question_calls_need_the_project (R := Sample.runtime) 9
           Examples.strict_world eq_refl).
Defined.

(* ===================================================================== *)
(** ** Versions: integrity under create, update and delete                *)
(* ===================================================================== *)

Module VersionFacts.
Import Py Models PyFacts Spec Vocab.

Lemma NoDup_map_filter {A B} (f : A -> B) (g : A -> bool) (l : list A) :
  NoDup (map f l) -> NoDup (map f (filter g l)).
Proof.
  induction l as [|a l IH]; cbn; intro H; [constructor|].
  inv H. destruct (g a); cbn; auto.
  constructor; auto. intro Hin. apply H2.
  apply in_map_iff in Hin. destruct Hin as (x & E & Hx).
  apply filter_In in Hx. apply in_map_iff. exists x. tauto.
Qed.



Lemma find_filter_other {A} (f g : A -> bool) (l : list A) (a : A) :
  find f l = Some a -> g a = true -> (forall x, f x = true -> g x = true) ->
  find f (filter g l) = Some a.
Proof.
  induction l as [|x l IH]; cbn; [discriminate|]. intros H Ha Hfg.
  destruct (f x) eqn:E.
  - inv H. rewrite Ha. cbn. now rewrite E.
  - destruct (g x); cbn; [rewrite E|]; auto.
Qed.

Section Pass.
Variable new_id : Z.
Variable olds : list Z.






End Pass.

Section WithRuntime.
Context `{R : Runtime}.




End WithRuntime.
End VersionFacts.


Lemma daily_world_integrity : Vocab.database_ok Examples.daily_world.
Proof.
  split; [exact daily_world_ok|].
  unfold Vocab.unique_pairs. cbn.
  repeat (constructor; [cbn; intuition discriminate|]). constructor.
Qed.


(** X15.  [delete_question_set] removes a version and every assignment to
    it: for a stored id the call succeeds, the version no longer reads
    back, no assignment references it, every other version and assignment
    and all projects and records are as before, and the database's
    constraints still hold; for an unknown id it raises 404
    "Question set not found" and writes nothing. *)
Theorem delete_question_set_keeps_integrity
  (question_set_id : Z) (w : Models.World) :
  Vocab.database_ok w ->
  let run := Crud.delete_question_set question_set_id w in
  match Crud.get_question_set w question_set_id with
  | Some _ =>
      fst run = Models.Ok tt
      /\ Vocab.database_ok (snd run)
      /\ Crud.get_question_set (snd run) question_set_id = None
      /\ (forall r, In r (Models.project_question_sets (snd run)) <->
                    In r (Models.project_question_sets w)
                    /\ Models.pqs_question_set_id r <> question_set_id)
      /\ (forall q, In q (Models.question_sets (snd run)) <->
                    In q (Models.question_sets w) /\ Models.qs_id q <> question_set_id)
      /\ Models.projects (snd run) = Models.projects w
      /\ Models.records (snd run) = Models.records w
  | None => run = (Models.HTTPError 404 "Question set not found", w)
  end.
Proof.
  intros [Hok Hpairs] run. unfold run, Crud.delete_question_set, Models.bind,
    Models.get_world, Crud._get_or_404, Models.ret, Models.raise_http, Models.put_world.
  destruct (Crud.get_question_set w question_set_id) as [existing|] eqn:Eg;
    [|reflexivity].
  cbn [fst snd Models.project_question_sets Models.question_sets Models.projects
       Models.records Models.with_project_question_sets Models.with_question_sets].
  assert (Hrows : forall r,
             In r (filter (fun r => negb (Models.pqs_question_set_id r =? question_set_id)%Z)
                     (Models.project_question_sets w))
             <-> In r (Models.project_question_sets w)
                 /\ Models.pqs_question_set_id r <> question_set_id).
  { intro r. rewrite filter_In, negb_true_iff, Z.eqb_neq. tauto. }
  assert (Hsets : forall q,
             In q (filter (fun q => negb (Models.qs_id q =? question_set_id)%Z)
                     (Models.question_sets w))
             <-> In q (Models.question_sets w) /\ Models.qs_id q <> question_set_id).
  { intro q. rewrite filter_In, negb_true_iff, Z.eqb_neq. tauto. }
  split; [reflexivity|].
  split; [|split; [|split; [exact Hrows|split; [exact Hsets|split; reflexivity]]]].
  - split.
    + constructor; cbn [Models.project_question_sets Models.question_sets
                           Models.next_question_set_id
                           Models.with_project_question_sets Models.with_question_sets].
      * apply VersionFacts.NoDup_map_filter. apply (Spec.pqs_keys w Hok).
      * intros q Hq. apply Hsets in Hq. now apply (Spec.qs_keys_below w Hok).
      * intros r Hr. apply Hrows in Hr. destruct Hr as [Hr Hne].
        destruct (Spec.pqs_references w Hok r Hr) as (q & Hq & E).
        exists q. split; [|exact E]. apply Hsets. split; [exact Hq|congruence].
    + unfold Vocab.unique_pairs.
      cbn [Models.project_question_sets Models.with_project_question_sets].
      now apply VersionFacts.NoDup_map_filter.
  - unfold Crud.get_question_set.
    cbn [Models.question_sets Models.with_project_question_sets Models.with_question_sets].
    destruct (find _ (filter _ _)) as [q|] eqn:Ef; auto.
    apply find_some in Ef. destruct Ef as [Hin Hb].
    apply Hsets in Hin. apply Z.eqb_eq in Hb. tauto.
Qed.

Lemma delete_question_set_keeps_integrity_witness :
  let run := Crud.delete_question_set 1 Examples.daily_world in
  fst run = Models.Ok tt
  /\ Vocab.database_ok (snd run)
  /\ Crud.get_question_set (snd run) 1 = None
  /\ (forall r, In r (Models.project_question_sets (snd run)) <->
                In r (Models.project_question_sets Examples.daily_world)
                /\ Models.pqs_question_set_id r <> 1%Z)
  /\ (forall q, In q (Models.question_sets (snd run)) <->
                In q (Models.question_sets Examples.daily_world)
                /\ Models.qs_id q <> 1%Z)
  /\ Models.projects (snd run) = Models.projects Examples.daily_world
  /\ Models.records (snd run) = Models.records Examples.daily_world.
Proof.
  exact (delete_question_set_keeps_integrity 1 Examples.daily_world
           daily_world_integrity).
Defined.





(* ===================================================================== *)
(** ** Project access                                                     *)
(* ===================================================================== *)

Module AccessFacts.
Import Py Models Access.

Lemma mem_Z_In (x : Z) (l : list Z) : Crud.mem_Z x l = true <-> In x l.
Proof.
  unfold Crud.mem_Z. rewrite existsb_exists. split.
  - intros (y & Hy & E). apply Z.eqb_eq in E. now subst.
  - intro H. exists x. split; [exact H|apply Z.eqb_refl].
Qed.

Lemma forallb_fails {A} (f : A -> bool) (l : list A) :
  forallb f l = false -> exists a, In a l /\ f a = false.
Proof.
  induction l as [|a l IH]; cbn; [discriminate|].
  destruct (f a) eqn:E; cbn.
  - intro H. destruct (IH H) as (b & Hb & Hf). exists b. auto.
  - intros _. exists a. auto.
Qed.

Lemma insert_id_In (x y : Z) (l : list Z) : In y (insert_id x l) <-> y = x \/ In y l.
Proof.
  induction l as [|z l IH]; cbn.
  - intuition.
  - destruct (x <=? z)%Z; cbn; [intuition|]. rewrite IH. intuition.
Qed.

Lemma insert_id_NoDup (x : Z) (l : list Z) :
  ~ In x l -> NoDup l -> NoDup (insert_id x l).
Proof.
  induction l as [|z l IH]; cbn; intros Hx Hl.
  - constructor; auto.
  - destruct (x <=? z)%Z.
    + constructor; auto.
    + inv Hl. constructor.
      * rewrite insert_id_In. intuition.
      * apply IH; intuition.
Qed.

Lemma sorted_set_In (x : Z) (l : list Z) : In x (sorted_set l) <-> In x l.
Proof.
  unfold sorted_set. rewrite <- (nodup_In Z.eq_dec l x).
  induction (nodup Z.eq_dec l) as [|z l' IH]; cbn; [tauto|].
  rewrite insert_id_In, IH. intuition.
Qed.

Lemma sorted_set_NoDup (l : list Z) : NoDup (sorted_set l).
Proof.
  unfold sorted_set. pose proof (NoDup_nodup Z.eq_dec l) as H.
  induction H as [|z l' Hz Hl IH]; cbn; [constructor|].
  apply insert_id_NoDup; auto.
  intro Hin. apply Hz. clear - Hin.
  induction l' as [|y l' IH]; cbn in *; auto.
  apply insert_id_In in Hin. intuition.
Qed.

Lemma sorted_set_empty (l : list Z) : sorted_set l = [] <-> l = [].
Proof.
  split; [|now intros ->].
  intro H. destruct l as [|x l]; auto.
  assert (Hin : In x (sorted_set (x :: l))) by (apply sorted_set_In; now left).
  rewrite H in Hin. destruct Hin.
Qed.

(** The rows of one user and one kind, among old rows of other users and
    the rows added for the user. *)
Lemma rows_of_user (user_id : Z) (kind : string) (olds : list UserProjectAccess)
  (assigned banned : list Z) :
  (forall a, In a olds -> upa_user_id a <> user_id) ->
  map upa_project_id
    (filter (fun a => String.eqb (upa_access_type a) kind)
       (filter (fun a => (upa_user_id a =? user_id)%Z)
          (olds ++ map (grant user_id "assigned") assigned
                ++ map (grant user_id "banned") banned)))
  = (if String.eqb "assigned" kind then assigned else [])
    ++ (if String.eqb "banned" kind then banned else []).
Proof.
  intro Ho. rewrite !filter_app, !map_app.
  assert (E0 : filter (fun a => (upa_user_id a =? user_id)%Z) olds = []).
  { induction olds as [|a olds IH]; auto. cbn.
    destruct (upa_user_id a =? user_id)%Z eqn:E.
    - apply Z.eqb_eq in E. exfalso. apply (Ho a); [now left|exact E].
    - apply IH. intros b Hb. apply Ho. now right. }
  rewrite E0. cbn [filter map app].
  assert (Eg : forall k ids,
             map upa_project_id
               (filter (fun a => String.eqb (upa_access_type a) kind)
                  (filter (fun a => (upa_user_id a =? user_id)%Z)
                     (map (grant user_id k) ids)))
             = if String.eqb k kind then ids else []).
  { intros k ids. induction ids as [|x ids IH]; cbn.
    - now destruct (String.eqb k kind).
    - rewrite Z.eqb_refl. cbn. destruct (String.eqb k kind) eqn:E; cbn.
      + now rewrite IH.
      + exact IH. }
  now rewrite !Eg.
Qed.

Lemma other_users_rows (user_id u : Z) (olds added : list UserProjectAccess) :
  u <> user_id ->
  (forall a, In a added -> upa_user_id a = user_id) ->
  filter (fun a => (upa_user_id a =? u)%Z)
    (filter (fun a => negb (upa_user_id a =? user_id)%Z) olds ++ added)
  = filter (fun a => (upa_user_id a =? u)%Z) olds.
Proof.
  intros Hu Ha. rewrite filter_app.
  assert (E : filter (fun a => (upa_user_id a =? u)%Z) added = []).
  { induction added as [|a added IH]; auto. cbn.
    rewrite (Ha a (or_introl eq_refl)).
    destruct (user_id =? u)%Z eqn:E; [apply Z.eqb_eq in E; congruence|].
    apply IH. intros b Hb. apply Ha. now right. }
  rewrite E, app_nil_r.
  induction olds as [|a olds IH]; auto. cbn.
  destruct (upa_user_id a =? user_id)%Z eqn:E1; cbn.
  - apply Z.eqb_eq in E1.
    destruct (upa_user_id a =? u)%Z eqn:E2; [apply Z.eqb_eq in E2; congruence|].
    exact IH.
  - now rewrite IH.
Qed.

Lemma accessible_inv (t : Tables) (user_id : Z) (include_closed include_deleted : bool)
  (p : ProjectState) :
  accessible t user_id include_closed include_deleted p = true
  <-> (include_closed = true \/ ps_closed p = false)
      /\ (include_deleted = true \/ ps_deleted p = false)
      /\ (fst (get_user_access t user_id) = []
          \/ In (ps_id p) (fst (get_user_access t user_id)))
      /\ ~ In (ps_id p) (snd (get_user_access t user_id)).
Proof.
  unfold accessible.
  rewrite !andb_true_iff, !orb_true_iff, !negb_true_iff.
  set (assigned := fst (get_user_access t user_id)).
  set (banned := snd (get_user_access t user_id)).
  assert (Ha : match assigned with [] => true | _ => Crud.mem_Z (ps_id p) assigned end = true
               <-> assigned = [] \/ In (ps_id p) assigned).
  { destruct assigned as [|a l]; [intuition|].
    rewrite mem_Z_In. intuition discriminate. }
  assert (Hb : match banned with [] => true | _ => negb (Crud.mem_Z (ps_id p) banned) end = true
               <-> ~ In (ps_id p) banned).
  { destruct banned as [|b l]; [intuition|].
    rewrite negb_true_iff, <- mem_Z_In.
    destruct (Crud.mem_Z (ps_id p) (b :: l)); intuition congruence. }
  rewrite Ha, Hb. tauto.
Qed.

(** When the project with the id is returned. *)
Lemma require_ok_iff (t : Tables) (user_id project_id : Z) (include_closed : bool)
  (status : Z) (detail : string) :
  (exists p, _require_project_access t user_id project_id include_closed status detail
             = Ok p)
  <-> (exists p, In p (project_states t) /\ ps_id p = project_id
                 /\ ps_deleted p = false
                 /\ (include_closed = true \/ ps_closed p = false))
      /\ ~ In project_id (snd (get_user_access t user_id))
      /\ (fst (get_user_access t user_id) = []
          \/ In project_id (fst (get_user_access t user_id))).
Proof.
  unfold _require_project_access, accessible_projects_query. split.
  - intros (p & H). destruct (find _ _) as [p'|] eqn:Ef; inv H.
    apply find_some in Ef. destruct Ef as [Hin Hid]. apply Z.eqb_eq in Hid.
    apply filter_In in Hin. destruct Hin as [Hin Hacc].
    apply accessible_inv in Hacc. destruct Hacc as (Hc & Hd & Ha & Hb).
    rewrite Hid in Ha, Hb. split; [|auto].
    exists p. repeat split; auto.
    destruct Hd as [Hd|Hd]; [discriminate|exact Hd].
  - intros ((p & Hin & Hid & Hd & Hc) & Hb & Ha).
    destruct (find _ _) as [p'|] eqn:Ef; [eauto|].
    exfalso.
    assert (Hq : In p (filter (accessible t user_id include_closed false)
                         (project_states t))).
    { apply filter_In. split; [exact Hin|].
      apply accessible_inv. rewrite Hid. auto. }
    pose proof (find_none _ _ Ef p Hq) as Hf. cbv beta in Hf.
    rewrite Hid, Z.eqb_refl in Hf. discriminate.
Qed.

(** The lists of the user once [set_user_projects] has committed. *)
Lemma lists_after_set (t t' : Tables) (user_id : Z) (assigned banned : list Z) :
  set_user_projects t user_id assigned banned = Some t' ->
  get_user_access t' user_id = (sorted_set assigned, sorted_set banned)
  /\ project_states t' = project_states t
  /\ forall u, u <> user_id -> get_user_access t' u = get_user_access t u.
Proof.
  unfold set_user_projects. destruct (forallb _ _); [|discriminate].
  intro H. inv H.
  assert (Ho : forall a,
             In a (filter (fun a => negb (upa_user_id a =? user_id)%Z)
                     (user_project_access t)) ->
             upa_user_id a <> user_id).
  { intros a Ha. apply filter_In in Ha. destruct Ha as [_ Ha].
    apply negb_true_iff in Ha. now apply Z.eqb_neq. }
  split; [|split; [reflexivity|]].
  - unfold get_user_access. cbn [user_project_access].
    rewrite (rows_of_user user_id "assigned" _ _ _ Ho).
    rewrite (rows_of_user user_id "banned" _ _ _ Ho).
    cbn. now rewrite app_nil_r.
  - intros u Hu. unfold get_user_access. cbn [user_project_access].
    rewrite other_users_rows; auto.
    intros a Ha. apply in_app_or in Ha.
    destruct Ha as [Ha|Ha]; apply in_map_iff in Ha; destruct Ha as (x & <- & _);
      reflexivity.
Qed.

End AccessFacts.

(** X18.  The access rule.  [_require_project_access] returns a project only
    if the project has the id asked for, is not soft-deleted, is open
    unless closed projects are included, is not banned for the user and,
    when the user has any assignment, is assigned to them; when some stored
    project meets these conditions it returns one, and otherwise it raises
    the status and detail it was given.  A ban therefore wins over an
    assignment, and a soft-deleted project is accessible to nobody. *)
Theorem access_rule (t : Access.Tables) (user_id project_id : Z)
  (include_closed : bool) (status : Z) (detail : string) :
  let assigned := fst (Access.get_user_access t user_id) in
  let banned := snd (Access.get_user_access t user_id) in
  let granted (p : Access.ProjectState) :=
    In p (Access.project_states t)
    /\ Access.ps_id p = project_id
    /\ Access.ps_deleted p = false
    /\ (include_closed = true \/ Access.ps_closed p = false)
    /\ ~ In project_id banned
    /\ (assigned = [] \/ In project_id assigned) in
  (forall p, Access._require_project_access t user_id project_id include_closed
               status detail = Models.Ok p -> granted p)
  /\ ((exists p, granted p) ->
      exists p, Access._require_project_access t user_id project_id include_closed
                  status detail = Models.Ok p)
  /\ ((forall p, ~ granted p) ->
      Access._require_project_access t user_id project_id include_closed
        status detail = Models.HTTPError status detail)
  /\ (forall pid, In pid banned
                  <-> In (Access.grant user_id "banned" pid)
                        (Access.user_project_access t))
  /\ (forall pid, In pid assigned
                  <-> In (Access.grant user_id "assigned" pid)
                        (Access.user_project_access t)).
Proof.
  intros assigned banned granted.
  assert (Hsound : forall p,
             find (fun p => (Access.ps_id p =? project_id)%Z)
               (Access.accessible_projects_query t user_id include_closed false)
             = Some p -> granted p).
  { intros p Hf. apply find_some in Hf. destruct Hf as [Hin Hid].
    apply Z.eqb_eq in Hid.
    apply filter_In in Hin. destruct Hin as [Hin Hacc].
    apply AccessFacts.accessible_inv in Hacc.
    destruct Hacc as (Hc & Hd & Ha & Hb). rewrite Hid in Ha, Hb.
    unfold granted. repeat split; auto.
    destruct Hd as [Hd|Hd]; [discriminate|exact Hd]. }
  assert (Hcomplete : forall p, granted p ->
             find (fun p => (Access.ps_id p =? project_id)%Z)
               (Access.accessible_projects_query t user_id include_closed false)
             <> None).
  { intros p (Hin & Hid & Hd & Hc & Hb & Ha) Hn.
    assert (Hq : In p (Access.accessible_projects_query t user_id include_closed false)).
    { apply filter_In. split; [exact Hin|].
      apply AccessFacts.accessible_inv. rewrite Hid. auto. }
    pose proof (find_none _ _ Hn p Hq) as Hf. cbv beta in Hf.
    rewrite Hid, Z.eqb_refl in Hf. discriminate. }
  assert (Hrows : forall kind pid,
             In pid (map Access.upa_project_id
                       (filter (fun a => String.eqb (Access.upa_access_type a) kind)
                          (filter (fun a => (Access.upa_user_id a =? user_id)%Z)
                             (Access.user_project_access t))))
             <-> In (Access.grant user_id kind pid) (Access.user_project_access t)).
  { intros kind pid. rewrite in_map_iff. split.
    - intros (a & E & Ha). apply filter_In in Ha. destruct Ha as [Ha Hk].
      apply filter_In in Ha. destruct Ha as [Ha Hu].
      apply Z.eqb_eq in Hu. apply String.eqb_eq in Hk.
      destruct a as [u p k]. cbn in *. subst. exact Ha.
    - intro Ha. exists (Access.grant user_id kind pid). split; [reflexivity|].
      apply filter_In. split; [|apply String.eqb_refl].
      apply filter_In. split; [exact Ha|apply Z.eqb_refl]. }
  unfold Access._require_project_access.
  split; [|split; [|split; [|split]]].
  - intros p H. destruct (find _ _) as [p'|] eqn:Ef; inv H. now apply Hsound.
  - intros (p & Hp). destruct (find _ _) as [p'|] eqn:Ef; [eauto|].
    exfalso. now apply (Hcomplete p Hp).
  - intro Hno. destruct (find _ _) as [p'|] eqn:Ef; [|reflexivity].
    exfalso. apply (Hno p'). now apply Hsound.
  - intro pid. apply (Hrows "banned").
  - intro pid. apply (Hrows "assigned").
Qed.

(** X19.  Round trip of the access lists.  When [set_user_projects] commits,
    [get_user_access] returns for that user exactly the project ids that
    were given, each once, every other user's lists are as before and no
    project is touched; it fails (the commit raises) only if the user or
    one of the projects named does not exist. *)
Theorem access_lists_round_trip (t : Access.Tables) (user_id : Z)
  (assigned banned : list Z) :
  match Access.set_user_projects t user_id assigned banned with
  | Some t' =>
      (forall pid, In pid (fst (Access.get_user_access t' user_id)) <-> In pid assigned)
      /\ (forall pid, In pid (snd (Access.get_user_access t' user_id)) <-> In pid banned)
      /\ NoDup (fst (Access.get_user_access t' user_id))
      /\ NoDup (snd (Access.get_user_access t' user_id))
      /\ (fst (Access.get_user_access t' user_id) = [] <-> assigned = [])
      /\ (forall u, u <> user_id ->
                    Access.get_user_access t' u = Access.get_user_access t u)
      /\ Access.project_states t' = Access.project_states t
  | None =>
      exists pid, (In pid assigned \/ In pid banned)
                  /\ (~ In user_id (Access.user_ids t)
                      \/ forall p, In p (Access.project_states t) ->
                                   Access.ps_id p <> pid)
  end.
Proof.
  unfold Access.set_user_projects.
  destruct (forallb _ _) eqn:Ef.
  - assert (Ho : forall a,
               In a (filter (fun a => negb (Access.upa_user_id a =? user_id)%Z)
                       (Access.user_project_access t)) ->
               Access.upa_user_id a <> user_id).
    { intros a Ha. apply filter_In in Ha. destruct Ha as [_ Ha].
      apply negb_true_iff in Ha. now apply Z.eqb_neq. }
    assert (Ea : fst (Access.get_user_access
                        {| Access.user_ids := Access.user_ids t;
                           Access.project_states := Access.project_states t;
                           Access.user_project_access :=
                             filter (fun a => negb (Access.upa_user_id a =? user_id)%Z)
                               (Access.user_project_access t)
                             ++ map (Access.grant user_id "assigned")
                                  (Access.sorted_set assigned)
                             ++ map (Access.grant user_id "banned")
                                  (Access.sorted_set banned) |} user_id)
                 = Access.sorted_set assigned).
    { unfold Access.get_user_access. cbn [fst Access.user_project_access].
      rewrite (AccessFacts.rows_of_user user_id "assigned" _ _ _ Ho).
      cbn. apply app_nil_r. }
    assert (Eb : snd (Access.get_user_access
                        {| Access.user_ids := Access.user_ids t;
                           Access.project_states := Access.project_states t;
                           Access.user_project_access :=
                             filter (fun a => negb (Access.upa_user_id a =? user_id)%Z)
                               (Access.user_project_access t)
                             ++ map (Access.grant user_id "assigned")
                                  (Access.sorted_set assigned)
                             ++ map (Access.grant user_id "banned")
                                  (Access.sorted_set banned) |} user_id)
                 = Access.sorted_set banned).
    { unfold Access.get_user_access. cbn [snd Access.user_project_access].
      rewrite (AccessFacts.rows_of_user user_id "banned" _ _ _ Ho).
      reflexivity. }
    rewrite Ea, Eb.
    split; [intro; apply AccessFacts.sorted_set_In|].
    split; [intro; apply AccessFacts.sorted_set_In|].
    split; [apply AccessFacts.sorted_set_NoDup|].
    split; [apply AccessFacts.sorted_set_NoDup|].
    split; [apply AccessFacts.sorted_set_empty|].
    split; [|reflexivity].
    intros u Hu. unfold Access.get_user_access. cbn [Access.user_project_access].
    rewrite AccessFacts.other_users_rows; auto.
    intros a Ha. apply in_app_or in Ha.
    destruct Ha as [Ha|Ha]; apply in_map_iff in Ha; destruct Ha as (x & <- & _);
      reflexivity.
  - apply AccessFacts.forallb_fails in Ef. destruct Ef as (a & Ha & Hr).
    assert (Hpid : In (Access.upa_project_id a) assigned
                   \/ In (Access.upa_project_id a) banned).
    { apply in_app_or in Ha.
      destruct Ha as [Ha|Ha]; apply in_map_iff in Ha; destruct Ha as (x & <- & Hx);
        apply (proj1 (AccessFacts.sorted_set_In _ _)) in Hx;
        unfold Access.grant; cbn [Access.upa_project_id]; [left|right]; exact Hx. }
    assert (Hu : Access.upa_user_id a = user_id).
    { apply in_app_or in Ha.
      destruct Ha as [Ha|Ha]; apply in_map_iff in Ha; destruct Ha as (x & <- & _);
        reflexivity. }
    exists (Access.upa_project_id a). split; [exact Hpid|].
    unfold Access.references_ok in Hr. apply andb_false_iff in Hr.
    destruct Hr as [Hr|Hr].
    + left. intro Hin. apply AccessFacts.mem_Z_In in Hin. congruence.
    + right. intros p Hp E.
      assert (Ht : existsb (fun p => (Access.ps_id p =? Access.upa_project_id a)%Z)
                     (Access.project_states t) = true).
      { apply existsb_exists. exists p. split; [exact Hp|now apply Z.eqb_eq]. }
      congruence.
Qed.

(** X20.  Granting and checking compose: once [set_user_projects] has
    committed the lists [assigned] and [banned] for a user, the access check
    lets that user into a project exactly when the project is stored, not
    soft-deleted, open (unless closed projects are included), not in
    [banned], and in [assigned] unless [assigned] is empty. *)
Theorem access_after_set_user_projects (t t' : Access.Tables) (user_id project_id : Z)
  (assigned banned : list Z) (include_closed : bool) (status : Z) (detail : string) :
  Access.set_user_projects t user_id assigned banned = Some t' ->
  (exists p, Access._require_project_access t' user_id project_id include_closed
               status detail = Models.Ok p)
  <-> (exists p, In p (Access.project_states t) /\ Access.ps_id p = project_id
                 /\ Access.ps_deleted p = false
                 /\ (include_closed = true \/ Access.ps_closed p = false))
      /\ ~ In project_id banned
      /\ (assigned = [] \/ In project_id assigned).
Proof.
  intro Hset.
  destruct (AccessFacts.lists_after_set _ _ _ _ _ Hset) as (Hl & Hp & _).
  rewrite AccessFacts.require_ok_iff, Hl, Hp. cbn [fst snd].
  rewrite !AccessFacts.sorted_set_In, AccessFacts.sorted_set_empty.
  reflexivity.
Qed.

Lemma access_after_set_user_projects_witness :
  (exists p, Access._require_project_access
               {| Access.user_ids := [5%Z];
                  Access.project_states := Cases.three_projects;
                  Access.user_project_access :=
                    [Access.grant 5 "assigned" 1; Access.grant 5 "assigned" 2;
                     Access.grant 5 "banned" 2] |}
               5 1 false 403 "No access to project" = Models.Ok p)
  <-> (exists p, In p Cases.three_projects /\ Access.ps_id p = 1%Z
                 /\ Access.ps_deleted p = false
                 /\ (false = true \/ Access.ps_closed p = false))
      /\ ~ In 1%Z [2%Z]
      /\ ([2%Z; 1%Z; 2%Z] = [] \/ In 1%Z [2%Z; 1%Z; 2%Z]).
Proof.
  apply (access_after_set_user_projects
           {| Access.user_ids := [5%Z];
              Access.project_states := Cases.three_projects;
              Access.user_project_access := [] |}
           _ 5 1 [2%Z; 1%Z; 2%Z] [2%Z] false 403 "No access to project").
  reflexivity.
Defined.

(** A ban wins over an assignment; a project that is neither banned nor
    left out is let through; a soft-deleted one is not. *)
Example ban_wins_over_assignment :
  let t := {| Access.user_ids := [5%Z];
              Access.project_states := Cases.three_projects;
              Access.user_project_access :=
                [Access.grant 5 "assigned" 1; Access.grant 5 "assigned" 2;
                 Access.grant 5 "assigned" 3; Access.grant 5 "banned" 2] |} in
  map (fun pid => Access._require_project_access t 5 pid true 403 "No access to project")
    [1%Z; 2%Z; 3%Z]
  = [Models.Ok {| Access.ps_id := 1; Access.ps_closed := false;
                  Access.ps_deleted := false |};
     Models.HTTPError 403 "No access to project";
     Models.HTTPError 403 "No access to project"].
Proof. reflexivity. Qed.

(* ===================================================================== *)
(** ** Reading answers back, and ingestion end to end                     *)
(* ===================================================================== *)

Module KeyFacts.
Import Py Models PyFacts Spec Vocab.

Lemma append_char (cur : string) (c : ascii) (s : string) :
  ((cur ++ String c EmptyString) ++ s)%string = (cur ++ String c s)%string.
Proof. induction cur as [|a cur IH]; cbn; auto. now rewrite IH. Qed.

Lemma append_empty (s : string) : (s ++ "")%string = s.
Proof. induction s as [|a s IH]; cbn; auto. now rewrite IH. Qed.

Lemma split_on_free (w : string) : forall cur s,
  comma_free w = true ->
  Main.split_on "," cur (w ++ s) = Main.split_on "," (cur ++ w) s.
Proof.
  induction w as [|c w IH]; intros cur s H.
  - cbn. now rewrite append_empty.
  - cbn in H. apply andb_true_iff in H. destruct H as [Hc Hw].
    apply negb_true_iff in Hc.
    cbn [append Main.split_on]. rewrite Hc, IH by exact Hw.
    now rewrite append_char.
Qed.

(** Joining comma-free keys with commas and splitting again is the
    identity. *)
Lemma split_on_join (l : list string) :
  l <> [] -> Forall (fun k => comma_free k = true) l ->
  Main.split_on "," "" (join "," l) = l.
Proof.
  intros Hne H. induction H as [|w l Hw Hl IH]; [contradiction|].
  destruct l as [|w' l'].
  - cbn [join String.concat]. rewrite <- (append_empty w) at 1.
    rewrite split_on_free by exact Hw. reflexivity.
  - change (join "," (w :: w' :: l'))
      with ((w ++ String "," (join "," (w' :: l')))%string).
    rewrite split_on_free by exact Hw.
    cbn [Main.split_on append]. cbn [Ascii.eqb Bool.eqb].
    rewrite IH by discriminate. reflexivity.
Qed.

Lemma join_nonempty (l : list string) (w : string) :
  w <> "" -> join "," (w :: l) <> "".
Proof.
  intro Hw. destruct w as [|c w]; [contradiction|].
  destruct l; cbn; discriminate.
Qed.

Lemma keyset_of_join (l : list string) :
  l <> [] -> Forall clean_key l -> Main.keyset (join "," l) = l.
Proof.
  intros Hne H. unfold Main.keyset.
  rewrite split_on_join; auto.
  - induction H as [|k l (Hk & _ & Hs) _ IH]; auto.
    cbn [map filter]. rewrite Hs. unfold Utils.nonempty at 1.
    destruct (String.eqb k "") eqn:E; [apply String.eqb_eq in E; contradiction|].
    cbn [negb]. f_equal.
    destruct l; [reflexivity|]. apply IH. discriminate.
  - eapply Forall_impl; [|exact H]. intros k (_ & Hc & _). exact Hc.
Qed.

End KeyFacts.

(** X21.  The [keys] parameter of the record endpoints round-trips: a
    request for the clean keys [k1, ..., kn] (not empty, no comma, no
    surrounding white space) joined by commas returns exactly the answers
    stored under those keys, in the record's order; an absent or empty
    parameter returns every answer, and a parameter that names no key
    (commas and white space only) returns none. *)
Theorem requested_keys_select_their_answers (ans : Py.dict) :
  (forall l, l <> [] -> Forall Vocab.clean_key l ->
             Main.select_answers (Some (Py.join "," l)) ans
             = filter (fun kv => Py.str_in (fst kv) l) ans)
  /\ Main.select_answers None ans = ans
  /\ Main.select_answers (Some "") ans = ans
  /\ (forall ks, ks <> "" -> Main.keyset ks = [] ->
                 Main.select_answers (Some ks) ans = []).
Proof.
  split; [|split; [reflexivity|split; [reflexivity|]]].
  - intros l Hne Hl. unfold Main.select_answers.
    rewrite KeyFacts.keyset_of_join by assumption.
    destruct l as [|w l]; [contradiction|].
    inversion Hl as [|? ? (Hw & _ & _) _]; subst.
    destruct (String.eqb (Py.join "," (w :: l)) "") eqn:E; [|reflexivity].
    apply String.eqb_eq in E. exfalso. now apply (KeyFacts.join_nonempty l w).
  - intros ks Hks Hk. unfold Main.select_answers.
    destruct (String.eqb ks "") eqn:E; [apply String.eqb_eq in E; contradiction|].
    rewrite Hk. induction ans as [|kv ans IH]; cbn; auto.
Qed.

(** The key list [" q-age , q-name,"] against a record. *)
Example select_two_answers :
  Main.select_answers (Some " q-age , q-name,")
    [("q-name", Py.JStr "Ada"); ("q-notes", Py.JStr "-"); ("q-age", Py.JInt 41)]
  = [("q-name", Py.JStr "Ada"); ("q-age", Py.JInt 41)]
  /\ Main.select_answers (Some " , ")
       [("q-name", Py.JStr "Ada"); ("q-notes", Py.JStr "-"); ("q-age", Py.JInt 41)]
     = [].
Proof. split; reflexivity. Qed.

Lemma requested_keys_select_their_answers_witness :
  Main.select_answers (Some (Py.join "," ["q-age"; "q-name"]))
    [("q-name", Py.JStr "Ada"); ("q-notes", Py.JStr "-"); ("q-age", Py.JInt 41)]
  = filter (fun kv => Py.str_in (fst kv) ["q-age"; "q-name"])
      [("q-name", Py.JStr "Ada"); ("q-notes", Py.JStr "-"); ("q-age", Py.JInt 41)].
Proof.
  apply (proj1 (requested_keys_select_their_answers
                  [("q-name", Py.JStr "Ada"); ("q-notes", Py.JStr "-");
                   ("q-age", Py.JInt 41)])).
  - discriminate.
  - repeat constructor; discriminate.
Defined.

Module IngestFacts.
Import Py Models PyFacts Spec Vocab.

Section WithRuntime.
Context `{R : Runtime}.

Lemma no_unknown_keys (ql : list (string * dict)) (keys : list string) :
  (forall k, In k keys -> assoc_get k ql <> None) ->
  filter (fun k => match assoc_get k ql with Some _ => false | None => true end) keys
  = [].
Proof.
  induction keys as [|k keys IH]; intro H; auto.
  cbn [filter]. destruct (assoc_get k ql) eqn:E.
  - apply IH. intros k' Hk'. apply H. now right.
  - exfalso. apply (H k); [now left|exact E].
Qed.

(** An ingestion without unknown keys is the completeness check on the
    payload. *)
Lemma known_keys_run (project_id user_id : Z) (payload : dict) (w w0 : World)
  (st : Main.Ingest) :
  Main.start_ingest project_id payload w = (Ok (st, []), w0) ->
  Main.create_record project_id user_id payload w
  = Main.check_and_store project_id user_id st w0.
Proof.
  intro Hs. unfold Main.create_record, bind. rewrite Hs.
  cbn [fst snd Main.resolve_keys]. unfold ret. reflexivity.
Qed.


End WithRuntime.
End IngestFacts.



(** A number posted for the short-text question "Name" is stored as it is. *)
Example number_for_a_text_question :
  map Models.rec_answers
    (Models.records
       (snd (Main.create_record (R := Sample.runtime) 1 5 [("q-name", Py.JInt 7)]
               Examples.strict_world)))
  = [[("q-name", Py.JInt 7)]].
Proof. reflexivity. Qed.

(** X23.  An unknown UUID key needs metadata.  When the first key of the
    payload that is not a question id parses as a UUID and its value is not
    an object with a truthy [text] or [question], the ingestion answers
    400 with "Unknown question id: <key>. ..." and nothing has been written:
    no record, no question. *)
Theorem unknown_uuid_key_without_metadata_is_rejected `{R : Py.Runtime}
  (project_id user_id : Z) (payload : Py.dict) (w w0 : Models.World)
  (st : Main.Ingest) (k : string) (rest : list string) (v : Py.json) :
  Main.start_ingest project_id payload w = (Models.Ok (st, k :: rest), w0) ->
  Main._is_uuid k = true ->
  Py.dict_get k payload = Some v ->
  Vocab.carries_label v = false ->
  Main.create_record project_id user_id payload w
  = (Models.HTTPError 400
       ("Unknown question id: " ++ k ++
        ". Provide question metadata or use a human-readable label as the key."),
     w0)
  /\ Spec.same_database w w0.
Proof.
  intros Hs Hu Hv Hl.
  destruct (FormFacts.start_ingest_ok _ _ _ _ _ _ Hs)
    as (p & custom & vqs & ql & Hp & Hcan & Hdb & Hvq & Hql & Hst & Hun).
  split; [|exact Hdb].
  unfold Main.create_record, Models.bind. rewrite Hs.
  cbn [fst snd Main.resolve_keys]. unfold Models.bind.
  assert (Er : Main.resolve_key project_id st k w0
               = (Models.HTTPError 400 (Main.unknown_key_detail k), w0)).
  { unfold Main.resolve_key, Models.bind, Models.run_opt.
    rewrite Hst. cbn [Main.answers Main.qlookup Main.label_to_qid]. rewrite Hv.
    rewrite Hu.
    destruct v; cbn [Py.is_dict andb negb]; try reflexivity.
    cbn [Vocab.carries_label] in Hl. rewrite Hl. reflexivity. }
  rewrite Er. reflexivity.
Qed.

Lemma unknown_uuid_key_without_metadata_is_rejected_witness :
  Main.create_record (R := Sample.runtime) 1 5
    [("123e4567-e89b-42d3-a456-426614174000", Py.JStr "positive")]
    Examples.strict_world
  = (Models.HTTPError 400
       ("Unknown question id: " ++ "123e4567-e89b-42d3-a456-426614174000" ++
        ". Provide question metadata or use a human-readable label as the key."),
     Models.with_uuids_drawn Examples.strict_world 1)
  /\ Spec.same_database Examples.strict_world
       (Models.with_uuids_drawn Examples.strict_world 1).
Proof.
  apply (unknown_uuid_key_without_metadata_is_rejected (R := Sample.runtime) 1 5
           [("123e4567-e89b-42d3-a456-426614174000", Py.JStr "positive")]
           Examples.strict_world (Models.with_uuids_drawn Examples.strict_world 1)
           {| Main.qlookup :=
                [("q-name", Crud.lookup_entry
                              [("id", Py.JStr "q-name"); ("text", Py.JStr "Name");
                               ("type", Py.JStr "short_text");
                               ("required", Py.JBool true)])];
              Main.label_to_qid := [("name", "q-name")];
              Main.answers :=
                [("123e4567-e89b-42d3-a456-426614174000", Py.JStr "positive")] |}
           "123e4567-e89b-42d3-a456-426614174000" [] (Py.JStr "positive")).
  - reflexivity.
  - reflexivity.
  - reflexivity.
  - reflexivity.
Defined.

(* ===================================================================== *)
(** ** Invites                                                            *)
(* ===================================================================== *)

Module InviteFacts.
Import Py Models Invites.

Lemma find_marked (key : string) (id user_id : Z) (l : list Invite) (invite : Invite) :
  find (fun i => String.eqb (inv_key i) key) l = Some invite ->
  inv_id invite = id ->
  find (fun i => String.eqb (inv_key i) key)
    (map (fun i => if (inv_id i =? id)%Z then mark_used user_id i else i) l)
  = Some (mark_used user_id invite).
Proof.
  intros Hf Hid. induction l as [|i l IH]; [discriminate|].
  cbn [find map] in *.
  destruct (String.eqb (inv_key i) key) eqn:E.
  - inv Hf. rewrite Z.eqb_refl. cbn [mark_used inv_key]. now rewrite E.
  - destruct (inv_id i =? id)%Z; cbn [mark_used inv_key]; rewrite E; auto.
Qed.

Lemma find_last (key : string) (l : list Invite) (invite : Invite) :
  existsb (fun i => String.eqb (inv_key i) key) l = false ->
  inv_key invite = key ->
  find (fun i => String.eqb (inv_key i) key) (l ++ [invite]) = Some invite.
Proof.
  intros Hn Hk. induction l as [|i l IH]; cbn in *.
  - now rewrite Hk, String.eqb_refl.
  - destruct (String.eqb (inv_key i) key); [discriminate|auto].
Qed.

Lemma not_registered (email : string) (l : list User) :
  (forall u, In u l -> u_email u <> email) ->
  existsb (fun u => String.eqb (u_email u) email) l = false.
Proof.
  intro H. induction l as [|u l IH]; auto. cbn.
  destruct (String.eqb (u_email u) email) eqn:E.
  - apply String.eqb_eq in E. exfalso. apply (H u); [now left|exact E].
  - apply IH. intros u' Hu'. apply H. now right.
Qed.

End InviteFacts.

(** X24.  An invite is used once: after [use_invite_and_create_user] has
    created a user with an invite key, every later call with that key,
    whatever the secret and the email, raises 400
    "Invalid or used invite key" and writes nothing. *)
Theorem invite_is_single_use (sha256_hex : string -> string)
  (key secret email password_hash : string) (make_admin : bool)
  (t t' : Invites.Tables) (user : Invites.User) :
  Invites.use_invite_and_create_user sha256_hex key secret email password_hash
    make_admin t = (Models.Ok user, t') ->
  forall secret' email' password_hash' make_admin',
    Invites.use_invite_and_create_user sha256_hex key secret' email' password_hash'
      make_admin' t'
    = (Models.HTTPError 400 "Invalid or used invite key", t').
Proof.
  unfold Invites.use_invite_and_create_user at 1.
  destruct (find _ (Invites.invites t)) as [invite|] eqn:Ef; [|discriminate].
  destruct (Invites.inv_used invite); [discriminate|].
  destruct (negb _); [discriminate|].
  destruct (Invites.email_mismatch invite email); [discriminate|].
  destruct (existsb _ (Invites.users t)); [discriminate|].
  intro H. inv H. intros secret' email' password_hash' make_admin'.
  unfold Invites.use_invite_and_create_user. cbn [Invites.invites Invites.u_id].
  rewrite (InviteFacts.find_marked key (Invites.inv_id invite) _ _ invite Ef eq_refl).
  reflexivity.
Qed.

Lemma invite_is_single_use_witness :
  Invites.use_invite_and_create_user Cases.toy_hash "key-1" "secret-1"
    "eve@example.org" "pw2" false
    (snd (Invites.use_invite_and_create_user Cases.toy_hash "key-1" "secret-1"
            "ada@example.org" "pw" true Cases.invite_tables))
  = (Models.HTTPError 400 "Invalid or used invite key",
     snd (Invites.use_invite_and_create_user Cases.toy_hash "key-1" "secret-1"
            "ada@example.org" "pw" true Cases.invite_tables)).
Proof.
  apply (invite_is_single_use Cases.toy_hash "key-1" "secret-1" "ada@example.org"
           "pw" true Cases.invite_tables _
           {| Invites.u_id := 1; Invites.u_email := "ada@example.org";
              Invites.u_password_hash := "pw"; Invites.u_is_admin := true |}).
  reflexivity.
Defined.

(** X25.  The secret handed out opens the invite.  With the key and the
    secret that [create_invite] returned, [use_invite_and_create_user]
    creates the user (lower-cased email, the given password hash and admin
    flag) whenever the email fits the invite's binding and is not yet
    registered; with that key, a secret of another hash is refused with 400
    "Invalid secret" and writes nothing. *)
Theorem issued_secret_opens_the_invite (sha256_hex : string -> string)
  (new_key : nat -> nat -> string) (binding : option string)
  (t t' : Invites.Tables) (key secret : string)
  (email password_hash : string) (make_admin : bool) :
  Invites.create_invite sha256_hex new_key binding t = (Models.Ok (key, secret), t') ->
  match binding with
  | Some e => e = "" \/ Py.lower e = Py.lower email
  | None => True
  end ->
  (forall u, In u (Invites.users t) -> Invites.u_email u <> Py.lower email) ->
  (exists user t'',
      Invites.use_invite_and_create_user sha256_hex key secret email password_hash
        make_admin t' = (Models.Ok user, t'')
      /\ Invites.u_email user = Py.lower email
      /\ Invites.u_password_hash user = password_hash
      /\ Invites.u_is_admin user = make_admin
      /\ Invites.users t'' = Invites.users t ++ [user])
  /\ forall other,
      sha256_hex other <> sha256_hex secret ->
      Invites.use_invite_and_create_user sha256_hex key other email password_hash
        make_admin t'
      = (Models.HTTPError 400 "Invalid secret", t').
Proof.
  unfold Invites.create_invite.
  destruct (existsb _ (Invites.invites t)) eqn:Ee; [discriminate|].
  intros H Hb Hu. inv H.
  set (invite := {| Invites.inv_id := Invites.next_invite_id t;
                 Invites.inv_key := new_key 18 (Invites.tokens_drawn t);
                 Invites.inv_secret_hash :=
                   sha256_hex (new_key 18 (S (Invites.tokens_drawn t)));
                 Invites.inv_email := binding;
                 Invites.inv_used := false;
                 Invites.inv_used_by_user_id := None |}).
  assert (Ef : find (fun i => String.eqb (Invites.inv_key i)
                                (new_key 18 (Invites.tokens_drawn t)))
                 (Invites.invites t ++ [invite]) = Some invite)
    by now apply InviteFacts.find_last.
  split.
  - unfold Invites.use_invite_and_create_user.
    cbn [Invites.invites Invites.users]. rewrite Ef.
    cbn [invite Invites.inv_used Invites.inv_secret_hash].
    rewrite String.eqb_refl. cbn [negb].
    assert (Em : Invites.email_mismatch invite email = false).
    { unfold Invites.email_mismatch. cbn [invite Invites.inv_email].
      destruct binding as [e|]; auto.
      destruct Hb as [->|Hb]; [reflexivity|].
      rewrite Hb, String.eqb_refl. now rewrite andb_false_r. }
    fold invite. rewrite Em.
    rewrite (InviteFacts.not_registered _ _ Hu).
    do 2 eexists. split; [reflexivity|]. cbn. auto.
  - intros other Hne. unfold Invites.use_invite_and_create_user.
    cbn [Invites.invites]. rewrite Ef.
    cbn [invite Invites.inv_used Invites.inv_secret_hash].
    destruct (String.eqb (sha256_hex other)
                (sha256_hex (new_key 18 (S (Invites.tokens_drawn t))))) eqn:E;
      [apply String.eqb_eq in E; contradiction|reflexivity].
Qed.

(** X26.  A user is created only against an unused invite whose secret
    matches: when [use_invite_and_create_user] returns, the table held an
    unused invite with the key whose stored hash is the hash of the secret,
    exactly one user was appended, with a fresh id and the lower-cased
    email, that email was not registered before, and emails that were
    pairwise distinct still are; when it raises, nothing was written. *)
Theorem registration_needs_a_valid_invite (sha256_hex : string -> string)
  (key secret email password_hash : string) (make_admin : bool)
  (t t' : Invites.Tables) (out : Models.outcome Invites.User) :
  Invites.use_invite_and_create_user sha256_hex key secret email password_hash
    make_admin t = (out, t') ->
  match out with
  | Models.Ok user =>
      (exists invite, In invite (Invites.invites t)
                      /\ Invites.inv_key invite = key
                      /\ Invites.inv_used invite = false
                      /\ Invites.inv_secret_hash invite = sha256_hex secret)
      /\ Invites.users t' = Invites.users t ++ [user]
      /\ Invites.u_id user = Invites.next_user_id t
      /\ Invites.u_email user = Py.lower email
      /\ ~ In (Py.lower email) (map Invites.u_email (Invites.users t))
      /\ (NoDup (map Invites.u_email (Invites.users t)) ->
          NoDup (map Invites.u_email (Invites.users t')))
  | _ => t' = t
  end.
Proof.
  unfold Invites.use_invite_and_create_user.
  destruct (find _ (Invites.invites t)) as [invite|] eqn:Ef; [|intro H; now inv H].
  destruct (Invites.inv_used invite) eqn:Eu; [intro H; now inv H|].
  destruct (String.eqb (sha256_hex secret) (Invites.inv_secret_hash invite)) eqn:Es;
    cbn [negb]; [|intro H; now inv H].
  destruct (Invites.email_mismatch invite email); [intro H; now inv H|].
  destruct (existsb _ (Invites.users t)) eqn:Ee; [intro H; now inv H|].
  intro H. inv H. cbn [Invites.users Invites.u_id Invites.u_email].
  apply find_some in Ef. destruct Ef as [Hin Hk].
  apply String.eqb_eq in Hk. apply String.eqb_eq in Es.
  assert (Hnew : ~ In (Py.lower email) (map Invites.u_email (Invites.users t))).
  { intro Hi. apply in_map_iff in Hi. destruct Hi as (u & E & Hu).
    assert (Ht : existsb (fun u => String.eqb (Invites.u_email u) (Py.lower email))
                   (Invites.users t) = true).
    { apply existsb_exists. exists u. split; [exact Hu|]. rewrite E.
      apply String.eqb_refl. }
    congruence. }
  split; [exists invite; auto|]. split; [reflexivity|]. split; [reflexivity|].
  split; [reflexivity|]. split; [exact Hnew|].
  intro Hnd. rewrite map_app. cbn [map Invites.u_email].
  eapply Permutation_NoDup; [apply Permutation_cons_append|].
  constructor; assumption.
Qed.

Lemma issued_secret_opens_the_invite_witness :
  let t' := snd (Invites.create_invite Cases.toy_hash Cases.toy_key None
                   Cases.invite_tables) in
  (exists user t'',
      Invites.use_invite_and_create_user Cases.toy_hash "k0" "k1" "Bob@Example.org"
        "pw" false t' = (Models.Ok user, t'')
      /\ Invites.u_email user = "bob@example.org"
      /\ Invites.u_password_hash user = "pw"
      /\ Invites.u_is_admin user = false
      /\ Invites.users t'' = Invites.users Cases.invite_tables ++ [user])
  /\ forall other,
      Cases.toy_hash other <> Cases.toy_hash "k1" ->
      Invites.use_invite_and_create_user Cases.toy_hash "k0" other "Bob@Example.org"
        "pw" false t'
      = (Models.HTTPError 400 "Invalid secret", t').
Proof.
  intro t'.
  apply (issued_secret_opens_the_invite Cases.toy_hash Cases.toy_key None
           Cases.invite_tables t' "k0" "k1" "Bob@Example.org" "pw" false).
  - reflexivity.
  - exact I.
  - intros u [].
Defined.

Lemma registration_needs_a_valid_invite_witness :
  let run := Invites.use_invite_and_create_user Cases.toy_hash "key-1" "secret-1"
               "ADA@example.org" "pw" true Cases.invite_tables in
  match fst run with
  | Models.Ok user =>
      (exists invite, In invite (Invites.invites Cases.invite_tables)
                      /\ Invites.inv_key invite = "key-1"
                      /\ Invites.inv_used invite = false
                      /\ Invites.inv_secret_hash invite = Cases.toy_hash "secret-1")
      /\ Invites.users (snd run) = Invites.users Cases.invite_tables ++ [user]
      /\ Invites.u_id user = Invites.next_user_id Cases.invite_tables
      /\ Invites.u_email user = Py.lower "ADA@example.org"
      /\ ~ In (Py.lower "ADA@example.org")
             (map Invites.u_email (Invites.users Cases.invite_tables))
      /\ (NoDup (map Invites.u_email (Invites.users Cases.invite_tables)) ->
          NoDup (map Invites.u_email (Invites.users (snd run))))
  | _ => snd run = Cases.invite_tables
  end.
Proof.
  intro run.
  apply (registration_needs_a_valid_invite Cases.toy_hash "key-1" "secret-1"
           "ADA@example.org" "pw" true Cases.invite_tables (snd run) (fst run)).
  apply surjective_pairing.
Defined.

(** The invite of the example: a wrong secret, another email, the right
    call, and the same call again. *)
Example invite_walkthrough :
  let use := fun secret email t =>
               Invites.use_invite_and_create_user Cases.toy_hash "key-1" secret email
                 "pw" true t in
  fst (use "guess" "ada@example.org" Cases.invite_tables)
  = Models.HTTPError 400 "Invalid secret"
  /\ fst (use "secret-1" "eve@example.org" Cases.invite_tables)
     = Models.HTTPError 400 "Email does not match invite"
  /\ fst (use "secret-1" "ADA@example.org" Cases.invite_tables)
     = Models.Ok {| Invites.u_id := 1; Invites.u_email := "ada@example.org";
                    Invites.u_password_hash := "pw"; Invites.u_is_admin := true |}
  /\ fst (use "secret-1" "ADA@example.org"
            (snd (use "secret-1" "ADA@example.org" Cases.invite_tables)))
     = Models.HTTPError 400 "Invalid or used invite key".
Proof. repeat split. Qed.
(* ===================================================================== *)
(** ** Questions posted with their metadata                               *)
(* ===================================================================== *)

Module MetaFacts.
Import Py Models PyFacts Spec Vocab LookupFacts FormFacts ReindexFacts AddFacts.
Import DedupFacts.
Local Open Scope handler_scope.

Section WithRuntime.
Context `{R : Runtime}.

(** The value the type inference hands back: the posted one, or its
    yes/no form when it is a boolean. *)
Lemma infer_type_value (date_test : string -> bool) (q : dict) (raw : json) :
  snd (Utils.infer_type date_test q raw) = raw
  \/ exists b, raw = JBool b
               /\ snd (Utils.infer_type date_test q raw) = Utils.normalize_yes_no raw.
Proof.
  unfold Utils.infer_type. destruct (negb (dict_has "type" q)); [|now left].
  destruct raw; try (left; reflexivity).
  - right. eauto.
  - destruct (date_test s); left; reflexivity.
Qed.

(** The value inferred from the object the handler builds from the
    metadata. *)
Lemma infer_with_value (date_test : string -> bool) (label : string) (t v : json)
  (n : nat) (q : dict) (nv : json) :
  Utils.infer_with date_test label (JDict [("type", t); ("value", v)]) n
  = Some ((q, nv), S n) ->
  nv = v \/ nv = Utils.normalize_yes_no v.
Proof.
  unfold Utils.infer_with, Utils.gbind, Utils.fresh_uuid, Utils.gret.
  cbv zeta. intro E. injection E as _ Env. rewrite <- Env.
  change (get_or_null "value" [("type", t); ("value", v)]) with v.
  match goal with
  | |- context [Utils.infer_type ?dt ?q1 v] =>
      destruct (infer_type_value dt q1 v) as [Hv|(b & Hb & Hv)]; rewrite Hv
  end.
  - destruct (eq_str _ _); auto.
  - right. destruct (eq_str _ _); [|reflexivity]. rewrite Hb. now destruct b.
Qed.

(** The inference on the object the handler builds from the metadata. *)
Lemma meta_inference (date_test : string -> bool) (label k : string) (t v : json)
  (n : nat) :
  exists q nv,
    Utils.infer_with date_test label (JDict [("type", t); ("value", v)]) n
    = Some ((q, nv), S n)
    /\ (nv = v \/ nv = Utils.normalize_yes_no v)
    /\ (forall u, Crud.new_custom_question (dict_set "id" (JStr k) q) u
                  = dict_set "id" (JStr k) q)
    /\ files_under (JDict (dict_set "id" (JStr k) q)) k (JStr (strip label)).
Proof.
  destruct (InferenceFacts.infer_with_required date_test label
              (JDict [("type", t); ("value", v)]) n)
    as (q & nv & E & Hr & (ty & Ht)).
  destruct (infer_with_fields date_test label (JDict [("type", t); ("value", v)]) n)
    as (q' & nv' & E' & (d & id & Ed & Hid & _ & Htx) & _).
  rewrite E in E'. injection E' as Eq _. rewrite <- Eq in Ed.
  injection Ed as Ed. rewrite <- Ed in Htx.
  exists q, nv. split; [exact E|]. split; [|split].
  - exact (infer_with_value _ _ _ _ _ _ _ E).
  - intro u. unfold Crud.new_custom_question.
    rewrite (setdefault_present "required" _ (JBool false))
      by (rewrite dict_get_set_other by discriminate; exact Hr).
    rewrite (setdefault_present "type" _ (JStr ty))
      by (rewrite dict_get_set_other by discriminate; exact Ht).
    apply (setdefault_present "id" _ (JStr k)). apply dict_get_set_same.
  - exists (dict_set "id" (JStr k) q), (JStr k). repeat split.
    + apply dict_get_set_same.
    + rewrite get_or_null_set_other by discriminate. exact Htx.
Qed.

(** One turn of the loop on a UUID that comes with metadata. *)
Lemma resolve_key_meta (project_id : Z) (st : Main.Ingest) (k : string) (meta : dict)
  (w : World) :
  Main.answers st = [(k, JDict meta)] ->
  Main._is_uuid k = true ->
  carries_label (JDict meta) = true ->
  Main.resolve_key project_id st k w
  = match Main.existing_qid (Main.label_to_qid st) (Main._norm_label (label_of meta)) with
    | Some qid =>
        (r <- run_gen (Main._infer_question_from_value (py_str (label_of meta))
                         (JDict [("type", get_or_null "type" meta);
                                 ("value", posted_value meta)])) ;;
         ret (Main.set_answer (emptied st) qid (snd r))) w
    | None =>
        (r <- run_gen (Main._infer_question_from_value (py_str (label_of meta))
                         (JDict [("type", get_or_null "type" meta);
                                 ("value", posted_value meta)])) ;;
         Crud.add_project_custom_question project_id "Auto-created"
           (dict_set "id" (JStr k) (fst r)) ;;;
         st' <- Main.refresh_lookup project_id (emptied st) ;;
         ret (Main.set_answer st' k (snd r))) w
    end.
Proof.
  intros Ha Hu Hl. unfold Main.resolve_key. rewrite Ha, Hu.
  unfold bind at 1. unfold run_opt. cbn [dict_get]. rewrite String.eqb_refl.
  cbn [is_dict andb dict_remove]. rewrite String.eqb_refl.
  cbn [carries_label] in Hl. rewrite Hl.
  unfold emptied, label_of, posted_value. cbn [Main.label_to_qid].
  destruct (Main.existing_qid _ _); reflexivity.
Qed.

Lemma refresh_lookup_answers (project_id : Z) (st st' : Main.Ingest) (w w' : World) :
  Main.refresh_lookup project_id st w = (Ok st', w') ->
  Main.answers st' = Main.answers st.
Proof.
  unfold Main.refresh_lookup. intro H.
  apply bind_run in H. destruct H as ([form|s d|] & w1 & _ & H);
    [|destruct H; discriminate|destruct H; discriminate].
  apply bind_run in H. destruct H as ([ql|s d|] & w2 & _ & H);
    [|destruct H; discriminate|destruct H; discriminate].
  unfold ret in H. now inv H.
Qed.

(** A question that has joined the custom block is a key of every later
    lookup of the project, as long as the forms are not written. *)
Lemma added_key_in_later_lookup (project_id : Z) (title : string) (question : dict)
  (k : string) (t : json) (w wa w1 w10 : World) (payload : dict)
  (st : Main.Ingest) (unknown : list string) :
  Crud.add_project_custom_question project_id title question w = (Ok tt, wa) ->
  (forall u, Crud.new_custom_question question u = question) ->
  files_under (JDict question) k t ->
  same_forms wa w1 ->
  Main.start_ingest project_id payload w1 = (Ok (st, unknown), w10) ->
  assoc_get k (Main.qlookup st) <> None.
Proof.
  intros Ha Hnew Hfiles (Hproj & _ & _) Es.
  destruct (start_ingest_ok _ _ _ _ _ _ Es)
    as (p1 & custom1 & vqs1 & ql1 & Hp1 & Hcan1 & _ & _ & Hl1 & -> & _).
  cbn [Main.qlookup].
  destruct (add_ok _ _ _ _ _ Ha)
    as (p & cq & n1 & sections' & Hp & Hcq & Hadd & Hprojs & _ & _).
  rewrite Hnew in Hadd.
  assert (Hp1' : Crud.get_project w1 project_id
                 = Some (Crud.set_custom_questions p (block_with sections' cq))).
  { unfold Crud.get_project. rewrite Hproj, Hprojs.
    now apply get_project_updated. }
  rewrite Hp1' in Hp1. inv Hp1.
  cbn [p_custom_questions Crud.set_custom_questions] in Hcan1.
  pose proof (canonical_custom_document _ _ _ _ Hcq) as Hdoc.
  destruct (canonical_document_sections _ Hdoc) as (_ & Hsecs & _).
  unfold block_with in Hcan1.
  rewrite BlockFacts.canonical_of_new_sections in Hcan1 by exact Hdoc.
  apply ensure_question_ids_ensured in Hcan1.
  rewrite BlockFacts.doc_questions_with_sections in Hcan1.
  assert (Hin : In (JDict question) (all_questions sections')).
  { apply (add_to_section_questions _ _ _ _ Hsecs Hadd). now right. }
  destruct (Forall2_In_l _ _ _ _ Hcan1 Hin) as (q' & Hin' & Hens).
  eapply lookup_questions_complete; [exact Hl1|].
  right. exists q', t. split; [apply in_or_app; now right|].
  eapply ensured_files; eauto.
Qed.

End WithRuntime.
End MetaFacts.

(** X27.  The metadata of a question is unwrapped once only.  Post
    [{k: meta}] where [k] is a UUID that is no question of the project's
    form and [meta] is an object with a label no question of the form
    carries: the record stored holds, under [k], the value of the object
    (its [value], else its [answer]; in its yes/no form for a yes/no
    question).  Post the same payload again: [k] is now a question of the
    form, so the record stored holds, under [k], the whole object [meta],
    and the project's questions are not touched. *)
Theorem metadata_is_unwrapped_once_only `{R : Py.Runtime}
  (project_id user_id user_id' : Z) (k : string) (meta : Py.dict)
  (w w0 w1 w2 : Models.World) (st : Main.Ingest) (unknown : list string)
  (r1 r2 : Models.AnswerRecord) :
  Main._is_uuid k = true ->
  Vocab.carries_label (Py.JDict meta) = true ->
  Main.start_ingest project_id [(k, Py.JDict meta)] w = (Models.Ok (st, unknown), w0) ->
  Py.assoc_get k (Main.qlookup st) = None ->
  Main.existing_qid (Main.label_to_qid st) (Main._norm_label (Vocab.label_of meta))
  = None ->
  Main.create_record project_id user_id [(k, Py.JDict meta)] w = (Models.Ok r1, w1) ->
  Main.create_record project_id user_id' [(k, Py.JDict meta)] w1 = (Models.Ok r2, w2) ->
  (Models.rec_answers r1 = [(k, Vocab.posted_value meta)]
   \/ Models.rec_answers r1 = [(k, Utils.normalize_yes_no (Vocab.posted_value meta))])
  /\ Models.rec_answers r2 = [(k, Py.JDict meta)]
  /\ Models.projects w2 = Models.projects w1.
Proof.
  intros Hu Hl Es Hk Hq Hc1 Hc2.
  destruct (FormFacts.start_ingest_ok _ _ _ _ _ _ Es)
    as (p & custom & vqs & ql & Hp & Hcan & Hdb & Hv & Hlk & Hst & Hun).
  rewrite Hst in Hk. cbn [Main.qlookup] in Hk.
  (* the first call *)
  pose proof Hc1 as H. unfold Main.create_record in H.
  apply DedupFacts.bind_run in H. destruct H as (o & wm & E & H).
  rewrite Es in E. inv E. cbn [fst snd] in H.
  cbn [map fst filter] in H. rewrite Hk in H. cbn [Main.resolve_keys] in H.
  apply DedupFacts.bind_run in H. destruct H as ([st1|s d|] & wm1 & E1 & H);
    [|destruct H; discriminate|destruct H; discriminate].
  apply DedupFacts.bind_run in E1. destruct E1 as ([st2|s d|] & wm2 & E2 & E1);
    [|destruct E1; discriminate|destruct E1; discriminate].
  unfold Models.ret in E1. inv E1.
  rewrite (MetaFacts.resolve_key_meta project_id _ k meta) in E2
    by (reflexivity || assumption).
  cbn [Main.label_to_qid] in Hq, E2. rewrite Hq in E2.
  apply DedupFacts.bind_run in E2. destruct E2 as (o3 & wm3 & E3 & E2).
  destruct (MetaFacts.meta_inference Utils.matches_iso_date
              (Py.py_str (Vocab.label_of meta)) k (Py.get_or_null "type" meta)
              (Vocab.posted_value meta) (Models.uuids_drawn wm))
    as (q & nv & Ei & Hnv & Hnew & Hfiles).
  unfold Models.run_gen in E3. unfold Main._infer_question_from_value in E3.
  rewrite Ei in E3. inv E3. cbn [fst snd] in E2.
  apply DedupFacts.bind_run in E2. destruct E2 as ([[]|s d|] & wa & E4 & E2);
    [|destruct E2; discriminate|destruct E2; discriminate].
  apply DedupFacts.bind_run in E2. destruct E2 as ([st5|s d|] & w5 & E5 & E2);
    [|destruct E2; discriminate|destruct E2; discriminate].
  unfold Models.ret in E2. inv E2.
  pose proof (MetaFacts.refresh_lookup_answers _ _ _ _ _ E5) as Ha5.
  pose proof (DedupFacts.check_and_store_answers _ _ _ _ _ _ H) as Hr1.
  cbn [Main.set_answer Main.answers Spec.emptied] in Hr1, Ha5.
  rewrite Ha5 in Hr1. cbn [Py.dict_set] in Hr1.
  assert (Hforms : Spec.same_forms wa w1).
  { eapply DedupFacts.same_forms_trans.
    - eapply DedupFacts.refresh_lookup_forms; eauto.
    - eapply DedupFacts.check_and_store_forms; eauto. }
  split.
  { destruct Hnv as [->| ->]; [left|right]; exact Hr1. }
  (* the second call *)
  destruct (Main.start_ingest project_id [(k, Py.JDict meta)] w1) as [o1 w10] eqn:Es1.
  destruct o1 as [[st1' unknown1]|s d|].
  2,3: destruct (DedupFacts.failed_start _ _ _ _ _ _ _ _ Es1 ltac:(discriminate) Hc2)
         as [_ Hno]; exfalso; eapply Hno; reflexivity.
  pose proof (MetaFacts.added_key_in_later_lookup _ _ _ k _ _ _ _ _ _ _ _
                E4 Hnew Hfiles Hforms Es1) as Hknown.
  destruct (FormFacts.start_ingest_ok _ _ _ _ _ _ Es1)
    as (p1 & custom1 & vqs1 & ql1 & Hp1 & Hcan1 & Hdb1 & Hv1 & Hl1 & Hst1 & Hun1).
  assert (Eu : unknown1 = []).
  { rewrite Hun1. apply IngestFacts.no_unknown_keys.
    intros k' [<-|[]]. now rewrite Hst1 in Hknown. }
  rewrite Eu in Es1.
  rewrite (IngestFacts.known_keys_run _ _ _ _ _ _ Es1) in Hc2.
  split.
  - rewrite (DedupFacts.check_and_store_answers _ _ _ _ _ _ Hc2), Hst1. reflexivity.
  - destruct (DedupFacts.check_and_store_forms _ _ _ _ _ _ Hc2) as (Hp2 & _).
    destruct Hdb1 as [_ Hp10]. now rewrite Hp2, Hp10.
Qed.

Lemma metadata_is_unwrapped_once_only_witness :
  let payload := [(Cases.sentiment_key, Py.JDict Cases.sentiment_meta)] in
  let first := Main.create_record (R := Sample.runtime) 1 5 payload Examples.alpha_world in
  let second := Main.create_record (R := Sample.runtime) 1 6 payload (snd first) in
  let answers := fun out => match out with
                            | Models.Ok r => Models.rec_answers r
                            | _ => []
                            end in
  (answers (fst first) = [(Cases.sentiment_key, Py.JStr "positive")]
   \/ answers (fst first)
      = [(Cases.sentiment_key, Utils.normalize_yes_no (Py.JStr "positive"))])
  /\ answers (fst second) = [(Cases.sentiment_key, Py.JDict Cases.sentiment_meta)]
  /\ Models.projects (snd second) = Models.projects (snd first).
Proof.
  intros payload first second answers.
  pose (start := Main.start_ingest (R := Sample.runtime) 1 payload Examples.alpha_world).
  apply (metadata_is_unwrapped_once_only (R := Sample.runtime) 1 5 6
           Cases.sentiment_key Cases.sentiment_meta Examples.alpha_world
           (snd start) (snd first) (snd second)
           (match fst start with
            | Models.Ok x => fst x
            | _ => Examples.check_state
            end)
           (match fst start with Models.Ok x => snd x | _ => [] end)
           (match fst first with
            | Models.Ok r => r
            | _ => Models.Build_AnswerRecord 0 0 0 []
            end)
           (match fst second with
            | Models.Ok r => r
            | _ => Models.Build_AnswerRecord 0 0 0 []
            end));
    reflexivity.
Defined.

(** The payload of the handler's comment, posted twice: the first record
    holds the answer, the second the whole object. *)
Example sentiment_twice :
  let payload := [(Cases.sentiment_key, Py.JDict Cases.sentiment_meta)] in
  let first := Main.create_record (R := Sample.runtime) 1 5 payload Examples.alpha_world in
  let second := Main.create_record (R := Sample.runtime) 1 6 payload (snd first) in
  map Models.rec_answers (Models.records (snd second))
  = [[(Cases.sentiment_key, Py.JStr "positive")];
     [(Cases.sentiment_key, Py.JDict Cases.sentiment_meta)]].
Proof. reflexivity. Qed.
